(** * IoTWorkspaceProject: the component registry and its lifecycle driver

    A shallow embedding of [src/Models/IoTWorkspaceProject.ts].  The class
    keeps an ordered registry of components ([componentList]) and drives it
    through load, create, compile, upload, provision and deploy.  Everything
    the class calls but does not define (the component classes, the config
    handler, the Azure helpers, the editor's UI) is a collaborator: its
    answers are read from an environment [Env], and every call made on a
    collaborator is recorded, in order, in the [log] of the [World]. *)

From Stdlib Require Import String List Bool Arith Lia.
From stdpp Require Import base strings list gmap pretty.

Set Default Proof Using "Type".

(** ** Enumerations of the source *)

Module ProjectTemplateType.
Inductive t := Basic | IotHub | AzureFunctions | StreamAnalytics.
End ProjectTemplateType.

Module ConfigKey.
Inductive t := devicePath | boardId | projectType | functionPath | asaPath.

Definition to_nat (k : t) : nat :=
  match k with
  | devicePath => 0 | boardId => 1 | projectType => 2
  | functionPath => 3 | asaPath => 4
  end.

Definition of_nat (n : nat) : t :=
  match n with
  | 0 => devicePath | 1 => boardId | 2 => projectType
  | 3 => functionPath | _ => asaPath
  end.

Definition of_to_nat (k : t) : of_nat (to_nat k) = k :=
  match k with
  | devicePath | boardId | projectType | functionPath | asaPath => eq_refl
  end.

#[global] Instance eq_dec : EqDecision t.
Proof. solve_decision. Defined.

#[global] Instance countable : Countable t :=
  inj_countable' to_nat of_nat of_to_nat.
End ConfigKey.

Module ScaffoldType.
Inductive t := Local | Workspace.
End ScaffoldType.

Module DependencyType.
Inductive t := Other | Input.
End DependencyType.

Module EventNames.
Inductive t := projectLoadEvent | createNewProjectEvent.
End EventNames.

(** The concrete classes the project instantiates with [new]. *)
Inductive ComponentClass :=
| AZ3166Device | IoTButtonDevice | Esp32Device | RaspberryPiDevice
| IoTHub | IoTHubDevice | AzureFunctions | CosmosDB | StreamAnalyticsJob.

#[global] Instance ComponentClass_eq_dec : EqDecision ComponentClass.
Proof. solve_decision. Defined.

(** ** Components and their dependencies

    A [Dependency] is the source's [{component, type}]: it holds what it
    points to.  [load()] fills [component] with what it finds under the
    dependency's id in a plain object ([components[dependent.id]], lines
    233 and 253): a component stored there, or, under a name that every
    object inherits from [Object.prototype], the inherited member. *)
Inductive Member (C : Type) :=
| Stored (c : C)
| Inherited (k : string).
Arguments Stored {C} c.
Arguments Inherited {C} k.

Inductive Component := mkComponent {
  componentClass : ComponentClass;
  id : string;
  name : string;
  dependencies : list Dependency
}
with Dependency := mkDependency {
  component : Member Component;
  type : DependencyType.t
}.

(** A component as the target of a dependency. *)
Definition stored (c : Component) : Member Component := Stored c.
Coercion stored : Component >-> Member.

(** The records of the component config store, as [getSortedComponents]
    hands them out: [{type, id, dependencies: [{id, type}]}]. *)
Record DependencyConfig := mkDependencyConfig {
  dep_id : string;
  dep_type : DependencyType.t
}.

Record ComponentConfig := mkComponentConfig {
  cfg_type : string;
  cfg_id : string;
  cfg_dependencies : list DependencyConfig
}.

(** ** Results, events and the world *)

Definition Error := string.

Inductive Result (A : Type) :=
| Returned (a : A)
| Thrown (e : Error).
Arguments Returned {A} a.
Arguments Thrown {A} e.

(** The methods of the component interfaces. *)
Inductive Action :=
| CheckPrerequisites | Load | Create | Compile | Upload | Provision | Deploy.

#[global] Instance Action_eq_dec : EqDecision Action.
Proof. solve_decision. Defined.

(** Values of [projectConfig.json]: strings, and the template type that
    [create] stores under [ConfigKey.projectType]. *)
Inductive ConfigValue :=
| CfgString (s : string)
| CfgProjectType (t : ProjectTemplateType.t).

Record Workspace := mkWorkspace {
  folders : list string;
  settings : gmap ConfigKey.t string
}.

(** Paths are relative to the project root, one name per segment. *)
Definition Path := list string.

Inductive File :=
| Directory
| WorkspaceFile (w : Workspace)
| ProjectConfigFile (c : gmap ConfigKey.t ConfigValue)
| TextFile (text : string).

(** The project root on disk: [None] when the root folder does not exist,
    otherwise what lies below it. *)
Definition FS := option (gmap Path File).

Inductive Event :=
| EvNew (c : Component)
| EvInvoke (c : Component) (a : Action) (r : Result bool)
| EvUpdateConfigSettings (c : Component) (s : ScaffoldType.t) (r : Result unit)
| EvCreateIfNotExists (s : ScaffoldType.t) (r : Result unit)
| EvSendEvent (n : EventNames.t) (r : Result unit)
| EvCheckAzureLogin (r : Result bool)
| EvAzureUtilityInit
| EvGetResourceGroup (r : Result (option string))
| EvSubscriptionId (s : option string)
| EvShowQuickPick (label placeHolder : string) (selected : bool)
| EvShowInformationMessage (m : string)
| EvShowWarningMessage (m : string)
| EvMkdir (p : Path)
| EvWriteFile (p : Path) (f : File)
| EvRemoveSync
| EvCheckRemoteExtension (r : Result bool)
| EvChannelShow
| EvChannelAppendLine (m : string)
| EvSetTimeout (command : string) (ms : nat).

(** The state a method of the class runs in: the object's own fields
    ([componentList], [projectRootPath]), the project root on disk, and the
    calls made so far. *)
Record World := mkWorld {
  componentList : list Component;
  projectRootPath : string;
  fs : FS;
  log : list Event
}.

(** ** Collaborators

    What the class imports and [src/] does not contain.  Answers may depend
    on everything that happened before (the log). *)
Record Env := mkEnv {
  (* static members of the device classes *)
  AZ3166Device_boardId : string;
  IoTButtonDevice_boardId : string;
  Esp32Device_boardId : string;
  RaspberryPiDevice_boardId : string;
  (* FileNames and DependentExtensions of ../constants *)
  iotworkbenchprojectFileName : string;
  vscodeSettingsFolderName : string;
  DependentExtensions_remote : string;
  (* path.basename, and path.join(p, '..') *)
  basename : string -> string;
  parentOf : string -> string;
  (* the capability guards of IoTWorkbenchProjectBase *)
  canCompile : Component -> bool;
  canUpload : Component -> bool;
  canProvision : Component -> bool;
  canDeploy : Component -> bool;
  (* constructors: the name and the fresh id a new component carries *)
  nameOf : ComponentClass -> string;
  newId : list Event -> ComponentClass -> string;
  (* the id a component carries once load() has run; the record it was
     instantiated for, if any, is passed along *)
  idAfterLoad : list Event -> option ComponentConfig -> Component -> string;
  (* component methods *)
  invoke : list Event -> Component -> Action -> Result bool;
  updateConfigSettings : list Event -> Component -> ScaffoldType.t -> Result unit;
  (* vscode.workspace.workspaceFolders (the fsPath of each folder) *)
  workspaceFolders : list Event -> option (list string);
  (* ConfigHandler.get *)
  configGet : list Event -> ConfigKey.t -> option string;
  (* AzureConfigFileHandler *)
  createIfNotExists : list Event -> ScaffoldType.t -> Result unit;
  getSortedComponents : list Event -> Result (option (list ComponentConfig));
  (* telemetry, login, AzureUtility, quick pick, RemoteExtension *)
  sendEvent : list Event -> EventNames.t -> Result unit;
  checkAzureLogin : list Event -> Result bool;
  getResourceGroup : list Event -> Result (option string);
  subscriptionId : list Event -> option string;
  showQuickPick : list Event -> string -> string -> bool;
  isRemote : list Event -> bool;
  checkRemoteExtension : list Event -> Result bool;
  (* the asaql template shipped with the extension *)
  readAsaTemplate : list Event -> Result string;
  (* what a collaborator call does to the project root on disk *)
  fsEffect : list Event -> Event -> FS -> FS
}.

(** ** The monad: state passing over [World], with thrown errors *)

Definition M (A : Type) := World -> Result A * World.

Definition ret {A} (a : A) : M A := fun w => (Returned a, w).

Definition throw {A} (e : Error) : M A := fun w => (Thrown e, w).

Definition bind {A B} (m : M A) (k : A -> M B) : M B :=
  fun w =>
    match m w with
    | (Returned a, w') => k a w'
    | (Thrown e, w') => (Thrown e, w')
    end.

(** [try { m } catch { h }] *)
Definition catch {A} (m : M A) (h : Error -> M A) : M A :=
  fun w =>
    match m w with
    | (Returned a, w') => (Returned a, w')
    | (Thrown e, w') => h e w'
    end.

Declare Scope m_scope.
Delimit Scope m_scope with M.
Notation "x <- m ;; k" := (bind m (fun x => k))
  (at level 100, m at next level, right associativity) : m_scope.
Notation "m ;;; k" := (bind m (fun _ => k))
  (at level 100, right associativity) : m_scope.
Local Open Scope m_scope.

(** The events a run added to the log. *)
Definition newEvents (w w' : World) : list Event :=
  drop (length (log w)) (log w').

(** JavaScript truthiness of an optional string ([!x] is its negation). *)
Definition truthy (o : option string) : bool :=
  match o with
  | None => false
  | Some s => negb (String.eqb s EmptyString)
  end.

(** Truthiness of a value read from [projectConfig.json]; the members of
    the template enum are taken to be non-zero. *)
Definition truthyValue (o : option ConfigValue) : bool :=
  match o with
  | None => false
  | Some (CfgString s) => negb (String.eqb s EmptyString)
  | Some (CfgProjectType _) => true
  end.

Section Primitives.
Variable E : Env.

(** Read an answer of the environment at the current log. *)
Definition ask {A} (f : list Event -> A) : M A :=
  fun w => (Returned (f (log w)), w).

(** The world after a collaborator call [e]: the call is logged and its
    effect on disk applied. *)
Definition logged (e : Event) (w : World) : World :=
  {| componentList := componentList w;
     projectRootPath := projectRootPath w;
     fs := fsEffect E (log w) e (fs w);
     log := log w ++ [e] |}.

Definition record (e : Event) : M unit :=
  fun w => (Returned tt, logged e w).

(** The world after a call that leaves the project root alone (the
    editor's UI, the class's own file operations, which change [fs]
    themselves). *)
Definition noted (e : Event) (w : World) : World :=
  {| componentList := componentList w;
     projectRootPath := projectRootPath w;
     fs := fs w;
     log := log w ++ [e] |}.

Definition emit (e : Event) : M unit :=
  fun w => (Returned tt, noted e w).

Definition lift {A} (r : Result A) : M A :=
  fun w => (r, w).

(** [await item.action()] *)
Definition call (c : Component) (a : Action) : M bool :=
  r <- ask (fun l => invoke E l c a) ;;
  record (EvInvoke c a r) ;;;
  lift r.

(** [this.componentList.push(c)] *)
Definition pushed (c : Component) (w : World) : World :=
  {| componentList := componentList w ++ [c];
     projectRootPath := projectRootPath w;
     fs := fs w;
     log := log w |}.

Definition push (c : Component) : M unit :=
  fun w => (Returned tt, pushed c w).

Definition getComponentList : M (list Component) :=
  fun w => (Returned (componentList w), w).

(** [for (const item of items) { body }], where the body answers
    [Some b] for [return b] and [None] to go on with the next item. *)
Fixpoint forOf {A} (items : list Component) (body : Component -> M (option A))
  : M (option A) :=
  match items with
  | [] => ret None
  | item :: rest =>
      r <- body item ;;
      match r with
      | Some a => ret (Some a)
      | None => forOf rest body
      end
  end.
End Primitives.

Arguments logged : simpl never.
Arguments noted : simpl never.
Arguments pushed : simpl never.
Arguments call : simpl never.
Arguments record : simpl never.
Arguments emit : simpl never.
Arguments push : simpl never.
Arguments ask : simpl never.

(** ** The methods of IoTWorkspaceProject *)

Definition compileError : Error :=
  "Unable to compile the device code, please check output window for detail.".

Definition uploadError : Error :=
  "Unable to upload the sketch, please check output window for detail.".

Definition notAnIoTProjectError : Error :=
  "Cannot run IoT Device Workbench command in a non-IoTWorkbench project. Please initialize an IoT Device Workbench project first.".

Definition nothingToProvision : string :=
  "Congratulations! There is no Azure service to provision in this project.".

Definition nothingToDeploy : string :=
  "Congratulations! The project does not contain any Azure components to be deployed.".

Definition deploymentFailed (itemName : string) : Error :=
  "The deployment of " +:+ itemName +:+ " failed.".

(** The message of [`Cannot find component with id ${dependent}.`]: the
    template prints the dependency object itself. *)
Definition cannotFindComponent : Error :=
  "Cannot find component with id [object Object].".

Definition notSupported (type : string) : Error :=
  "Component not supported with type of " +:+ type +:+ ".".

Definition rootNotFound : Error :=
  "Unable to find the root path, please open the folder and initialize project again.".

Definition boardNotSupported : Error := "The specified board is not supported.".

(** Errors of the runtime itself. *)
Definition typeErrorUri : Error := "Cannot read property 'uri' of undefined".
Definition enoent : Error := "ENOENT: no such file or directory".
Definition cannotRequire : Error := "Cannot find module".

Definition deviceDefaultFolderName : string := "Device".
Definition functionDefaultFolderName : string := "Functions".
Definition asaFolderName : string := "StreamAnalytics".
Definition workspaceConfigExtension : string := ".code-workspace".
Definition projectConfigFileName : string := "projectConfig.json".

(** [s.replace(/pat/, rep)] for a pattern without metacharacters left and a
    replacement without [$]: the first occurrence only. *)
Fixpoint replaceFirst (pat rep s : string) : string :=
  if String.prefix pat s then rep +:+ String.substring (String.length pat) (String.length s - String.length pat) s
  else match s with
       | EmptyString => EmptyString
       | String ch s' => String ch (replaceFirst pat rep s')
       end.

(** [s] between double quotes. *)
Definition quoted (s : string) : string :=
  String (Ascii.ascii_of_nat 34) (s +:+ String (Ascii.ascii_of_nat 34) EmptyString).

(** The quick-pick label of provision and deploy: every eligible name with
    its position, the acting one marked. *)
Definition progressLabel (itemName : string) (names : list string) : string :=
  String.concat "   -   "
    (imap (fun i n =>
             if String.eqb n itemName
             then ">> " +:+ pretty (S i) +:+ ". " +:+ n
             else pretty (S i) +:+ ". " +:+ n) names).

(** The members of [Object.prototype]: the names under which every plain
    object answers, each with a truthy value (a function, or, for
    [__proto__], the prototype itself). *)
Definition objectPrototypeNames : list string :=
  ["constructor"; "hasOwnProperty"; "isPrototypeOf"; "propertyIsEnumerable";
   "toLocaleString"; "toString"; "valueOf"; "__proto__";
   "__defineGetter__"; "__defineSetter__"; "__lookupGetter__";
   "__lookupSetter__"].

(** [components[k]], where [components] is the object of line 197: born
    [{}] and written at the ids of the components loaded so far, which the
    map holds.  A key of the map answers with its component; any other
    name is looked up on the prototype.  [None] stands for [undefined].

    The map is the object as long as no component is stored under
    [__proto__]: that assignment would replace the prototype, and what the
    object inherits from then on is up to the component classes. *)
Definition lookupMember (components : gmap string Component) (k : string)
  : option (Member Component) :=
  match components !! k with
  | Some c => Some (Stored c)
  | None =>
      if bool_decide (k ∈ objectPrototypeNames) then Some (Inherited k)
      else None
  end.

(** Lines 231-238 and 251-258: [components[dependent.id]] for every
    dependency of a record, against the running id → component object;
    whatever is found is pushed, the first [undefined] throws. *)
Fixpoint resolveDependencies (components : gmap string Component)
    (deps : list DependencyConfig) (acc : list Dependency)
  : Result (list Dependency) :=
  match deps with
  | [] => Returned acc
  | dependent :: rest =>
      match lookupMember components (dep_id dependent) with
      | None => Thrown cannotFindComponent
      | Some component =>
          resolveDependencies components rest
            (acc ++ [mkDependency component (dep_type dependent)])
      end
  end.

Section Methods.
Variable E : Env.

(** *** File operations of the class on the project root *)

Definition existsSync (p : Path) : M bool :=
  fun w =>
    (Returned match fs w with
              | Some files => bool_decide (is_Some (files !! p))
              | None => false
              end, w).

Definition rootExists : M bool :=
  fun w => (Returned (bool_decide (is_Some (fs w))), w).

Definition directoryExists (p : Path) : M bool :=
  fun w =>
    (Returned match fs w with
              | Some files =>
                  match files !! p with Some Directory => true | _ => false end
              | None => false
              end, w).

Definition fileExists (p : Path) : M bool :=
  fun w =>
    (Returned match fs w with
              | Some files =>
                  match files !! p with
                  | Some Directory | None => false
                  | Some _ => true
                  end
              | None => false
              end, w).

Definition putFile (p : Path) (f : File) (w : World) : World :=
  {| componentList := componentList w;
     projectRootPath := projectRootPath w;
     fs := match fs w with
           | Some files => Some (<[p := f]> files)
           | None => Some {[ p := f ]}
           end;
     log := log w |}.

(** [fs.mkdirSync], [fs.writeFileSync]: they throw when the root is gone. *)
Definition mkdirSync (p : Path) : M unit :=
  fun w =>
    match fs w with
    | Some _ => (Returned tt, noted (EvMkdir p) (putFile p Directory w))
    | None => (Thrown enoent, w)
    end.

Definition writeFileSync (p : Path) (f : File) : M unit :=
  fun w =>
    match fs w with
    | Some _ => (Returned tt, noted (EvWriteFile p f) (putFile p f w))
    | None => (Thrown enoent, w)
    end.

(** [FileUtility.mkdirRecursively] creates the missing parents as well. *)
Definition mkdirRecursively (p : Path) : M unit :=
  fun w => (Returned tt, noted (EvMkdir p) (putFile p Directory w)).

(** [FileUtility.writeFile(...)] without [await] (line 701): the call is
    made and the method goes on.  How much of the write has reached the
    disk by then is the collaborator's [fsEffect]; a failure stays in the
    promise nobody looks at. *)
Definition writeFile (p : Path) (f : File) : M unit :=
  record E (EvWriteFile p f).

(** [fs.removeSync(this.projectRootPath)] *)
Definition removeRoot (w : World) : World :=
  {| componentList := componentList w;
     projectRootPath := projectRootPath w;
     fs := None;
     log := log w |}.

Definition removeSync : M unit :=
  fun w => (Returned tt, noted EvRemoveSync (removeRoot w)).

Definition setProjectRootPath (p : string) : M unit :=
  fun w =>
    (Returned tt,
     {| componentList := componentList w;
        projectRootPath := p;
        fs := fs w;
        log := log w |}).

(** [require(projectConfigFile)] *)
Definition requireJson (p : Path) : M (gmap ConfigKey.t ConfigValue) :=
  fun w =>
    match fs w with
    | Some files =>
        match files !! p with
        | Some (ProjectConfigFile c) => (Returned c, w)
        | Some (WorkspaceFile _) => (Returned ∅, w)
        | _ => (Thrown cannotRequire, w)
        end
    | None => (Thrown cannotRequire, w)
    end.

(** *** Calls on collaborators *)

(** [new Class(..., dependencies)] *)
Definition new (cls : ComponentClass) (deps : list Dependency) : M Component :=
  i <- ask (fun l => newId E l cls) ;;
  record E (EvNew (mkComponent cls i (nameOf E cls) deps)) ;;;
  ret (mkComponent cls i (nameOf E cls) deps).

(** [await c.load()], after which [c.id] is what the component rehydrated. *)
Definition loadComponent (cfg : option ComponentConfig) (c : Component)
  : M Component :=
  _ <- call E c Load ;;
  i <- ask (fun l => idAfterLoad E l cfg c) ;;
  ret (mkComponent (componentClass c) i (name c) (dependencies c)).

Definition updateSettings (c : Component) (s : ScaffoldType.t) : M unit :=
  r <- ask (fun l => updateConfigSettings E l c s) ;;
  record E (EvUpdateConfigSettings c s r) ;;;
  lift r.

Definition createStore (s : ScaffoldType.t) : M unit :=
  r <- ask (fun l => createIfNotExists E l s) ;;
  record E (EvCreateIfNotExists s r) ;;;
  lift r.

(** [try { TelemetryWorker.sendEvent(...) } catch { }] *)
Definition trySendEvent (n : EventNames.t) : M unit :=
  catch (r <- ask (fun l => sendEvent E l n) ;;
         record E (EvSendEvent n r) ;;;
         lift r)
        (fun _ => ret tt).

Definition awaitCheckAzureLogin : M bool :=
  r <- ask (checkAzureLogin E) ;;
  record E (EvCheckAzureLogin r) ;;;
  lift r.

Definition awaitGetResourceGroup : M (option string) :=
  r <- ask (getResourceGroup E) ;;
  record E (EvGetResourceGroup r) ;;;
  lift r.

Definition readSubscriptionId : M (option string) :=
  s <- ask (subscriptionId E) ;;
  emit (EvSubscriptionId s) ;;;
  ret s.

Definition quickPick (label placeHolder : string) : M bool :=
  selection <- ask (fun l => showQuickPick E l label placeHolder) ;;
  emit (EvShowQuickPick label placeHolder selection) ;;;
  ret selection.

Definition remoteExtensionAvailable : M bool :=
  r <- ask (checkRemoteExtension E) ;;
  record E (EvCheckRemoteExtension r) ;;;
  lift r.

(** [this.componentList.forEach(item => { item.checkPrerequisites(); })]:
    every promise is dropped, whatever it settles to. *)
Fixpoint checkAll (items : list Component) : M unit :=
  match items with
  | [] => ret tt
  | item :: rest =>
      r <- ask (fun l => invoke E l item CheckPrerequisites) ;;
      record E (EvInvoke item CheckPrerequisites r) ;;;
      checkAll rest
  end.

(** *** compile, upload *)

Definition compileItem (item : Component) : M (option bool) :=
  if canCompile E item then
    isPrerequisitesAchieved <- call E item CheckPrerequisites ;;
    if negb isPrerequisitesAchieved then ret (Some false)
    else
      res <- call E item Compile ;;
      if negb res then throw compileError else ret None
  else ret None.

Definition compile : M bool :=
  items <- getComponentList ;;
  r <- forOf items compileItem ;;
  match r with
  | Some b => ret b
  | None => ret true
  end.

Definition uploadItem (item : Component) : M (option bool) :=
  if canUpload E item then
    isPrerequisitesAchieved <- call E item CheckPrerequisites ;;
    if negb isPrerequisitesAchieved then ret (Some false)
    else
      res <- call E item Upload ;;
      if negb res then throw uploadError else ret None
  else ret None.

Definition upload : M bool :=
  items <- getComponentList ;;
  r <- forOf items uploadItem ;;
  match r with
  | Some b => ret b
  | None => ret true
  end.

(** One loop body for compile and upload alike: [can] is the capability
    guard, [act] the phase method, [err] the error thrown on [false]. *)
Definition phaseItem (can : Component -> bool) (act : Action) (err : Error)
    (item : Component) : M (option bool) :=
  if can item then
    isPrerequisitesAchieved <- call E item CheckPrerequisites ;;
    if negb isPrerequisitesAchieved then ret (Some false)
    else
      res <- call E item act ;;
      if negb res then throw err else ret None
  else ret None.

(** *** provision, deploy *)

(** The first pass of provision and deploy: the names of the eligible
    components whose prerequisites hold; [None] stands for [return false]. *)
Fixpoint collectEligible (can : Component -> bool) (items : list Component)
    (itemList : list string) : M (option (list string)) :=
  match items with
  | [] => ret (Some itemList)
  | item :: rest =>
      if can item then
        isPrerequisitesAchieved <- call E item CheckPrerequisites ;;
        if negb isPrerequisitesAchieved then ret None
        else collectEligible can rest (itemList ++ [name item])
      else collectEligible can rest itemList
  end.

Definition provisionItem (provisionItemList : list string) (item : Component)
  : M (option bool) :=
  if canProvision E item then
    selection <- quickPick (progressLabel (name item) provisionItemList)
                           "Provision process" ;;
    if negb selection then ret (Some false)
    else
      res <- call E item Provision ;;
      if negb res then
        emit (EvShowWarningMessage "Provision canceled.") ;;;
        ret (Some false)
      else ret None
  else ret None.

Definition provision : M bool :=
  devicePath <- ask (fun l => configGet E l ConfigKey.devicePath) ;;
  if negb (truthy devicePath) then throw notAnIoTProjectError
  else
    items <- getComponentList ;;
    eligible <- collectEligible (canProvision E) items [] ;;
    match eligible with
    | None => ret false
    | Some provisionItemList =>
        if length provisionItemList =? 0 then
          emit (EvShowInformationMessage nothingToProvision) ;;;
          ret false
        else if 0 <? length provisionItemList then
          _ <- awaitCheckAzureLogin ;;
          record E EvAzureUtilityInit ;;;
          resourceGroup <- awaitGetResourceGroup ;;
          subscriptionId <- readSubscriptionId ;;
          if negb (truthy resourceGroup) || negb (truthy subscriptionId)
          then ret false
          else
            r <- forOf items (provisionItem provisionItemList) ;;
            match r with
            | Some b => ret b
            | None => ret true
            end
        else ret false
    end.

Definition deployItem (deployItemList : list string) (item : Component)
  : M (option bool) :=
  if canDeploy E item then
    selection <- quickPick (progressLabel (name item) deployItemList)
                           "Deploy process" ;;
    if negb selection then ret (Some false)
    else
      res <- call E item Deploy ;;
      if negb res then throw (deploymentFailed (name item)) else ret None
  else ret None.

Definition deploy : M bool :=
  items <- getComponentList ;;
  eligible <- collectEligible (canDeploy E) items [] ;;
  match eligible with
  | None => ret false
  | Some deployItemList =>
      if length deployItemList <=? 0 then
        emit (EvShowInformationMessage nothingToDeploy) ;;;
        ret false
      else
        _ <- awaitCheckAzureLogin ;;
        r <- forOf items (deployItem deployItemList) ;;
        match r with
        | Some b => ret b
        | None =>
            emit (EvShowInformationMessage "Azure deploy succeeded.") ;;;
            ret true
        end
  end.

(** One loop body for the second pass of provision and deploy alike:
    [onFalse] is what the loop does when the phase method answers [false]. *)
Definition confirmItem (can : Component -> bool) (act : Action)
    (placeHolder : string) (itemList : list string)
    (onFalse : Component -> M (option bool)) (item : Component)
  : M (option bool) :=
  if can item then
    selection <- quickPick (progressLabel (name item) itemList) placeHolder ;;
    if negb selection then ret (Some false)
    else
      res <- call E item act ;;
      if negb res then onFalse item else ret None
  else ret None.

(** *** load *)

(** The device class a board id selects (lines 141-155). *)
Definition deviceOfBoard (boardId : string) : option ComponentClass :=
  if String.eqb boardId (AZ3166Device_boardId E) then Some AZ3166Device
  else if String.eqb boardId (IoTButtonDevice_boardId E) then Some IoTButtonDevice
  else if String.eqb boardId (Esp32Device_boardId E) then Some Esp32Device
  else if String.eqb boardId (RaspberryPiDevice_boardId E) then Some RaspberryPiDevice
  else None.

(** Lines 78-160: the checks on the opened folder and the device.  [None]
    stands for [return false].  The workspace folders are read once; the
    project root is the parent of the first one, and the files looked at
    are named from that root. *)
Definition loadDevice (initLoad : bool) : M (option unit) :=
  workspaceFolders <- ask (workspaceFolders E) ;;
  match workspaceFolders with
  | None => ret None
  | Some folders =>
      devicePath <- ask (fun l => configGet E l ConfigKey.devicePath) ;;
      match devicePath with
      | None => ret None
      | Some devicePath =>
          if String.eqb devicePath EmptyString then ret None
          else
            match folders with
            | [] => throw typeErrorUri
            | folder :: _ =>
                setProjectRootPath (parentOf E folder) ;;;
                projectFileExists <-
                  existsSync [devicePath; iotworkbenchprojectFileName E] ;;
                if negb projectFileExists then ret None
                else
                  configFileExists <-
                    existsSync [vscodeSettingsFolderName E; projectConfigFileName] ;;
                  if negb configFileExists then ret None
                  else
                    projectConfigJson <-
                      requireJson [vscodeSettingsFolderName E; projectConfigFileName] ;;
                    (if initLoad then trySendEvent EventNames.projectLoadEvent
                     else ret tt) ;;;
                    createStore ScaffoldType.Workspace ;;;
                    boardId <- ask (fun l => configGet E l ConfigKey.boardId) ;;
                    match boardId with
                    | None => ret None
                    | Some boardId =>
                        if String.eqb boardId EmptyString then ret None
                        else if negb (truthyValue (projectConfigJson !! ConfigKey.projectType))
                        then ret None
                        else
                          match deviceOfBoard boardId with
                          | Some cls =>
                              device <- new cls [] ;;
                              push device ;;;
                              _ <- call E device Load ;;
                              ret (Some tt)
                          | None => ret (Some tt)
                          end
                    end
            end
      end
  end.

(** Lines 165-193: a project without component records. *)
Definition loadLegacy : M bool :=
  hub <- new IoTHub [] ;;
  updateSettings hub ScaffoldType.Workspace ;;;
  iotHub <- loadComponent None hub ;;
  push iotHub ;;;
  device <- new IoTHubDevice [] ;;
  push device ;;;
  functionPath <- ask (fun l => configGet E l ConfigKey.functionPath) ;;
  (if truthy functionPath then
     functions <- new AzureFunctions [mkDependency iotHub DependencyType.Input] ;;
     updateSettings functions ScaffoldType.Workspace ;;;
     functionApp <- loadComponent None functions ;;
     push functionApp
   else ret tt) ;;;
  items <- getComponentList ;;
  checkAll items ;;;
  ret true.

(** Lines 200-271: the body of the loop over the records.  One component
    per record, its dependencies looked up in [components], the object
    filled while the records are walked; the answer is that object after
    the record, or [None] for [return false]. *)
Definition loadComponentConfig (componentConfig : ComponentConfig)
    (components : gmap string Component)
  : M (option (gmap string Component)) :=
  if String.eqb (cfg_type componentConfig) "IoTHub" then
    hub <- new IoTHub [] ;;
    iotHub <- loadComponent (Some componentConfig) hub ;;
    push iotHub ;;;
    device <- new IoTHubDevice [] ;;
    push device ;;;
    ret (Some (<[id iotHub := iotHub]> components))
  else if String.eqb (cfg_type componentConfig) "AzureFunctions" then
    functionPath <- ask (fun l => configGet E l ConfigKey.functionPath) ;;
    if negb (truthy functionPath) then ret None
    else
      functions <- new AzureFunctions [] ;;
      functionApp <- loadComponent (Some componentConfig) functions ;;
      push functionApp ;;;
      ret (Some (<[id functionApp := functionApp]> components))
  else if String.eqb (cfg_type componentConfig) "StreamAnalyticsJob" then
    dependencies <-
      lift (resolveDependencies components (cfg_dependencies componentConfig) []) ;;
    job <- new StreamAnalyticsJob dependencies ;;
    asa <- loadComponent (Some componentConfig) job ;;
    push asa ;;;
    ret (Some (<[id asa := asa]> components))
  else if String.eqb (cfg_type componentConfig) "CosmosDB" then
    dependencies <-
      lift (resolveDependencies components (cfg_dependencies componentConfig) []) ;;
    db <- new CosmosDB dependencies ;;
    cosmosDB <- loadComponent (Some componentConfig) db ;;
    push cosmosDB ;;;
    ret (Some (<[id cosmosDB := cosmosDB]> components))
  else throw (notSupported (cfg_type componentConfig)).

(** Lines 197-272: the loop over the records, from the object
    [components] built so far. *)
Fixpoint loadComponentConfigs (componentConfigs : list ComponentConfig)
    (components : gmap string Component) : M (option unit) :=
  match componentConfigs with
  | [] => ret (Some tt)
  | componentConfig :: rest =>
      r <- loadComponentConfig componentConfig components ;;
      match r with
      | None => ret None
      | Some components => loadComponentConfigs rest components
      end
  end.

Definition load (initLoad : bool) : M bool :=
  ready <- loadDevice initLoad ;;
  match ready with
  | None => ret false
  | Some _ =>
      sorted <- ask (getSortedComponents E) ;;
      componentConfigs <- lift sorted ;;
      match componentConfigs with
      | None | Some [] => loadLegacy
      | Some componentConfigs =>
          loaded <- loadComponentConfigs componentConfigs ∅ ;;
          match loaded with
          | None => ret false
          | Some _ =>
              items <- getComponentList ;;
              checkAll items ;;;
              ret true
          end
      end
  end.

(** *** create *)

(** Lines 547-661: the components of the chosen template.  [None] stands
    for [return false]. *)
Definition expandTemplate (projectType : ProjectTemplateType.t)
    (workspace : Workspace) (projectConfig : gmap ConfigKey.t ConfigValue)
  : M (option (Workspace * gmap ConfigKey.t ConfigValue)) :=
  match projectType with
  | ProjectTemplateType.Basic => ret (Some (workspace, projectConfig))
  | ProjectTemplateType.IotHub =>
      iothub <- new IoTHub [] ;;
      isPrerequisitesAchieved <- call E iothub CheckPrerequisites ;;
      if negb isPrerequisitesAchieved then ret None
      else
        push iothub ;;;
        ret (Some (workspace, projectConfig))
  | ProjectTemplateType.AzureFunctions =>
      iothub <- new IoTHub [] ;;
      isIotHubPrerequisitesAchieved <- call E iothub CheckPrerequisites ;;
      if negb isIotHubPrerequisitesAchieved then ret None
      else
        functionDirExists <- existsSync [functionDefaultFolderName] ;;
        (if negb functionDirExists then mkdirSync [functionDefaultFolderName]
         else ret tt) ;;;
        azureFunctions <-
          new AzureFunctions [mkDependency iothub DependencyType.Input] ;;
        isFunctionsPrerequisitesAchieved <-
          call E azureFunctions CheckPrerequisites ;;
        if negb isFunctionsPrerequisitesAchieved then ret None
        else
          push iothub ;;;
          push azureFunctions ;;;
          ret (Some
                 ({| folders := folders workspace ++ [functionDefaultFolderName];
                     settings := <[ConfigKey.functionPath := functionDefaultFolderName]>
                                   (settings workspace) |},
                  <[ConfigKey.functionPath := CfgString functionDefaultFolderName]>
                    projectConfig))
  | ProjectTemplateType.StreamAnalytics =>
      iothub <- new IoTHub [] ;;
      isIotHubPrerequisitesAchieved <- call E iothub CheckPrerequisites ;;
      if negb isIotHubPrerequisitesAchieved then ret None
      else
        cosmosDB <- new CosmosDB [] ;;
        isCosmosDBPrerequisitesAchieved <- call E cosmosDB CheckPrerequisites ;;
        if negb isCosmosDBPrerequisitesAchieved then ret None
        else
          asaDirExists <- existsSync [asaFolderName] ;;
          (if negb asaDirExists then mkdirSync [asaFolderName] else ret tt) ;;;
          template <- ask (readAsaTemplate E) ;;
          template <- lift template ;;
          writeFileSync [asaFolderName; "query.asaql"]
            (TextFile
               (replaceFirst "[output]" (quoted ("cosmosdb-" +:+ id cosmosDB))
                  (replaceFirst "[input]" (quoted ("iothub-" +:+ id iothub))
                     template))) ;;;
          asa <- new StreamAnalyticsJob
                   [mkDependency iothub DependencyType.Input;
                    mkDependency cosmosDB DependencyType.Other] ;;
          isAsaPrerequisitesAchieved <- call E asa CheckPrerequisites ;;
          if negb isAsaPrerequisitesAchieved then ret None
          else
            push iothub ;;;
            push cosmosDB ;;;
            push asa ;;;
            ret (Some
                   ({| folders := folders workspace ++ [asaFolderName];
                       settings := <[ConfigKey.asaPath := asaFolderName]>
                                     (settings workspace) |},
                    <[ConfigKey.asaPath := CfgString asaFolderName]> projectConfig))
  end.

(** Lines 479-661: everything before the components are created. *)
Definition scaffold (rootFolderPath : string)
    (projectType : ProjectTemplateType.t) (boardId : string)
  : M (option (Workspace * gmap ConfigKey.t ConfigValue)) :=
  rootFolderPathExists <- rootExists ;;
  if negb rootFolderPathExists then throw rootNotFound
  else
    setProjectRootPath rootFolderPath ;;;
    createStore ScaffoldType.Local ;;;
    deviceDirExists <- existsSync [deviceDefaultFolderName] ;;
    (if negb deviceDirExists then mkdirSync [deviceDefaultFolderName]
     else ret tt) ;;;
    if String.eqb boardId (RaspberryPiDevice_boardId E) then
      device <- new RaspberryPiDevice [] ;;
      isPrerequisitesAchieved <- call E device CheckPrerequisites ;;
      if negb isPrerequisitesAchieved then ret None
      else
        push device ;;;
        push device ;;;
        expandTemplate projectType
          {| folders := [deviceDefaultFolderName];
             settings := <[ConfigKey.devicePath := deviceDefaultFolderName]>
                           (<[ConfigKey.boardId := boardId]> ∅) |}
          (<[ConfigKey.projectType := CfgProjectType projectType]>
             (<[ConfigKey.boardId := CfgString boardId]> ∅))
    else throw boardNotSupported.

(** Lines 670-681: [create()] on every component of the registry; [false]
    when one of them answered [false] and the root was removed. *)
Definition createItem (item : Component) : M (option bool) :=
  res <- call E item Create ;;
  if negb res then
    removeSync ;;;
    emit (EvShowWarningMessage "Project initialize canceled.") ;;;
    ret (Some false)
  else ret None.

Definition createComponents : M bool :=
  items <- getComponentList ;;
  r <- catch (forOf items createItem) (fun error => throw error) ;;
  match r with
  | Some b => ret b
  | None => ret true
  end.

(** The command of the helper extension that line 741 queues. *)
Definition openInContainer : string := "iotcube.openInContainer".

(** Lines 683-748: the workspace file is written, the write of the
    project config asked for, and the opening of the project queued.
    [setTimeout(..., 500)] only sets a timer: the command has not run when
    the method returns [true]. *)
Definition persist (rootFolderPath : string) (workspace : Workspace)
    (projectConfig : gmap ConfigKey.t ConfigValue) (openInNewWindow : bool)
  : M bool :=
  writeFileSync [basename E rootFolderPath +:+ workspaceConfigExtension]
    (WorkspaceFile workspace) ;;;
  vscodeFolderExists <- directoryExists [vscodeSettingsFolderName E] ;;
  (if negb vscodeFolderExists then mkdirRecursively [vscodeSettingsFolderName E]
   else ret tt) ;;;
  projectConfigFileExists <-
    fileExists [vscodeSettingsFolderName E; projectConfigFileName] ;;
  (if negb projectConfigFileExists then
     writeFile [vscodeSettingsFolderName E; projectConfigFileName]
       (ProjectConfigFile projectConfig)
   else ret tt) ;;;
  (if negb openInNewWindow then trySendEvent EventNames.createNewProjectEvent
   else ret tt) ;;;
  catch
    (remote <- ask (isRemote E) ;;
     available <- (if negb remote then remoteExtensionAvailable else ret true) ;;
     if negb available then
       emit EvChannelShow ;;;
       emit (EvChannelAppendLine
               ("Remote extension is not available. Please install "
                  +:+ DependentExtensions_remote E +:+ " first.")) ;;;
       ret false
     else
       emit (EvSetTimeout openInContainer 500) ;;;
       ret true)
    (fun error => throw error).

Definition create (rootFolderPath : string)
    (projectType : ProjectTemplateType.t) (boardId : string)
    (openInNewWindow : bool) : M bool :=
  scaffolded <- scaffold rootFolderPath projectType boardId ;;
  match scaffolded with
  | None => ret false
  | Some (workspace, projectConfig) =>
      created <- createComponents ;;
      if created then persist rootFolderPath workspace projectConfig openInNewWindow
      else ret false
  end.
End Methods.

Arguments putFile : simpl never.
Arguments removeRoot : simpl never.

(** ** Runs, as relations between a registry and the calls made

    Each relation lists the ways a loop of the class can go over [items]:
    which calls it makes, in order, and how it ends ([Returned None]: the
    loop fell through to the statement after it). *)

(** The loop of compile and upload. *)
Inductive PhaseTrace (can : Component → bool) (act : Action) (err : Error)
  : list Component → list Event → Result (option bool) → Prop :=
| PT_done :
    PhaseTrace can act err [] [] (Returned None)
| PT_skip item rest evs r :
    can item = false →
    PhaseTrace can act err rest evs r →
    PhaseTrace can act err (item :: rest) evs r
| PT_acted item rest evs r :
    can item = true →
    PhaseTrace can act err rest evs r →
    PhaseTrace can act err (item :: rest)
      (EvInvoke item CheckPrerequisites (Returned true)
         :: EvInvoke item act (Returned true) :: evs) r
| PT_prerequisites_failed item rest :
    can item = true →
    PhaseTrace can act err (item :: rest)
      [EvInvoke item CheckPrerequisites (Returned false)]
      (Returned (Some false))
| PT_prerequisites_threw item rest e :
    can item = true →
    PhaseTrace can act err (item :: rest)
      [EvInvoke item CheckPrerequisites (Thrown e)] (Thrown e)
| PT_action_failed item rest :
    can item = true →
    PhaseTrace can act err (item :: rest)
      [EvInvoke item CheckPrerequisites (Returned true);
       EvInvoke item act (Returned false)] (Thrown err)
| PT_action_threw item rest e :
    can item = true →
    PhaseTrace can act err (item :: rest)
      [EvInvoke item CheckPrerequisites (Returned true);
       EvInvoke item act (Thrown e)] (Thrown e).

(** The first pass of provision and deploy, from the names gathered so far. *)
Inductive EligibleTrace (can : Component → bool)
  : list Component → list string → list Event
    → Result (option (list string)) → Prop :=
| ET_done itemList :
    EligibleTrace can [] itemList [] (Returned (Some itemList))
| ET_skip item rest itemList evs r :
    can item = false →
    EligibleTrace can rest itemList evs r →
    EligibleTrace can (item :: rest) itemList evs r
| ET_eligible item rest itemList evs r :
    can item = true →
    EligibleTrace can rest (itemList ++ [name item]) evs r →
    EligibleTrace can (item :: rest) itemList
      (EvInvoke item CheckPrerequisites (Returned true) :: evs) r
| ET_prerequisites_failed item rest itemList :
    can item = true →
    EligibleTrace can (item :: rest) itemList
      [EvInvoke item CheckPrerequisites (Returned false)] (Returned None)
| ET_prerequisites_threw item rest itemList e :
    can item = true →
    EligibleTrace can (item :: rest) itemList
      [EvInvoke item CheckPrerequisites (Thrown e)] (Thrown e).

(** The second pass of provision and deploy: one confirmation per eligible
    component, then its phase method; [falseEvents] and [falseResult] are
    what follows an answer of [false]. *)
Inductive ConfirmTrace (can : Component → bool) (act : Action)
    (placeHolder : string) (itemList : list string)
    (falseEvents : list Event) (falseResult : Component → Result (option bool))
  : list Component → list Event → Result (option bool) → Prop :=
| CF_done :
    ConfirmTrace can act placeHolder itemList falseEvents falseResult
      [] [] (Returned None)
| CF_skip item rest evs r :
    can item = false →
    ConfirmTrace can act placeHolder itemList falseEvents falseResult rest evs r →
    ConfirmTrace can act placeHolder itemList falseEvents falseResult
      (item :: rest) evs r
| CF_acted item rest evs r :
    can item = true →
    ConfirmTrace can act placeHolder itemList falseEvents falseResult rest evs r →
    ConfirmTrace can act placeHolder itemList falseEvents falseResult
      (item :: rest)
      (EvShowQuickPick (progressLabel (name item) itemList) placeHolder true
         :: EvInvoke item act (Returned true) :: evs) r
| CF_declined item rest :
    can item = true →
    ConfirmTrace can act placeHolder itemList falseEvents falseResult
      (item :: rest)
      [EvShowQuickPick (progressLabel (name item) itemList) placeHolder false]
      (Returned (Some false))
| CF_action_failed item rest :
    can item = true →
    ConfirmTrace can act placeHolder itemList falseEvents falseResult
      (item :: rest)
      (EvShowQuickPick (progressLabel (name item) itemList) placeHolder true
         :: EvInvoke item act (Returned false) :: falseEvents)
      (falseResult item)
| CF_action_threw item rest e :
    can item = true →
    ConfirmTrace can act placeHolder itemList falseEvents falseResult
      (item :: rest)
      [EvShowQuickPick (progressLabel (name item) itemList) placeHolder true;
       EvInvoke item act (Thrown e)] (Thrown e).

(** The calls between the two passes of provision. *)
Definition provisionGate (login : bool) (group subscription : option string)
  : list Event :=
  [EvCheckAzureLogin (Returned login); EvAzureUtilityInit;
   EvGetResourceGroup (Returned group); EvSubscriptionId subscription].

Definition provisionCanceled : list Event :=
  [EvShowWarningMessage "Provision canceled."].

(** All the ways [provision] can go over the registry [items]. *)
Inductive ProvisionRun (E : Env) (items : list Component)
  : list Event → Result bool → Prop :=
| PR_not_a_project :
    ProvisionRun E items [] (Thrown notAnIoTProjectError)
| PR_prerequisites_threw evs e :
    EligibleTrace (canProvision E) items [] evs (Thrown e) →
    ProvisionRun E items evs (Thrown e)
| PR_prerequisites_failed evs :
    EligibleTrace (canProvision E) items [] evs (Returned None) →
    ProvisionRun E items evs (Returned false)
| PR_nothing_to_provision evs :
    EligibleTrace (canProvision E) items [] evs (Returned (Some [])) →
    ProvisionRun E items
      (evs ++ [EvShowInformationMessage nothingToProvision]) (Returned false)
| PR_login_threw evs itemList e :
    EligibleTrace (canProvision E) items [] evs (Returned (Some itemList)) →
    itemList ≠ [] →
    ProvisionRun E items (evs ++ [EvCheckAzureLogin (Thrown e)]) (Thrown e)
| PR_resource_group_threw evs itemList login e :
    EligibleTrace (canProvision E) items [] evs (Returned (Some itemList)) →
    itemList ≠ [] →
    ProvisionRun E items
      (evs ++ [EvCheckAzureLogin (Returned login); EvAzureUtilityInit;
               EvGetResourceGroup (Thrown e)]) (Thrown e)
| PR_unresolved evs itemList login group subscription :
    EligibleTrace (canProvision E) items [] evs (Returned (Some itemList)) →
    itemList ≠ [] →
    truthy group && truthy subscription = false →
    ProvisionRun E items (evs ++ provisionGate login group subscription)
      (Returned false)
| PR_provisioning evs itemList login group subscription evs' r :
    EligibleTrace (canProvision E) items [] evs (Returned (Some itemList)) →
    itemList ≠ [] →
    truthy group = true → truthy subscription = true →
    ConfirmTrace (canProvision E) Provision "Provision process" itemList
      provisionCanceled (fun _ => Returned (Some false)) items evs' r →
    ProvisionRun E items
      (evs ++ provisionGate login group subscription ++ evs')
      match r with
      | Returned (Some b) => Returned b
      | Returned None => Returned true
      | Thrown e => Thrown e
      end.

(** All the ways [deploy] can go over the registry [items]. *)
Inductive DeployRun (E : Env) (items : list Component)
  : list Event → Result bool → Prop :=
| DR_prerequisites_threw evs e :
    EligibleTrace (canDeploy E) items [] evs (Thrown e) →
    DeployRun E items evs (Thrown e)
| DR_prerequisites_failed evs :
    EligibleTrace (canDeploy E) items [] evs (Returned None) →
    DeployRun E items evs (Returned false)
| DR_nothing_to_deploy evs :
    EligibleTrace (canDeploy E) items [] evs (Returned (Some [])) →
    DeployRun E items
      (evs ++ [EvShowInformationMessage nothingToDeploy]) (Returned false)
| DR_login_threw evs itemList e :
    EligibleTrace (canDeploy E) items [] evs (Returned (Some itemList)) →
    itemList ≠ [] →
    DeployRun E items (evs ++ [EvCheckAzureLogin (Thrown e)]) (Thrown e)
| DR_stopped evs itemList login evs' r :
    EligibleTrace (canDeploy E) items [] evs (Returned (Some itemList)) →
    itemList ≠ [] →
    ConfirmTrace (canDeploy E) Deploy "Deploy process" itemList
      [] (fun item => Thrown (deploymentFailed (name item))) items evs' r →
    r ≠ Returned None →
    DeployRun E items
      (evs ++ EvCheckAzureLogin (Returned login) :: evs')
      match r with
      | Returned (Some b) => Returned b
      | Returned None => Returned true
      | Thrown e => Thrown e
      end
| DR_deployed evs itemList login evs' :
    EligibleTrace (canDeploy E) items [] evs (Returned (Some itemList)) →
    itemList ≠ [] →
    ConfirmTrace (canDeploy E) Deploy "Deploy process" itemList
      [] (fun item => Thrown (deploymentFailed (name item))) items evs'
      (Returned None) →
    DeployRun E items
      (evs ++ EvCheckAzureLogin (Returned login) :: evs'
           ++ [EvShowInformationMessage "Azure deploy succeeded."])
      (Returned true).

(** The loop of create over the registry. *)
Inductive CreateTrace
  : list Component → list Event → Result (option bool) → Prop :=
| CT_done :
    CreateTrace [] [] (Returned None)
| CT_created item rest evs r :
    CreateTrace rest evs r →
    CreateTrace (item :: rest) (EvInvoke item Create (Returned true) :: evs) r
| CT_canceled item rest :
    CreateTrace (item :: rest)
      [EvInvoke item Create (Returned false); EvRemoveSync;
       EvShowWarningMessage "Project initialize canceled."]
      (Returned (Some false))
| CT_threw item rest e :
    CreateTrace (item :: rest) [EvInvoke item Create (Thrown e)] (Thrown e).

(** ** Reading the log *)

(** The components a given method was called on, in call order. *)
Definition invoked (a : Action) (evs : list Event) : list Component :=
  omap (fun e =>
          match e with
          | EvInvoke c a' _ => if decide (a' = a) then Some c else None
          | _ => None
          end) evs.

(** Events other than a call of [a] on a component. *)
Definition notInvoke (a : Action) (e : Event) : bool :=
  match e with
  | EvInvoke _ a' _ => negb (bool_decide (a' = a))
  | _ => true
  end.

(** ** Records and the components they stand for *)

Definition supportedTypes : list string :=
  ["IoTHub"; "AzureFunctions"; "StreamAnalyticsJob"; "CosmosDB"].

(** The classes the resolver instantiates for a record: a hub comes with
    its hub device. *)
Definition componentsOf (componentConfig : ComponentConfig)
  : list ComponentClass :=
  if String.eqb (cfg_type componentConfig) "IoTHub" then [IoTHub; IoTHubDevice]
  else if String.eqb (cfg_type componentConfig) "AzureFunctions" then [AzureFunctions]
  else if String.eqb (cfg_type componentConfig) "StreamAnalyticsJob"
       then [StreamAnalyticsJob]
  else if String.eqb (cfg_type componentConfig) "CosmosDB" then [CosmosDB]
  else [].

(** Every dependency id of every record is the id of a record before it
    ([seen]: the ids before the list). *)
Fixpoint resolvable (seen : list string) (componentConfigs : list ComponentConfig)
  : Prop :=
  match componentConfigs with
  | [] => True
  | componentConfig :: rest =>
      Forall (λ d, dep_id d ∈ seen) (cfg_dependencies componentConfig)
      ∧ resolvable (cfg_id componentConfig :: seen) rest
  end.

(** The components that stand for a record of their own (all but the hub
    devices). *)
Definition ofRecord (c : Component) : Prop := componentClass c ≠ IoTHubDevice.

#[global] Instance ofRecord_dec c : Decision (ofRecord c).
Proof. unfold ofRecord. apply _. Defined.

(** [load()] gives a component the id of the record it is instantiated
    for. *)
Definition rehydrates (E : Env) : Prop :=
  ∀ l componentConfig c,
    idAfterLoad E l (Some componentConfig) c = cfg_id componentConfig.

(** No component's [load()] throws. *)
Definition loadsQuietly (E : Env) : Prop :=
  ∀ l c, ∃ b, invoke E l c Load = Returned b.

(** ** Two loads of one descriptor *)

(** Two environments that hand out the same descriptor: the same
    constants, and the same answers, whatever happened before, from the
    workspace, the settings, the component config store and the
    components' constructors and [load()]. *)
Record sameDescriptor (E1 E2 : Env) : Prop := {
  sd_AZ3166 : AZ3166Device_boardId E1 = AZ3166Device_boardId E2;
  sd_IoTButton : IoTButtonDevice_boardId E1 = IoTButtonDevice_boardId E2;
  sd_Esp32 : Esp32Device_boardId E1 = Esp32Device_boardId E2;
  sd_RaspberryPi : RaspberryPiDevice_boardId E1 = RaspberryPiDevice_boardId E2;
  sd_projectFile : iotworkbenchprojectFileName E1 = iotworkbenchprojectFileName E2;
  sd_vscodeFolder : vscodeSettingsFolderName E1 = vscodeSettingsFolderName E2;
  sd_nameOf : ∀ cls, nameOf E1 cls = nameOf E2 cls;
  sd_newId : ∀ l1 l2 cls, newId E1 l1 cls = newId E2 l2 cls;
  sd_idAfterLoad : ∀ l1 l2 cfg c, idAfterLoad E1 l1 cfg c = idAfterLoad E2 l2 cfg c;
  sd_load : ∀ l1 l2 c, invoke E1 l1 c Load = invoke E2 l2 c Load;
  sd_update : ∀ l1 l2 c s,
    updateConfigSettings E1 l1 c s = updateConfigSettings E2 l2 c s;
  sd_folders : ∀ l1 l2, workspaceFolders E1 l1 = workspaceFolders E2 l2;
  sd_config : ∀ l1 l2 k, configGet E1 l1 k = configGet E2 l2 k;
  sd_store : ∀ l1 l2 s, createIfNotExists E1 l1 s = createIfNotExists E2 l2 s;
  sd_sorted : ∀ l1 l2, getSortedComponents E1 l1 = getSortedComponents E2 l2
}.

(** Two worlds whose registries grew by the same components from [r1] and
    [r2], and, when [disk] is set, with the same project root on disk. *)
Definition agree (r1 r2 : list Component) (disk : bool) (w1 w2 : World) : Prop :=
  (∃ R, componentList w1 = r1 ++ R ∧ componentList w2 = r2 ++ R)
  ∧ (disk = true → fs w1 = fs w2).

(** [m1] and [m2] end alike from worlds that agree: the same value or
    thrown error, and worlds that agree again. *)
Definition sim {A} (r1 r2 : list Component) (disk disk' : bool)
    (m1 m2 : M A) : Prop :=
  ∀ w1 w2,
    agree r1 r2 disk w1 w2 →
    (m1 w1).1 = (m2 w2).1
    ∧ agree r1 r2
        match (m1 w1).1 with Returned _ => disk' | Thrown _ => false end
        (m1 w1).2 (m2 w2).2.

(** ** Two loads of one descriptor, whatever ids the constructors assign *)

(** The components [load()] instantiates for a record: they take their id
    from it.  The device, and the hub device that comes with every hub,
    are constructed without one. *)
Definition fromRecord (c : Component) : Prop :=
  componentClass c ∈ [IoTHub; AzureFunctions; StreamAnalyticsJob; CosmosDB].

#[global] Instance fromRecord_dec c : Decision (fromRecord c).
Proof. unfold fromRecord. apply _. Defined.

(** Two environments that hand out the same descriptor and say nothing
    about ids: the same constants; the same answers, whatever happened
    before, from the workspace, the settings and the component config
    store; and components whose [load()] and [updateConfigSettings()]
    succeed or fail by their class, not by their id. *)
Record sameRecords (E1 E2 : Env) : Prop := {
  sr_AZ3166 : AZ3166Device_boardId E1 = AZ3166Device_boardId E2;
  sr_IoTButton : IoTButtonDevice_boardId E1 = IoTButtonDevice_boardId E2;
  sr_Esp32 : Esp32Device_boardId E1 = Esp32Device_boardId E2;
  sr_RaspberryPi : RaspberryPiDevice_boardId E1 = RaspberryPiDevice_boardId E2;
  sr_projectFile : iotworkbenchprojectFileName E1 = iotworkbenchprojectFileName E2;
  sr_vscodeFolder : vscodeSettingsFolderName E1 = vscodeSettingsFolderName E2;
  sr_load : ∀ l1 l2 c1 c2,
    componentClass c1 = componentClass c2 →
    invoke E1 l1 c1 Load = invoke E2 l2 c2 Load;
  sr_update : ∀ l1 l2 c1 c2 s,
    componentClass c1 = componentClass c2 →
    updateConfigSettings E1 l1 c1 s = updateConfigSettings E2 l2 c2 s;
  sr_folders : ∀ l1 l2, workspaceFolders E1 l1 = workspaceFolders E2 l2;
  sr_config : ∀ l1 l2 k, configGet E1 l1 k = configGet E2 l2 k;
  sr_store : ∀ l1 l2 s, createIfNotExists E1 l1 s = createIfNotExists E2 l2 s;
  sr_sorted : ∀ l1 l2, getSortedComponents E1 l1 = getSortedComponents E2 l2
}.

(** Two components of one class and, where [records] holds and the class
    is one [load()] instantiates for a record, of one id. *)
Definition alike (records : Prop) (c1 c2 : Component) : Prop :=
  componentClass c1 = componentClass c2
  ∧ (records → fromRecord c1 → id c1 = id c2).

(** Two worlds whose registries grew, from [r1] and [r2], by components
    that are alike one by one, and, when [disk] is set, with the same
    project root on disk. *)
Definition alikeWorlds (records : Prop) (r1 r2 : list Component)
    (disk : bool) (w1 w2 : World) : Prop :=
  (∃ R1 R2, componentList w1 = r1 ++ R1 ∧ componentList w2 = r2 ++ R2
            ∧ Forall2 (alike records) R1 R2)
  ∧ (disk = true → fs w1 = fs w2).

(** Two results: values related by [V], or the same error thrown. *)
Definition alikeResults {A B} (V : A → B → Prop) (x : Result A) (y : Result B)
  : Prop :=
  match x, y with
  | Returned a, Returned b => V a b
  | Thrown e1, Thrown e2 => e1 = e2
  | _, _ => False
  end.

(** [m1] and [m2] end alike from worlds that are alike. *)
Definition simAlike {A B} (records : Prop) (r1 r2 : list Component)
    (disk disk' : bool) (V : A → B → Prop) (m1 : M A) (m2 : M B) : Prop :=
  ∀ w1 w2,
    alikeWorlds records r1 r2 disk w1 w2 →
    alikeResults V (m1 w1).1 (m2 w2).1
    ∧ alikeWorlds records r1 r2
        match (m1 w1).1 with Returned _ => disk' | Thrown _ => false end
        (m1 w1).2 (m2 w2).2.

(** Two objects [components] with the same keys. *)
Definition sameKeys (components1 components2 : gmap string Component) : Prop :=
  ∀ k, is_Some (components1 !! k) ↔ is_Some (components2 !! k).

(** What the body of the loop over the records hands on, in two runs:
    [return false] in both, or two objects with the same keys. *)
Definition sameProgress (o1 o2 : option (gmap string Component)) : Prop :=
  match o1, o2 with
  | Some components1, Some components2 => sameKeys components1 components2
  | None, None => True
  | _, _ => False
  end.

(** Constructors that number the components they build: the id is the
    count of the calls made before. *)
Definition numbering (E : Env) : Env :=
  {| AZ3166Device_boardId := AZ3166Device_boardId E;
     IoTButtonDevice_boardId := IoTButtonDevice_boardId E;
     Esp32Device_boardId := Esp32Device_boardId E;
     RaspberryPiDevice_boardId := RaspberryPiDevice_boardId E;
     iotworkbenchprojectFileName := iotworkbenchprojectFileName E;
     vscodeSettingsFolderName := vscodeSettingsFolderName E;
     DependentExtensions_remote := DependentExtensions_remote E;
     basename := basename E;
     parentOf := parentOf E;
     canCompile := canCompile E;
     canUpload := canUpload E;
     canProvision := canProvision E;
     canDeploy := canDeploy E;
     nameOf := nameOf E;
     newId := fun l _ => "guid-" +:+ pretty (length l);
     idAfterLoad := idAfterLoad E;
     invoke := invoke E;
     updateConfigSettings := updateConfigSettings E;
     workspaceFolders := workspaceFolders E;
     configGet := configGet E;
     createIfNotExists := createIfNotExists E;
     getSortedComponents := getSortedComponents E;
     sendEvent := sendEvent E;
     checkAzureLogin := checkAzureLogin E;
     getResourceGroup := getResourceGroup E;
     subscriptionId := subscriptionId E;
     showQuickPick := showQuickPick E;
     isRemote := isRemote E;
     checkRemoteExtension := checkRemoteExtension E;
     readAsaTemplate := readAsaTemplate E;
     fsEffect := fsEffect E |}.

(** ** Devices of the proofs *)

(** ** Invariants of a run

    [steps I m]: every run of [m] takes a world to one related to it by
    [I].  With [I] reflexive and transitive this is closed under sequencing,
    so a property of a long method follows from its primitive steps. *)

Definition steps {A} (I : World → World → Prop) (m : M A) : Prop :=
  ∀ w r w', m w = (r, w') → I w w'.

(** *** Runs that only add events of a given kind *)

Definition adding (Q : Event → bool) (w w' : World) : Prop :=
  ∃ evs, log w' = log w ++ evs ∧ Forall (λ e, Q e = true) evs.

(** *** Runs that leave the registry alone *)

Definition sameRegistry (w w' : World) : Prop :=
  componentList w' = componentList w.

(** Events other than a component's [create()] and the removal of the root. *)
Definition besidesCreation (e : Event) : bool :=
  match e with
  | EvInvoke _ Create _ | EvRemoveSync => false
  | _ => true
  end.

(** How far the loop of create got: it stopped at position [k]. *)
Definition created (items : list Component) (k : nat) : list Event :=
  (λ c, EvInvoke c Create (Returned true)) <$> take k items.

Definition hasRoot (w : World) : Prop := is_Some (fs w).

(** Collaborators that leave the project root in place. *)
Definition keepsRoot (E : Env) : Prop :=
  ∀ l e files, is_Some files → is_Some (fsEffect E l e files).

(** [runsTo m w P]: from [w], [m] returns normally, with a value and in a
    world that satisfy [P]. *)
Definition runsTo {A} (m : M A) (w : World) (P : A → World → Prop) : Prop :=
  ∃ a w', m w = (Returned a, w') ∧ P a w'.

Definition isResolution (e : Event) : Prop :=
  match e with
  | EvGetResourceGroup _ | EvSubscriptionId _ => True
  | _ => False
  end.

(** ** A sample project

    Concrete collaborators, used to run the methods on actual inputs: the
    boards, names and capabilities follow the extension's component classes
    (devices compile and upload; the Azure components provision; functions
    and stream analytics jobs deploy). *)

Module Sample.

Definition isDevice (cls : ComponentClass) : bool :=
  match cls with
  | AZ3166Device | IoTButtonDevice | Esp32Device | RaspberryPiDevice => true
  | _ => false
  end.

Definition provisionable (cls : ComponentClass) : bool :=
  match cls with
  | IoTHub | IoTHubDevice | AzureFunctions | CosmosDB | StreamAnalyticsJob => true
  | _ => false
  end.

Definition deployable (cls : ComponentClass) : bool :=
  match cls with
  | AzureFunctions | StreamAnalyticsJob => true
  | _ => false
  end.

Definition className (cls : ComponentClass) : string :=
  match cls with
  | AZ3166Device => "AZ3166 Device"
  | IoTButtonDevice => "IoTButton Device"
  | Esp32Device => "Esp32 Device"
  | RaspberryPiDevice => "RaspberryPi Device"
  | IoTHub => "IoT Hub"
  | IoTHubDevice => "IoT Hub Device"
  | AzureFunctions => "Azure Functions"
  | CosmosDB => "Cosmos DB"
  | StreamAnalyticsJob => "Stream Analytics Job"
  end.

(** Collaborators whose answers do not depend on the history: [answers]
    are the components' methods, [config] the workspace settings, [records]
    the component config store. *)
Definition env (answers : Component → Action → Result bool)
    (config : ConfigKey.t → option string)
    (records : option (list ComponentConfig))
    (login : Result bool) (group subscription : option string)
    (pick : bool) : Env :=
  {| AZ3166Device_boardId := "devkit";
     IoTButtonDevice_boardId := "iotbutton";
     Esp32Device_boardId := "esp32";
     RaspberryPiDevice_boardId := "raspberrypi";
     iotworkbenchprojectFileName := ".iotworkbenchproject";
     vscodeSettingsFolderName := ".vscode";
     DependentExtensions_remote := "ms-vscode-remote.vscode-remote-extensionpack";
     basename := fun p => p;
     parentOf := fun p => p;
     canCompile := fun c => isDevice (componentClass c);
     canUpload := fun c => isDevice (componentClass c);
     canProvision := fun c => provisionable (componentClass c);
     canDeploy := fun c => deployable (componentClass c);
     nameOf := className;
     newId := fun _ cls => "new " +:+ className cls;
     idAfterLoad := fun _ cfg c =>
                      match cfg with
                      | Some r => cfg_id r
                      | None => id c
                      end;
     invoke := fun _ => answers;
     updateConfigSettings := fun _ _ _ => Returned tt;
     workspaceFolders := fun _ => Some ["/home/project/Device"];
     configGet := fun _ => config;
     createIfNotExists := fun _ _ => Returned tt;
     getSortedComponents := fun _ => Returned records;
     sendEvent := fun _ _ => Returned tt;
     checkAzureLogin := fun _ => login;
     getResourceGroup := fun _ => Returned group;
     subscriptionId := fun _ => subscription;
     showQuickPick := fun _ _ _ => pick;
     isRemote := fun _ => true;
     checkRemoteExtension := fun _ => Returned true;
     readAsaTemplate := fun _ => Returned "SELECT * INTO [output] FROM [input]";
     fsEffect := fun _ _ files => files |}.

(** Every method of every component succeeds. *)
Definition allFine (c : Component) (a : Action) : Result bool := Returned true.

(** The settings of an opened project for the given board. *)
Definition config (board : string) (functionPath : option string)
    (k : ConfigKey.t) : option string :=
  match k with
  | ConfigKey.devicePath => Some "Device"
  | ConfigKey.boardId => Some board
  | ConfigKey.functionPath => functionPath
  | _ => None
  end.

(** Settings outside of an IoT project. *)
Definition noConfig (k : ConfigKey.t) : option string := None.

Definition hub : Component := mkComponent IoTHub "hub" "IoT Hub" [].
Definition db : Component := mkComponent CosmosDB "db" "Cosmos DB" [].
Definition board : Component :=
  mkComponent RaspberryPiDevice "board" "RaspberryPi Device" [].
Definition functions : Component :=
  mkComponent AzureFunctions "functions" "Azure Functions"
    [mkDependency hub DependencyType.Input].

(** An empty folder, and the object of a class just constructed. *)
Definition emptyFolder : World :=
  {| componentList := []; projectRootPath := EmptyString;
     fs := Some ∅; log := [] |}.

(** A project on disk, about to be loaded. *)
Definition onDisk : World :=
  {| componentList := []; projectRootPath := EmptyString;
     fs := Some {[ ["Device"; ".iotworkbenchproject"] := TextFile EmptyString;
                   [".vscode"; "projectConfig.json"] :=
                     ProjectConfigFile
                       {[ ConfigKey.projectType :=
                            CfgProjectType ProjectTemplateType.IotHub ]} ]};
     log := [] |}.

(** A loaded project with the given registry. *)
Definition loaded (registry : list Component) : World :=
  {| componentList := registry; projectRootPath := "/home/project";
     fs := Some ∅; log := [] |}.

End Sample.

(** *** Answers and records of the sample project *)

(** A board whose toolchain is missing: its prerequisites check fails. *)
Definition toolchainMissing (c : Component) (a : Action) : Result bool :=
  match a with
  | CheckPrerequisites => Returned (negb (Sample.isDevice (componentClass c)))
  | _ => Returned true
  end.

(** A second board, whose toolchain is missing. *)
Definition spareBoard : Component :=
  mkComponent RaspberryPiDevice "spare" "RaspberryPi Device" [].

Definition spareMissing (c : Component) (a : Action) : Result bool :=
  match a with
  | CheckPrerequisites => Returned (negb (String.eqb (id c) "spare"))
  | _ => Returned true
  end.

Definition spareBoardMissing : Env :=
  Sample.env spareMissing Sample.noConfig None (Returned true) None None true.

(** The hub refuses to deploy or provision. *)
Definition actionRefused (c : Component) (a : Action) : Result bool :=
  match a with
  | Deploy | Provision | Compile | Upload => Returned false
  | _ => Returned true
  end.

(** The document store cannot be set up: its [create()] is canceled. *)
Definition storeCanceled (c : Component) (a : Action) : Result bool :=
  match a, componentClass c with
  | Create, CosmosDB => Returned false
  | _, _ => Returned true
  end.

(** The prerequisites of every component fail or throw. *)
Definition nothingInstalled (c : Component) (a : Action) : Result bool :=
  match a, componentClass c with
  | CheckPrerequisites, IoTHub => Thrown "Azure account extension is not found."
  | CheckPrerequisites, _ => Returned false
  | _, _ => Returned true
  end.

Definition hubRecord : ComponentConfig :=
  {| cfg_type := "IoTHub"; cfg_id := "hub"; cfg_dependencies := [] |}.

Definition jobRecord : ComponentConfig :=
  {| cfg_type := "StreamAnalyticsJob"; cfg_id := "job";
     cfg_dependencies := [{| dep_id := "hub"; dep_type := DependencyType.Input |}] |}.

Definition storeRecord : ComponentConfig :=
  {| cfg_type := "CosmosDB"; cfg_id := "store"; cfg_dependencies := [] |}.

(** The job comes before the store it writes to. *)
Definition eagerJobRecord : ComponentConfig :=
  {| cfg_type := "StreamAnalyticsJob"; cfg_id := "job";
     cfg_dependencies :=
       [{| dep_id := "hub"; dep_type := DependencyType.Input |};
        {| dep_id := "store"; dep_type := DependencyType.Other |}] |}.

(** A job that names, as its input, no record but a member of every
    object. *)
Definition inheritingJobRecord : ComponentConfig :=
  {| cfg_type := "StreamAnalyticsJob"; cfg_id := "job";
     cfg_dependencies :=
       [{| dep_id := "constructor"; dep_type := DependencyType.Input |}] |}.

(** The sample project with a hub and a job on record, and constructors
    that number the components they build. *)
Definition numbered : Env :=
  numbering
    (Sample.env Sample.allFine (Sample.config "raspberrypi" None)
       (Some [hubRecord; jobRecord]) (Returned true) None None true).

(** The project on disk, about to be loaded later in the session: one
    call has been made by then. *)
Definition onDiskLater : World :=
  noted (EvShowInformationMessage "Azure deploy succeeded.") Sample.onDisk.

(** The functions app names the hub as its input, and no hub record is
    there. *)
Definition orphanFunctionsRecord : ComponentConfig :=
  {| cfg_type := "AzureFunctions"; cfg_id := "functions";
     cfg_dependencies := [{| dep_id := "hub"; dep_type := DependencyType.Input |}] |}.

(** * Runs, outcomes and the remaining methods *)

(** ** Runs that go through

    What the log holds for a component when nothing stops the run. *)

(** The components of [items] with the capability [can], in order. *)
Definition eligible (can : Component → bool) (items : list Component)
  : list Component :=
  filter (λ c, can c = true) items.

Definition checked (c : Component) : Event :=
  EvInvoke c CheckPrerequisites (Returned true).

(** compile, upload: the check, then the phase method. *)
Definition checkedAndActed (act : Action) (c : Component) : list Event :=
  [checked c; EvInvoke c act (Returned true)].

(** compile, upload: the ways the loop stops at a component [c], with what
    it did on [c] and what the method then answers.  Its prerequisites
    check answered [false] (lines 309-311, 328-330) or threw; or the check
    passed and the phase method answered [false], for which the method
    throws [err] (lines 313-316, 332-335), or threw. *)
Definition phaseStop (act : Action) (err : Error) (c : Component)
    (tail : list Event) (res : Result bool) : Prop :=
  (tail = [EvInvoke c CheckPrerequisites (Returned false)]
   ∧ res = Returned false)
  ∨ (∃ e, tail = [EvInvoke c CheckPrerequisites (Thrown e)] ∧ res = Thrown e)
  ∨ (tail = [checked c; EvInvoke c act (Returned false)] ∧ res = Thrown err)
  ∨ (∃ e, tail = [checked c; EvInvoke c act (Thrown e)] ∧ res = Thrown e).

(** provision, deploy: the confirmation, then the phase method. *)
Definition confirmedAndActed (act : Action) (placeHolder : string)
    (itemList : list string) (c : Component) : list Event :=
  [EvShowQuickPick (progressLabel (name c) itemList) placeHolder true;
   EvInvoke c act (Returned true)].

(** ** Every way a run can end

    [outcome m w Q]: however the run of [m] from [w] ends, with a value or
    with a thrown error, the result and the world it ends in satisfy [Q]. *)
Definition outcome {A} (m : M A) (w : World) (Q : Result A → World → Prop)
  : Prop :=
  Q (m w).1 (m w).2.

(** The classes [create] pushes after the device, by template
    (lines 547-661), and the folders the workspace gains with them. *)
Definition templateClasses (projectType : ProjectTemplateType.t)
  : list ComponentClass :=
  match projectType with
  | ProjectTemplateType.Basic => []
  | ProjectTemplateType.IotHub => [IoTHub]
  | ProjectTemplateType.AzureFunctions => [IoTHub; AzureFunctions]
  | ProjectTemplateType.StreamAnalytics => [IoTHub; CosmosDB; StreamAnalyticsJob]
  end.

Definition templateFolders (projectType : ProjectTemplateType.t) : list string :=
  match projectType with
  | ProjectTemplateType.Basic | ProjectTemplateType.IotHub => []
  | ProjectTemplateType.AzureFunctions => [functionDefaultFolderName]
  | ProjectTemplateType.StreamAnalytics => [asaFolderName]
  end.

(** Runs that leave the project root on disk as it is. *)
Definition sameDisk (w w' : World) : Prop := fs w' = fs w.

(** Collaborators that do not write below the project root. *)
Definition leavesDisk (E : Env) : Prop :=
  ∀ l e files, fsEffect E l e files = files.

(** Events other than a file written or a folder made. *)
Definition besidesFiles (e : Event) : bool :=
  match e with
  | EvWriteFile _ _ | EvMkdir _ => false
  | _ => true
  end.

(** The message [create] prints when the remote extension is missing. *)
Definition remoteMissing (E : Env) : string :=
  "Remote extension is not available. Please install "
    +:+ DependentExtensions_remote E +:+ " first.".

(** [E], on a machine where the extension does not run in a container and
    the remote extension pack is not installed. *)
Definition withoutRemoteExtension (E : Env) : Env :=
  {| AZ3166Device_boardId := AZ3166Device_boardId E;
     IoTButtonDevice_boardId := IoTButtonDevice_boardId E;
     Esp32Device_boardId := Esp32Device_boardId E;
     RaspberryPiDevice_boardId := RaspberryPiDevice_boardId E;
     iotworkbenchprojectFileName := iotworkbenchprojectFileName E;
     vscodeSettingsFolderName := vscodeSettingsFolderName E;
     DependentExtensions_remote := DependentExtensions_remote E;
     basename := basename E;
     parentOf := parentOf E;
     canCompile := canCompile E;
     canUpload := canUpload E;
     canProvision := canProvision E;
     canDeploy := canDeploy E;
     nameOf := nameOf E;
     newId := newId E;
     idAfterLoad := idAfterLoad E;
     invoke := invoke E;
     updateConfigSettings := updateConfigSettings E;
     workspaceFolders := workspaceFolders E;
     configGet := configGet E;
     createIfNotExists := createIfNotExists E;
     getSortedComponents := getSortedComponents E;
     sendEvent := sendEvent E;
     checkAzureLogin := checkAzureLogin E;
     getResourceGroup := getResourceGroup E;
     subscriptionId := subscriptionId E;
     showQuickPick := showQuickPick E;
     isRemote := fun _ => false;
     checkRemoteExtension := fun _ => Returned false;
     readAsaTemplate := readAsaTemplate E;
     fsEffect := fsEffect E |}.

(** The sample collaborators when everything succeeds, outside of any
    opened project. *)
Definition fine : Env :=
  Sample.env Sample.allFine Sample.noConfig None (Returned true) None None true.

(** Events other than the construction of a component and a call of one
    of its methods. *)
Definition besidesComponents (e : Event) : bool :=
  match e with
  | EvNew _ | EvInvoke _ _ _ => false
  | _ => true
  end.

(** A board that is not plugged in: its [load()] throws. *)
Definition notConnected (c : Component) (a : Action) : Result bool :=
  match a with
  | Load => Thrown "The device is not connected."
  | _ => Returned true
  end.

(** A record of a type the resolver does not know. *)
Definition eventHubRecord : ComponentConfig :=
  {| cfg_type := "EventHub"; cfg_id := "events"; cfg_dependencies := [] |}.

(** A dependency of a record and the dependency a component carries for
    it: what the object holds or inherits under the record's id, with the
    record's type. *)
Definition resolves (components : gmap string Component)
    (dependent : DependencyConfig) (dependency : Dependency) : Prop :=
  lookupMember components (dep_id dependent) = Some (component dependency)
  ∧ type dependency = dep_type dependent.

(** ** configDeviceSettings

    Lines 750-762.  Two more answers of the components are needed:
    whether [getComponentType()] is [ComponentType.Device], and what
    [configDeviceSettings()] of a device does, which may depend on the
    devices configured before it in the run. *)
Record DeviceSettings := mkDeviceSettings {
  isDeviceType : Component → bool;
  configured : list Component → Component → Result bool
}.

(** The loop, from the devices asked so far; the answer comes with the
    devices asked, in call order. *)
Fixpoint configDevices (D : DeviceSettings) (items : list Component)
    (asked : list Component) : Result bool * list Component :=
  match items with
  | [] => (Returned true, asked)
  | component :: rest =>
      if isDeviceType D component then
        match configured D asked component with
        | Returned _ => configDevices D rest (asked ++ [component])
        | Thrown error => (Thrown error, asked ++ [component])
        end
      else configDevices D rest asked
  end.

Definition configDeviceSettings (D : DeviceSettings) (w : World)
  : Result bool * list Component :=
  configDevices D (componentList w) [].

(** Devices whose settings cannot be configured: they answer [false]. *)
Definition unconfigurable : DeviceSettings :=
  {| isDeviceType := fun c => Sample.isDevice (componentClass c);
     configured := fun asked c => Returned false |}.

(** ** handleLoadFailure

    Lines 281-302.  The method looks at the folder that is open, not at
    the project root of [load()]; what it reads of that folder is asked of
    the collaborators below.  Its effect is the one prompt it awaits. *)

(** [s.endsWith(suffix)] *)
Definition endsWith (s suffix : string) : bool :=
  (String.length suffix <=? String.length s)
  && String.eqb
       (String.substring (String.length s - String.length suffix)
          (String.length suffix) s)
       suffix.

Inductive Prompt :=
| AskAndNewProject
| AskAndOpenProject (rootPath workspaceFile : string).

Record OpenedFolder := mkOpenedFolder {
  (* FileNames.workspaceExtensionName *)
  workspaceExtensionName : string;
  (* path.extname *)
  extname : string → string;
  (* fs.readdirSync(rootPath) *)
  readdirSync : string → Result (list string);
  (* fs.existsSync(path.join(rootPath, 'Device', FileNames.iotworkbenchprojectFileName)) *)
  workbenchFileExists : string → bool
}.

(** [path.extname(file).endsWith(FileNames.workspaceExtensionName)] *)
Definition isWorkspaceFile (F : OpenedFolder) (file : string) : bool :=
  endsWith (extname F file) (workspaceExtensionName F).

Definition handleLoadFailure (E : Env) (F : OpenedFolder) (w : World)
  : Result Prompt :=
  match workspaceFolders E (log w) with
  | None | Some [] => Returned AskAndNewProject
  | Some (rootPath :: _) =>
      match readdirSync F rootPath with
      | Thrown error => Thrown error
      | Returned files =>
          match List.filter (isWorkspaceFile F) files with
          | workspaceFile :: _ =>
              if workbenchFileExists F rootPath
                 && negb (String.eqb workspaceFile EmptyString)
              then Returned (AskAndOpenProject rootPath workspaceFile)
              else Returned AskAndNewProject
          | [] => Returned AskAndNewProject
          end
      end
  end.

(** A project folder opened as a folder: it holds the workspace file next
    to a readme. *)
Definition projectFolder : OpenedFolder :=
  {| workspaceExtensionName := ".code-workspace";
     extname := fun file =>
                  if String.prefix "project" file then ".code-workspace"
                  else ".md";
     readdirSync := fun _ => Returned ["README.md"; "project.code-workspace"];
     workbenchFileExists := fun _ => true |}.

(** * Proofs *)

(** ** The string helpers on actual inputs *)

Example replaceFirst_first_only :
  replaceFirst "[input]" "hub" "FROM [input], [input]" = "FROM hub, [input]".
Proof. reflexivity. Qed.

Example replaceFirst_absent :
  replaceFirst "[output]" "db" "SELECT *" = "SELECT *".
Proof. reflexivity. Qed.

Example progressLabel_marks_current :
  progressLabel "Azure Functions" ["IoT Hub"; "Azure Functions"]
  = "1. IoT Hub   -   >> 2. Azure Functions".
Proof. reflexivity. Qed.

Example truthy_empty : truthy (Some EmptyString) = false.
Proof. reflexivity. Qed.

Lemma newEvents_app w w' evs :
  log w' = log w ++ evs → newEvents w w' = evs.
Proof.
  intros H. unfold newEvents. rewrite H. by rewrite drop_app_length.
Qed.

Lemma newEvents_refl w : newEvents w w = [].
Proof. apply newEvents_app. by rewrite app_nil_r. Qed.

(** ** How the primitives run *)

Section Running.
Variable E : Env.

Lemma log_logged e w : log (logged E e w) = log w ++ [e].
Proof. reflexivity. Qed.

Lemma componentList_logged e w : componentList (logged E e w) = componentList w.
Proof. reflexivity. Qed.

Lemma log_noted e w : log (noted e w) = log w ++ [e].
Proof. reflexivity. Qed.

Lemma componentList_noted e w : componentList (noted e w) = componentList w.
Proof. reflexivity. Qed.

Lemma fs_noted e w : fs (noted e w) = fs w.
Proof. reflexivity. Qed.

Lemma log_pushed c w : log (pushed c w) = log w.
Proof. reflexivity. Qed.

Lemma componentList_pushed c w :
  componentList (pushed c w) = componentList w ++ [c].
Proof. reflexivity. Qed.

Lemma fs_pushed c w : fs (pushed c w) = fs w.
Proof. reflexivity. Qed.

Lemma log_putFile p f w : log (putFile p f w) = log w.
Proof. reflexivity. Qed.

Lemma componentList_putFile p f w :
  componentList (putFile p f w) = componentList w.
Proof. reflexivity. Qed.

Lemma log_removeRoot w : log (removeRoot w) = log w.
Proof. reflexivity. Qed.

Lemma componentList_removeRoot w :
  componentList (removeRoot w) = componentList w.
Proof. reflexivity. Qed.

Lemma fs_removeRoot w : fs (removeRoot w) = None.
Proof. reflexivity. Qed.

Lemma bind_run {A B} (m : M A) (k : A → M B) w :
  bind m k w =
    match m w with
    | (Returned a, w') => k a w'
    | (Thrown e, w') => (Thrown e, w')
    end.
Proof. reflexivity. Qed.

Lemma ask_run {A} (f : list Event → A) w : ask f w = (Returned (f (log w)), w).
Proof. reflexivity. Qed.

Lemma record_run e w : record E e w = (Returned tt, logged E e w).
Proof. reflexivity. Qed.

Lemma emit_run e w : emit e w = (Returned tt, noted e w).
Proof. reflexivity. Qed.

Lemma push_run c w : push c w = (Returned tt, pushed c w).
Proof. reflexivity. Qed.

Lemma call_run c a w :
  call E c a w =
    (invoke E (log w) c a,
     logged E (EvInvoke c a (invoke E (log w) c a)) w).
Proof. reflexivity. Qed.

Lemma quickPick_run label placeHolder w :
  quickPick E label placeHolder w =
    (Returned (showQuickPick E (log w) label placeHolder),
     noted (EvShowQuickPick label placeHolder
              (showQuickPick E (log w) label placeHolder)) w).
Proof. reflexivity. Qed.

Lemma awaitCheckAzureLogin_run w :
  awaitCheckAzureLogin E w =
    (checkAzureLogin E (log w),
     logged E (EvCheckAzureLogin (checkAzureLogin E (log w))) w).
Proof. reflexivity. Qed.

Lemma awaitGetResourceGroup_run w :
  awaitGetResourceGroup E w =
    (getResourceGroup E (log w),
     logged E (EvGetResourceGroup (getResourceGroup E (log w))) w).
Proof. reflexivity. Qed.

Lemma readSubscriptionId_run w :
  readSubscriptionId E w =
    (Returned (subscriptionId E (log w)),
     noted (EvSubscriptionId (subscriptionId E (log w))) w).
Proof. reflexivity. Qed.

Lemma forOf_cons {A} (body : Component → M (option A)) item rest w :
  forOf (item :: rest) body w =
    match body item w with
    | (Returned (Some a), w1) => (Returned (Some a), w1)
    | (Returned None, w1) => forOf rest body w1
    | (Thrown e, w1) => (Thrown e, w1)
    end.
Proof.
  simpl. unfold bind. destruct (body item w) as [[[a|]|e] w1]; reflexivity.
Qed.
End Running.

Create Rewrite HintDb world.
#[global] Hint Rewrite log_logged componentList_logged log_noted
  componentList_noted fs_noted log_pushed componentList_pushed fs_pushed
  log_putFile componentList_putFile log_removeRoot componentList_removeRoot
  fs_removeRoot : world.

(** Close a goal [∃ evs, log w' = log w ++ evs ∧ componentList w' = _ ∧ T]
    once the run is known. *)
Ltac finish_trace :=
  eexists; autorewrite with world; rewrite <- ?app_assoc; simpl;
  split; [reflexivity|split; [reflexivity|]].

(** Read off a finished run [ret a w = (r, w')] or [throw e w = (r, w')]. *)
Ltac run_eq := cbv [ret throw] in *; simplify_eq.

(** ** The loops follow their relations *)

Section Loops.
Variable E : Env.

Lemma compileItem_phase :
  compileItem E = phaseItem E (canCompile E) Compile compileError.
Proof. reflexivity. Qed.

Lemma uploadItem_phase :
  uploadItem E = phaseItem E (canUpload E) Upload uploadError.
Proof. reflexivity. Qed.

Lemma provisionItem_confirm itemList :
  provisionItem E itemList =
    confirmItem E (canProvision E) Provision "Provision process" itemList
      (fun _ => emit (EvShowWarningMessage "Provision canceled.") ;;;
                ret (Some false)).
Proof. reflexivity. Qed.

Lemma deployItem_confirm itemList :
  deployItem E itemList =
    confirmItem E (canDeploy E) Deploy "Deploy process" itemList
      (fun item => throw (deploymentFailed (name item))).
Proof. reflexivity. Qed.

Lemma phaseLoop_trace can act err items :
  ∀ w r w', forOf items (phaseItem E can act err) w = (r, w') →
  ∃ evs,
    log w' = log w ++ evs
    ∧ componentList w' = componentList w
    ∧ PhaseTrace can act err items evs r.
Proof.
  induction items as [|item rest IH]; intros w r w' Hrun.
  - inversion Hrun; subst. exists []. rewrite app_nil_r.
    repeat split. constructor.
  - rewrite forOf_cons in Hrun. unfold phaseItem at 1 in Hrun.
    destruct (can item) eqn:Hcan.
    2:{ destruct (IH _ _ _ Hrun) as (evs & ? & ? & ?).
        exists evs. repeat split; try done. by constructor. }
    rewrite bind_run, call_run in Hrun.
    destruct (invoke E (log w) item CheckPrerequisites) as [[|]|e]; simpl in Hrun.
    + rewrite bind_run, call_run in Hrun.
      destruct (invoke E _ item act) as [[|]|e] eqn:Hact; simpl in Hrun.
      * destruct (IH _ _ _ Hrun) as (evs & Hlog & Hcl & Htr).
        eexists. rewrite Hlog, Hcl. autorewrite with world.
        rewrite <- !app_assoc. simpl.
        repeat split. by apply PT_acted.
      * inversion Hrun; subst. finish_trace. by apply PT_action_failed.
      * inversion Hrun; subst. finish_trace. by apply PT_action_threw.
    + inversion Hrun; subst. finish_trace. by apply PT_prerequisites_failed.
    + inversion Hrun; subst. finish_trace. by apply PT_prerequisites_threw.
Qed.

Lemma collectEligible_trace can items :
  ∀ itemList w r w', collectEligible E can items itemList w = (r, w') →
  ∃ evs,
    log w' = log w ++ evs
    ∧ componentList w' = componentList w
    ∧ EligibleTrace can items itemList evs r.
Proof.
  induction items as [|item rest IH]; intros itemList w r w' Hrun; simpl in Hrun.
  - inversion Hrun; subst. exists []. rewrite app_nil_r.
    repeat split. constructor.
  - destruct (can item) eqn:Hcan.
    2:{ destruct (IH _ _ _ _ Hrun) as (evs & ? & ? & ?).
        exists evs. repeat split; try done. by constructor. }
    rewrite bind_run, call_run in Hrun.
    destruct (invoke E (log w) item CheckPrerequisites) as [[|]|e]; simpl in Hrun.
    + destruct (IH _ _ _ _ Hrun) as (evs & Hlog & Hcl & Htr).
      eexists. rewrite Hlog, Hcl. autorewrite with world.
      rewrite <- !app_assoc. simpl.
      repeat split. by apply ET_eligible.
    + inversion Hrun; subst. finish_trace. by apply ET_prerequisites_failed.
    + inversion Hrun; subst. finish_trace. by apply ET_prerequisites_threw.
Qed.

Lemma confirmLoop_trace can act placeHolder itemList onFalse
    falseEvents falseResult items :
  (∀ item, falseResult item ≠ Returned None) →
  (∀ item w, ∃ w1, onFalse item w = (falseResult item, w1)
                   ∧ log w1 = log w ++ falseEvents
                   ∧ componentList w1 = componentList w) →
  ∀ w r w',
    forOf items (confirmItem E can act placeHolder itemList onFalse) w = (r, w') →
  ∃ evs,
    log w' = log w ++ evs
    ∧ componentList w' = componentList w
    ∧ ConfirmTrace can act placeHolder itemList falseEvents falseResult
        items evs r.
Proof.
  intros Hstops HonFalse.
  induction items as [|item rest IH]; intros w r w' Hrun.
  - inversion Hrun; subst. exists []. rewrite app_nil_r.
    repeat split. constructor.
  - rewrite forOf_cons in Hrun. unfold confirmItem at 1 in Hrun.
    destruct (can item) eqn:Hcan.
    2:{ destruct (IH _ _ _ Hrun) as (evs & ? & ? & ?).
        exists evs. repeat split; try done. by constructor. }
    rewrite bind_run, quickPick_run in Hrun.
    destruct (showQuickPick E (log w) _ _); simpl in Hrun.
    + rewrite bind_run, call_run in Hrun.
      destruct (invoke E _ item act) as [[|]|e] eqn:Hact; simpl in Hrun.
      * destruct (IH _ _ _ Hrun) as (evs & Hlog & Hcl & Htr).
        eexists. rewrite Hlog, Hcl. autorewrite with world.
        rewrite <- !app_assoc. simpl.
        repeat split. by apply CF_acted.
      * match type of Hrun with context [onFalse item ?w0] =>
          destruct (HonFalse item w0) as (w1 & Hf & Hlog & Hcl) end.
        rewrite Hf in Hrun.
        assert (r = falseResult item ∧ w' = w1) as [-> ->].
        { specialize (Hstops item).
          destruct (falseResult item) as [[?|]|?]; by inversion Hrun. }
        eexists. rewrite Hlog, Hcl. autorewrite with world.
        rewrite <- !app_assoc. simpl.
        repeat split. by apply CF_action_failed.
      * inversion Hrun; subst. finish_trace. by apply CF_action_threw.
    + inversion Hrun; subst. finish_trace. by apply CF_declined.
Qed.
End Loops.

(** ** Every run of a method is one of its relation *)

Section Runs.
Variable E : Env.

Lemma compile_trace w :
  ∃ evs r,
    log (compile E w).2 = log w ++ evs
    ∧ componentList (compile E w).2 = componentList w
    ∧ PhaseTrace (canCompile E) Compile compileError (componentList w) evs r
    ∧ (compile E w).1 =
        match r with
        | Returned (Some b) => Returned b
        | Returned None => Returned true
        | Thrown e => Thrown e
        end.
Proof.
  unfold compile, getComponentList. rewrite bind_run, bind_run.
  rewrite compileItem_phase.
  destruct (forOf _ _ w) as [r w'] eqn:Hrun.
  destruct (phaseLoop_trace E _ _ _ _ _ _ _ Hrun) as (evs & Hlog & Hcl & Htr).
  exists evs, r. destruct r as [[b|]|e]; simpl; auto.
Qed.

Lemma upload_trace w :
  ∃ evs r,
    log (upload E w).2 = log w ++ evs
    ∧ componentList (upload E w).2 = componentList w
    ∧ PhaseTrace (canUpload E) Upload uploadError (componentList w) evs r
    ∧ (upload E w).1 =
        match r with
        | Returned (Some b) => Returned b
        | Returned None => Returned true
        | Thrown e => Thrown e
        end.
Proof.
  unfold upload, getComponentList. rewrite bind_run, bind_run.
  rewrite uploadItem_phase.
  destruct (forOf _ _ w) as [r w'] eqn:Hrun.
  destruct (phaseLoop_trace E _ _ _ _ _ _ _ Hrun) as (evs & Hlog & Hcl & Htr).
  exists evs, r. destruct r as [[b|]|e]; simpl; auto.
Qed.

Lemma provision_not_a_project w :
  truthy (configGet E (log w) ConfigKey.devicePath) = false →
  provision E w = (Thrown notAnIoTProjectError, w).
Proof.
  intros H. unfold provision. rewrite bind_run, ask_run. by rewrite H.
Qed.

Lemma provision_run w :
  ∃ evs,
    log (provision E w).2 = log w ++ evs
    ∧ componentList (provision E w).2 = componentList w
    ∧ ProvisionRun E (componentList w) evs (provision E w).1.
Proof.
  destruct (truthy (configGet E (log w) ConfigKey.devicePath)) eqn:Hpath.
  2:{ rewrite provision_not_a_project by done. exists []. rewrite app_nil_r.
      repeat split. constructor. }
  destruct (provision E w) as [r w'] eqn:Hrun. simpl.
  unfold provision in Hrun. rewrite bind_run, ask_run, Hpath in Hrun.
  simpl in Hrun. unfold getComponentList in Hrun.
  rewrite bind_run, bind_run in Hrun.
  destruct (collectEligible _ _ _ _ w) as [r1 w1] eqn:Hrun1.
  destruct (collectEligible_trace E _ _ _ _ _ _ Hrun1) as (evs1 & Hlog1 & Hcl1 & Htr1).
  destruct r1 as [[itemList|]|e]; run_eq.
  3:{ exists evs1. repeat split; try done. by apply PR_prerequisites_threw. }
  2:{ exists evs1. repeat split; try done. by apply PR_prerequisites_failed. }
  destruct itemList as [|n itemList].
  { simpl in Hrun. rewrite bind_run, emit_run in Hrun. run_eq.
    exists (evs1 ++ [EvShowInformationMessage nothingToProvision]).
    autorewrite with world.
    rewrite Hlog1, Hcl1, app_assoc. repeat split.
    by apply PR_nothing_to_provision. }
  cbn [length Nat.eqb Nat.ltb Nat.leb] in Hrun.
  rewrite bind_run, awaitCheckAzureLogin_run in Hrun.
  destruct (checkAzureLogin E (log w1)) as [login|e] eqn:Hlogin; run_eq.
  2:{ eexists. autorewrite with world. rewrite Hlog1, Hcl1, <- app_assoc.
      repeat split. by eapply PR_login_threw. }
  rewrite bind_run, record_run, bind_run, awaitGetResourceGroup_run in Hrun.
  destruct (getResourceGroup E _) as [group|e] eqn:Hgroup; run_eq.
  2:{ eexists. autorewrite with world. rewrite Hlog1, Hcl1, <- !app_assoc.
      repeat split. simpl. by eapply PR_resource_group_threw. }
  rewrite bind_run, readSubscriptionId_run in Hrun.
  match type of Hrun with context [subscriptionId E ?l] =>
    destruct (subscriptionId E l) as [sub|] eqn:Hsub end.
  all: destruct (truthy group) eqn:Hg; simpl in Hrun.
  all: try destruct (negb (String.eqb sub EmptyString)) eqn:Hs; simpl in Hrun.
  all: try (run_eq;
            eexists; autorewrite with world; rewrite Hlog1, Hcl1, <- !app_assoc;
            split; [reflexivity|split; [reflexivity|]]; simpl;
            eapply (PR_unresolved E _ evs1 (n :: itemList) login group);
            [done|done|rewrite Hg; simpl; try rewrite Hs; done]).
  rewrite bind_run, provisionItem_confirm in Hrun.
  match type of Hrun with context [forOf _ ?body ?w0] =>
    destruct (forOf (componentList w) body w0) as [r2 w2] eqn:Hrun2 end.
  eapply confirmLoop_trace
    with (falseEvents := provisionCanceled)
         (falseResult := fun _ => Returned (Some false)) in Hrun2.
  2:{ done. }
  2:{ intros item w0. eexists. rewrite bind_run, emit_run. simpl.
      split; [reflexivity|]. by autorewrite with world. }
  destruct Hrun2 as (evs2 & Hlog2 & Hcl2 & Htr2).
  exists (evs1 ++ provisionGate login group (Some sub) ++ evs2).
  assert (log w2 = log w ++ evs1 ++ provisionGate login group (Some sub) ++ evs2
          ∧ componentList w2 = componentList w) as [Hlog Hcl].
  { rewrite Hlog2, Hcl2. autorewrite with world.
    rewrite Hlog1, Hcl1, <- !app_assoc. done. }
  pose proof (PR_provisioning E _ evs1 (n :: itemList) login group (Some sub)
                evs2 r2 Htr1 ltac:(done) Hg Hs Htr2) as Hpr.
  destruct r2 as [[b|]|e]; run_eq; repeat split; done.
Qed.

Lemma deploy_run w :
  ∃ evs,
    log (deploy E w).2 = log w ++ evs
    ∧ componentList (deploy E w).2 = componentList w
    ∧ DeployRun E (componentList w) evs (deploy E w).1.
Proof.
  destruct (deploy E w) as [r w'] eqn:Hrun. simpl.
  unfold deploy, getComponentList in Hrun. rewrite bind_run, bind_run in Hrun.
  destruct (collectEligible _ _ _ _ w) as [r1 w1] eqn:Hrun1.
  destruct (collectEligible_trace E _ _ _ _ _ _ Hrun1) as (evs1 & Hlog1 & Hcl1 & Htr1).
  destruct r1 as [[itemList|]|e]; run_eq.
  3:{ exists evs1. repeat split; try done. by apply DR_prerequisites_threw. }
  2:{ exists evs1. repeat split; try done. by apply DR_prerequisites_failed. }
  destruct itemList as [|n itemList].
  { simpl in Hrun. rewrite bind_run, emit_run in Hrun. run_eq.
    exists (evs1 ++ [EvShowInformationMessage nothingToDeploy]).
    autorewrite with world.
    rewrite Hlog1, Hcl1, app_assoc. repeat split.
    by apply DR_nothing_to_deploy. }
  cbn [length Nat.leb] in Hrun.
  rewrite bind_run, awaitCheckAzureLogin_run in Hrun.
  destruct (checkAzureLogin E (log w1)) as [login|e] eqn:Hlogin; run_eq.
  2:{ eexists. autorewrite with world. rewrite Hlog1, Hcl1, <- app_assoc.
      repeat split. by eapply DR_login_threw. }
  rewrite bind_run, deployItem_confirm in Hrun.
  match type of Hrun with context [forOf _ ?body ?w0] =>
    destruct (forOf (componentList w) body w0) as [r2 w2] eqn:Hrun2 end.
  eapply confirmLoop_trace
    with (falseEvents := [])
         (falseResult := fun item => Thrown (deploymentFailed (name item)))
    in Hrun2.
  2:{ done. }
  2:{ intros item w0. eexists. split; [reflexivity|].
      by rewrite app_nil_r. }
  destruct Hrun2 as (evs2 & Hlog2 & Hcl2 & Htr2).
  assert (log w2 = log w ++ evs1 ++ EvCheckAzureLogin (Returned login) :: evs2
          ∧ componentList w2 = componentList w) as [Hlog Hcl].
  { rewrite Hlog2, Hcl2. autorewrite with world.
    rewrite Hlog1, Hcl1, <- !app_assoc. done. }
  destruct r2 as [[b|]|e].
  - run_eq. eexists. repeat split; [exact Hlog|exact Hcl|].
    by apply (DR_stopped E _ evs1 (n :: itemList) login evs2 (Returned (Some b))).
  - rewrite bind_run, emit_run in Hrun. run_eq. autorewrite with world.
    exists (evs1 ++ EvCheckAzureLogin (Returned login) :: evs2
              ++ [EvShowInformationMessage "Azure deploy succeeded."]).
    rewrite Hlog, Hcl, <- !app_assoc. repeat split.
    by apply (DR_deployed E _ evs1 (n :: itemList) login evs2).
  - run_eq. eexists. repeat split; [exact Hlog|exact Hcl|].
    by apply (DR_stopped E _ evs1 (n :: itemList) login evs2 (Thrown e)).
Qed.
End Runs.

(** ** Facts about the relations *)

Lemma lookup_app_skip {A} (P : A → Prop) (l1 l2 : list A) i x :
  Forall P l1 → ¬ P x → (l1 ++ l2) !! i = Some x →
  ∃ j, i = length l1 + j ∧ l2 !! j = Some x.
Proof.
  intros Hall Hx Hi. apply lookup_app_Some in Hi as [Hi|[Hle Hi]].
  - rewrite Forall_lookup in Hall. by apply Hall in Hi.
  - exists (i - length l1). split; [lia|done].
Qed.

Lemma invoked_nil_Forall act evs :
  Forall (λ e, notInvoke act e = true) evs → invoked act evs = [].
Proof.
  induction 1 as [|e evs He _ IH]; [done|]. unfold invoked in *. simpl.
  destruct e; simpl in *; try done.
  case_decide; [|done]. by rewrite bool_decide_eq_true_2 in He.
Qed.

Lemma invoked_app act evs1 evs2 :
  invoked act (evs1 ++ evs2) = invoked act evs1 ++ invoked act evs2.
Proof. apply omap_app. Qed.

Section PhaseTraceFacts.
Context {can : Component → bool} {act : Action} {err : Error}.
Hypothesis act_not_check : act ≠ CheckPrerequisites.

Lemma PhaseTrace_invoked items evs r :
  PhaseTrace can act err items evs r →
  invoked act evs `prefix_of` filter (λ c, can c = true) items.
Proof using act_not_check.
  induction 1; rewrite ?filter_cons; unfold invoked in *; simpl;
    repeat case_decide; try congruence;
    auto using prefix_nil, prefix_cons.
Qed.

Lemma PhaseTrace_prerequisites_final items evs r :
  PhaseTrace can act err items evs r →
  ∀ i c, evs !! i = Some (EvInvoke c CheckPrerequisites (Returned false)) →
         r = Returned (Some false) ∧ length evs = S i.
Proof using act_not_check.
  induction 1 as [|? ? ? ? ? ? IH|? ? ? ? ? ? IH| | | |]; intros i c Hi;
    try (destruct i as [|[|[|i]]]; simplify_eq/=; done).
  - by apply IH in Hi.
  - destruct i as [|[|i]]; simplify_eq/=.
    destruct (IH _ _ Hi) as [-> ->]. done.
Qed.

Lemma PhaseTrace_action_final items evs r :
  PhaseTrace can act err items evs r →
  ∀ i c, evs !! i = Some (EvInvoke c act (Returned false)) →
         r = Thrown err ∧ length evs = S i.
Proof using act_not_check.
  induction 1 as [|? ? ? ? ? ? IH|? ? ? ? ? ? IH| | | |]; intros i c Hi;
    try (destruct i as [|[|[|i]]]; simplify_eq/=; done).
  - by apply IH in Hi.
  - destruct i as [|[|i]]; simplify_eq/=.
    destruct (IH _ _ Hi) as [-> ->]. done.
Qed.
End PhaseTraceFacts.

(** The first pass only ever checks prerequisites. *)
Lemma EligibleTrace_checks can items itemList evs r act :
  act ≠ CheckPrerequisites →
  EligibleTrace can items itemList evs r →
  Forall (λ e, notInvoke act e = true) evs.
Proof.
  intros Hact. induction 1; repeat constructor; simpl; try done.
  all: by rewrite bool_decide_eq_false_2.
Qed.

Lemma EligibleTrace_no_gate can items itemList evs r :
  EligibleTrace can items itemList evs r →
  Forall (λ e, ∃ c res, e = EvInvoke c CheckPrerequisites res) evs.
Proof. induction 1; repeat constructor; eauto. Qed.

Section ConfirmTraceFacts.
Context {can : Component → bool} {act : Action} {placeHolder : string}
  {itemList : list string} {falseEvents : list Event}
  {falseResult : Component → Result (option bool)}.
Hypothesis falseEvents_quiet :
  Forall (λ e, ∀ c r, e ≠ EvInvoke c act r) falseEvents.

Lemma ConfirmTrace_action_final items evs r :
  ConfirmTrace can act placeHolder itemList falseEvents falseResult items evs r →
  ∀ i c, evs !! i = Some (EvInvoke c act (Returned false)) →
         r = falseResult c ∧ drop (S i) evs = falseEvents.
Proof using falseEvents_quiet.
  induction 1 as [|? ? ? ? ? ? IH|? ? ? ? ? ? IH| | |]; intros i c Hi;
    try (destruct i as [|[|[|i]]]; simplify_eq/=; done).
  - by apply IH in Hi.
  - destruct i as [|[|i]]; simplify_eq/=. by apply IH.
  - destruct i as [|[|i]]; simplify_eq/=; [done|].
    rewrite Forall_lookup in falseEvents_quiet.
    by destruct (falseEvents_quiet _ _ Hi c (Returned false)).
Qed.

(** Only confirmations, calls of the phase method and [falseEvents]. *)
Lemma ConfirmTrace_events (P : Event → Prop) items evs r :
  (∀ label selected, P (EvShowQuickPick label placeHolder selected)) →
  (∀ c res, P (EvInvoke c act res)) →
  Forall P falseEvents →
  ConfirmTrace can act placeHolder itemList falseEvents falseResult items evs r →
  Forall P evs.
Proof.
  intros Hpick Hcall Hfalse. induction 1; repeat constructor; auto.
Qed.
End ConfirmTraceFacts.

Lemma truthy_Some o :
  truthy o = true → ∃ s, o = Some s ∧ s ≠ EmptyString.
Proof.
  destruct o as [s|]; [|done]. simpl. intros H. exists s. split; [done|].
  intros ->. done.
Qed.

Lemma provisionGate_quiet act login group subscription :
  Forall (λ e, notInvoke act e = true) (provisionGate login group subscription).
Proof. repeat constructor. Qed.

Lemma provisionCanceled_quiet act :
  Forall (λ e, ∀ c r, e ≠ EvInvoke c act r) provisionCanceled.
Proof. constructor; [done|constructor]. Qed.

Lemma ProvisionRun_action_final E items evs r :
  ProvisionRun E items evs r →
  ∀ i c, evs !! i = Some (EvInvoke c Provision (Returned false)) →
         r = Returned false ∧ drop (S i) evs = provisionCanceled.
Proof.
  assert (Hne : Provision ≠ CheckPrerequisites) by done.
  assert (Hev : ∀ c, ¬ notInvoke Provision (EvInvoke c Provision (Returned false)) = true).
  { intros c. by vm_compute. }
  destruct 1 as [ |evs e Ht|evs Ht|evs Ht|evs l e Ht|evs l login e Ht
                 |evs l login g s Ht|evs l login g s evs' r Ht Hl Hg Hs Hc];
    intros i c Hi; try done.
  1-2: apply (EligibleTrace_checks _ _ _ _ _ _ Hne) in Ht;
       rewrite Forall_lookup in Ht; by apply Ht, Hev in Hi.
  1-4: apply (EligibleTrace_checks _ _ _ _ _ _ Hne) in Ht;
       eapply lookup_app_skip in Hi as (j & -> & Hj); [|exact Ht|apply Hev];
       by repeat (destruct j as [|j]; simplify_eq/=).
  apply (EligibleTrace_checks _ _ _ _ _ _ Hne) in Ht.
  eapply lookup_app_skip in Hi as (j & -> & Hj); [|exact Ht|apply Hev].
  eapply lookup_app_skip in Hj as (k & -> & Hk);
    [|apply (provisionGate_quiet Provision)|apply Hev].
  eapply ConfirmTrace_action_final in Hk as [-> Hdrop];
    [|apply provisionCanceled_quiet|exact Hc].
  split; [done|].
  replace (S (length evs + (length (provisionGate login g s) + k)))
    with (length evs + (length (provisionGate login g s) + S k)) by lia.
  by rewrite !drop_app_add.
Qed.

Lemma DeployRun_action_final E items evs r :
  DeployRun E items evs r →
  ∀ i c, evs !! i = Some (EvInvoke c Deploy (Returned false)) →
         r = Thrown (deploymentFailed (name c)) ∧ length evs = S i.
Proof.
  assert (Hne : Deploy ≠ CheckPrerequisites) by done.
  assert (Hev : ∀ c, ¬ notInvoke Deploy (EvInvoke c Deploy (Returned false)) = true).
  { intros c. by vm_compute. }
  assert (Hquiet : Forall (λ e, ∀ c r, e ≠ EvInvoke c Deploy r) []) by constructor.
  destruct 1 as [evs e Ht|evs Ht|evs Ht|evs l e Ht
                 |evs l login evs' r Ht Hl Hc Hr|evs l login evs' Ht Hl Hc];
    intros i c Hi.
  1-2: apply (EligibleTrace_checks _ _ _ _ _ _ Hne) in Ht;
       rewrite Forall_lookup in Ht; by apply Ht, Hev in Hi.
  1-2: apply (EligibleTrace_checks _ _ _ _ _ _ Hne) in Ht;
       eapply lookup_app_skip in Hi as (j & -> & Hj); [|exact Ht|apply Hev];
       by repeat (destruct j as [|j]; simplify_eq/=).
  - apply (EligibleTrace_checks _ _ _ _ _ _ Hne) in Ht.
    eapply lookup_app_skip in Hi as (j & -> & Hj); [|exact Ht|apply Hev].
    destruct j as [|j]; [done|]. simpl in Hj.
    pose proof (lookup_lt_Some _ _ _ Hj) as Hlt.
    eapply ConfirmTrace_action_final in Hj as [-> Hdrop]; [|exact Hquiet|exact Hc].
    split; [done|].
    apply (f_equal length) in Hdrop. rewrite length_drop in Hdrop.
    rewrite length_app. simpl in *. lia.
  - apply (EligibleTrace_checks _ _ _ _ _ _ Hne) in Ht.
    eapply lookup_app_skip in Hi as (j & -> & Hj); [|exact Ht|apply Hev].
    destruct j as [|j]; [done|]. simpl in Hj.
    apply lookup_app_Some in Hj as [Hj|[_ Hj]].
    + by eapply ConfirmTrace_action_final in Hj as [? _];
        [|exact Hquiet|exact Hc].
    + by repeat (destruct (j - length evs') as [|?]; simplify_eq/=).
Qed.

(** Before the second pass, no component is provisioned. *)
Lemma ProvisionRun_gate E items evs r :
  ProvisionRun E items evs r →
  ∀ c res, EvInvoke c Provision res ∈ evs →
  ∃ before after login group subscription,
    evs = before ++ provisionGate login (Some group) (Some subscription) ++ after
    ∧ invoked Provision before = []
    ∧ group ≠ EmptyString ∧ subscription ≠ EmptyString.
Proof.
  assert (Hne : Provision ≠ CheckPrerequisites) by done.
  assert (Hev : ∀ c res, ¬ notInvoke Provision (EvInvoke c Provision res) = true).
  { intros c res. by vm_compute. }
  destruct 1 as [ |evs e Ht|evs Ht|evs Ht|evs l e Ht|evs l login e Ht
                 |evs l login g s Ht|evs l login g s evs' r Ht Hl Hg Hs Hc];
    intros c res Hin.
  8:{ apply truthy_Some in Hg as (group & -> & Hg).
      apply truthy_Some in Hs as (sub & -> & Hs).
      exists evs, evs', login, group, sub. repeat split; try done.
      by eapply invoked_nil_Forall, EligibleTrace_checks. }
  all: exfalso.
  all: try apply (EligibleTrace_checks _ _ _ _ _ _ Hne) in Ht.
  all: try (rewrite elem_of_app in Hin; destruct Hin as [Hin|Hin]).
  all: try (rewrite Forall_forall in Ht; by apply Ht, Hev in Hin).
  all: by repeat (apply elem_of_cons in Hin as [Hin|Hin]; [done|]);
            apply elem_of_nil in Hin.
Qed.


(** When either id is missing, provision answers [false] and no component
    was provisioned. *)
Lemma ProvisionRun_unresolved E items evs r :
  ProvisionRun E items evs r →
  ∀ e, e ∈ evs →
       (∃ group, e = EvGetResourceGroup (Returned group) ∧ truthy group = false)
       ∨ (∃ subscription, e = EvSubscriptionId subscription
                          ∧ truthy subscription = false) →
       r = Returned false ∧ invoked Provision evs = [].
Proof.
  assert (Hne : Provision ≠ CheckPrerequisites) by done.
  destruct 1 as [ |evs e Ht|evs Ht|evs Ht|evs l e Ht|evs l login e Ht
                 |evs l login g s Ht|evs l login g s evs' r Ht Hl Hg Hs Hc];
    intros ev Hin Hev.
  all: assert (Hres : isResolution ev)
         by (destruct Hev as [(? & -> & _)|(? & -> & _)]; exact I).
  all: try pose proof (EligibleTrace_no_gate _ _ _ _ _ Ht) as Hchk.
  all: try pose proof (EligibleTrace_checks _ _ _ _ _ _ Hne Ht) as Hquiet.
  1: by apply elem_of_nil in Hin.
  1-2: rewrite Forall_forall in Hchk;
       destruct (Hchk _ Hin) as (? & ? & ->); done.
  1-5: rewrite elem_of_app in Hin; destruct Hin as [Hin|Hin];
       [rewrite Forall_forall in Hchk;
        destruct (Hchk _ Hin) as (? & ? & ->); done|].
  - apply elem_of_cons in Hin as [->|Hin]; [done|]. by apply elem_of_nil in Hin.
  - apply elem_of_cons in Hin as [->|Hin]; [done|]. by apply elem_of_nil in Hin.
  - repeat (apply elem_of_cons in Hin as [->|Hin]; [try done|]).
    + destruct Hev as [(? & ? & _)|(? & ? & _)]; done.
    + by apply elem_of_nil in Hin.
  - split; [done|]. rewrite invoked_app, (invoked_nil_Forall _ _ Hquiet).
    by apply invoked_nil_Forall, provisionGate_quiet.
  - exfalso. rewrite elem_of_app in Hin. destruct Hin as [Hin|Hin].
    + repeat (apply elem_of_cons in Hin as [->|Hin]; [try done|]).
      * destruct Hev as [(? & ? & Hf)|(? & ? & _)]; simplify_eq. congruence.
      * destruct Hev as [(? & ? & _)|(? & ? & Hf)]; simplify_eq. congruence.
      * by apply elem_of_nil in Hin.
    + eapply (ConfirmTrace_events (λ e, ¬ isResolution e)) in Hc.
      * rewrite Forall_forall in Hc. by apply Hc in Hin.
      * intros; tauto.
      * intros; tauto.
      * repeat constructor; tauto.
Qed.

(** A login check that throws ends provision with its error. *)
Lemma ProvisionRun_login_threw E items evs r :
  ProvisionRun E items evs r →
  ∀ e, EvCheckAzureLogin (Thrown e) ∈ evs →
       r = Thrown e ∧ invoked Provision evs = [].
Proof.
  assert (Hne : Provision ≠ CheckPrerequisites) by done.
  destruct 1 as [ |evs e' Ht|evs Ht|evs Ht|evs l e' Ht|evs l login e' Ht
                 |evs l login g s Ht|evs l login g s evs' r Ht Hl Hg Hs Hc];
    intros e Hin.
  all: try pose proof (EligibleTrace_no_gate _ _ _ _ _ Ht) as Hchk.
  all: try pose proof (EligibleTrace_checks _ _ _ _ _ _ Hne Ht) as Hquiet.
  1: by apply elem_of_nil in Hin.
  1-2: rewrite Forall_forall in Hchk;
       destruct (Hchk _ Hin) as (? & ? & ?); done.
  1-5: rewrite elem_of_app in Hin; destruct Hin as [Hin|Hin];
       [rewrite Forall_forall in Hchk;
        destruct (Hchk _ Hin) as (? & ? & ?); done|].
  - apply elem_of_cons in Hin as [?|Hin]; [done|]. by apply elem_of_nil in Hin.
  - apply elem_of_cons in Hin as [Heq|Hin]; [|by apply elem_of_nil in Hin].
    simplify_eq. split; [done|].
    rewrite invoked_app, (invoked_nil_Forall _ _ Hquiet). done.
  - repeat (apply elem_of_cons in Hin as [?|Hin]; [done|]).
    by apply elem_of_nil in Hin.
  - repeat (apply elem_of_cons in Hin as [?|Hin]; [done|]).
    by apply elem_of_nil in Hin.
  - exfalso. rewrite elem_of_app in Hin. destruct Hin as [Hin|Hin].
    + repeat (apply elem_of_cons in Hin as [?|Hin]; [done|]).
      by apply elem_of_nil in Hin.
    + eapply (ConfirmTrace_events (λ e0, ∀ res, e0 ≠ EvCheckAzureLogin res)) in Hc.
      * rewrite Forall_forall in Hc. by eapply Hc in Hin.
      * done.
      * done.
      * repeat constructor; done.
Qed.


Section Steps.
Variable E : Env.
Variable I : World → World → Prop.
Hypothesis I_refl : ∀ w, I w w.
Hypothesis I_trans : ∀ w1 w2 w3, I w1 w2 → I w2 w3 → I w1 w3.

Lemma steps_ret {A} (a : A) : steps I (ret a).
Proof using I_refl. intros w r w' H. run_eq. apply I_refl. Qed.

Lemma steps_throw {A} e : steps I (@throw A e).
Proof using I_refl. intros w r w' H. run_eq. apply I_refl. Qed.

Lemma steps_lift {A} (x : Result A) : steps I (lift x).
Proof using I_refl. intros w r w' H. unfold lift in H. simplify_eq. apply I_refl. Qed.

Lemma steps_ask {A} (f : list Event → A) : steps I (ask f).
Proof using I_refl. intros w r w' H. rewrite ask_run in H. simplify_eq. apply I_refl. Qed.

Lemma steps_bind {A B} (m : M A) (k : A → M B) :
  steps I m → (∀ a, steps I (k a)) → steps I (bind m k).
Proof using I_refl I_trans.
  intros Hm Hk w r w' H. rewrite bind_run in H.
  destruct (m w) as [[a|e] w1] eqn:Hrun.
  - eapply I_trans; [by eapply Hm|by eapply Hk].
  - simplify_eq. by eapply Hm.
Qed.

Lemma steps_catch {A} (m : M A) (h : Error → M A) :
  steps I m → (∀ e, steps I (h e)) → steps I (catch m h).
Proof using I_refl I_trans.
  intros Hm Hh w r w' H. unfold catch in H.
  destruct (m w) as [[a|e] w1] eqn:Hrun.
  - simplify_eq. by eapply Hm.
  - eapply I_trans; [by eapply Hm|by eapply Hh].
Qed.

(** Steps that only look at the world. *)
Lemma steps_read {A} (m : M A) :
  (∀ w, (m w).2 = w) → steps I m.
Proof using I_refl.
  intros Hm w r w' H. specialize (Hm w). rewrite H in Hm. simpl in Hm.
  subst. apply I_refl.
Qed.

Lemma steps_record e : (∀ w, I w (logged E e w)) → steps I (record E e).
Proof. intros He w r w' H. rewrite record_run in H. simplify_eq. apply He. Qed.

Lemma steps_emit e : (∀ w, I w (noted e w)) → steps I (emit e).
Proof. intros He w r w' H. rewrite emit_run in H. simplify_eq. apply He. Qed.

Lemma steps_push c : (∀ w, I w (pushed c w)) → steps I (push c).
Proof. intros He w r w' H. rewrite push_run in H. simplify_eq. apply He. Qed.

Lemma steps_call c a :
  (∀ r w, I w (logged E (EvInvoke c a r) w)) → steps I (call E c a).
Proof using I_refl I_trans.
  intros He. unfold call.
  apply steps_bind; [apply steps_ask|intros r].
  apply steps_bind; [by apply steps_record|intros _]. apply steps_lift.
Qed.

Lemma steps_new cls deps :
  (∀ c w, I w (logged E (EvNew c) w)) → steps I (new E cls deps).
Proof using I_refl I_trans.
  intros He. unfold new.
  apply steps_bind; [apply steps_ask|intros i].
  apply steps_bind; [by apply steps_record|intros _]. apply steps_ret.
Qed.

Lemma steps_createStore s :
  (∀ r w, I w (logged E (EvCreateIfNotExists s r) w)) →
  steps I (createStore E s).
Proof using I_refl I_trans.
  intros He. unfold createStore.
  apply steps_bind; [apply steps_ask|intros r].
  apply steps_bind; [by apply steps_record|intros _]. apply steps_lift.
Qed.

Lemma steps_updateSettings c s :
  (∀ r w, I w (logged E (EvUpdateConfigSettings c s r) w)) →
  steps I (updateSettings E c s).
Proof using I_refl I_trans.
  intros He. unfold updateSettings.
  apply steps_bind; [apply steps_ask|intros r].
  apply steps_bind; [by apply steps_record|intros _]. apply steps_lift.
Qed.

Lemma steps_trySendEvent n :
  (∀ r w, I w (logged E (EvSendEvent n r) w)) → steps I (trySendEvent E n).
Proof using I_refl I_trans.
  intros He. unfold trySendEvent.
  apply steps_catch; [|intros; apply steps_ret].
  apply steps_bind; [apply steps_ask|intros r].
  apply steps_bind; [by apply steps_record|intros _]. apply steps_lift.
Qed.

Lemma steps_remoteExtensionAvailable :
  (∀ r w, I w (logged E (EvCheckRemoteExtension r) w)) →
  steps I (remoteExtensionAvailable E).
Proof using I_refl I_trans.
  intros He. unfold remoteExtensionAvailable.
  apply steps_bind; [apply steps_ask|intros r].
  apply steps_bind; [by apply steps_record|intros _]. apply steps_lift.
Qed.

Lemma steps_mkdirSync p :
  (∀ w, I w (noted (EvMkdir p) (putFile p Directory w))) →
  steps I (mkdirSync p).
Proof using I_refl.
  intros He w r w' H. unfold mkdirSync in H.
  destruct (fs w); simplify_eq; [apply He|apply I_refl].
Qed.

Lemma steps_mkdirRecursively p :
  (∀ w, I w (noted (EvMkdir p) (putFile p Directory w))) →
  steps I (mkdirRecursively p).
Proof. intros He w r w' H. unfold mkdirRecursively in H. simplify_eq. apply He. Qed.

Lemma steps_writeFileSync p f :
  (∀ w, I w (noted (EvWriteFile p f) (putFile p f w))) →
  steps I (writeFileSync p f).
Proof using I_refl.
  intros He w r w' H. unfold writeFileSync in H.
  destruct (fs w); simplify_eq; [apply He|apply I_refl].
Qed.

Lemma steps_writeFile p f :
  (∀ w, I w (logged E (EvWriteFile p f) w)) →
  steps I (writeFile E p f).
Proof. intros He. unfold writeFile. by apply steps_record. Qed.

Lemma steps_setProjectRootPath p :
  (∀ w, I w {| componentList := componentList w; projectRootPath := p;
               fs := fs w; log := log w |}) →
  steps I (setProjectRootPath p).
Proof. intros He w r w' H. unfold setProjectRootPath in H. simplify_eq. apply He. Qed.

Lemma steps_checkAll items :
  (∀ c r w, I w (logged E (EvInvoke c CheckPrerequisites r) w)) →
  steps I (checkAll E items).
Proof using I_refl I_trans.
  intros He. induction items as [|item rest IH]; simpl.
  - apply steps_ret.
  - apply steps_bind; [apply steps_ask|intros r].
    apply steps_bind; [by apply steps_record|intros _]. apply IH.
Qed.
End Steps.

(** Take a method apart into its primitive steps. *)
Ltac steps_tac :=
  repeat first
    [ apply steps_ret; solve [eauto]
    | apply steps_throw; solve [eauto]
    | apply steps_lift; solve [eauto]
    | apply steps_ask; solve [eauto]
    | apply steps_read; [solve [eauto]|reflexivity]
    | apply steps_bind; [solve [eauto]|solve [eauto]| |intros ?]
    | apply steps_catch; [solve [eauto]|solve [eauto]| |intros ?]
    | apply steps_call; [solve [eauto]|solve [eauto]|]
    | apply steps_new; [solve [eauto]|solve [eauto]|]
    | apply steps_createStore; [solve [eauto]|solve [eauto]|]
    | apply steps_updateSettings; [solve [eauto]|solve [eauto]|]
    | apply steps_trySendEvent; [solve [eauto]|solve [eauto]|]
    | apply steps_remoteExtensionAvailable; [solve [eauto]|solve [eauto]|]
    | apply steps_checkAll; [solve [eauto]|solve [eauto]|]
    | apply steps_mkdirSync; [solve [eauto]|]
    | apply steps_mkdirRecursively
    | apply steps_writeFileSync; [solve [eauto]|]
    | apply steps_writeFile; [solve [eauto]|]
    | apply steps_setProjectRootPath
    | apply steps_record
    | apply steps_emit
    | apply steps_push
    | match goal with
      | |- steps _ (if ?b then _ else _) => destruct b
      | |- steps _ (match ?x with _ => _ end) => destruct x
      end ].


Lemma adding_refl Q w : adding Q w w.
Proof. exists []. by rewrite app_nil_r. Qed.

Lemma adding_trans Q w1 w2 w3 : adding Q w1 w2 → adding Q w2 w3 → adding Q w1 w3.
Proof.
  intros (evs1 & H1 & F1) (evs2 & H2 & F2). exists (evs1 ++ evs2).
  rewrite H2, H1, app_assoc. split; [done|]. by apply Forall_app.
Qed.

Lemma adding_logged E Q e w : Q e = true → adding Q w (logged E e w).
Proof. intros He. exists [e]. split; [done|]. by constructor. Qed.

Lemma adding_noted Q e w w0 :
  Q e = true → log w0 = log w → adding Q w (noted e w0).
Proof.
  intros He Hw. exists [e]. rewrite log_noted, Hw. split; [done|]. by constructor.
Qed.

Lemma adding_same Q w w0 : log w0 = log w → adding Q w w0.
Proof. intros Hw. exists []. by rewrite app_nil_r. Qed.

#[global] Hint Resolve adding_refl adding_trans : core.


Lemma sameRegistry_refl w : sameRegistry w w.
Proof. done. Qed.

Lemma sameRegistry_trans w1 w2 w3 :
  sameRegistry w1 w2 → sameRegistry w2 w3 → sameRegistry w1 w3.
Proof. unfold sameRegistry. congruence. Qed.

#[global] Hint Resolve sameRegistry_refl sameRegistry_trans : core.

(** ** create *)


Ltac adding_tac :=
  intros;
  first [ apply adding_logged; reflexivity
        | apply adding_noted; reflexivity
        | apply adding_same; reflexivity ].

Section Create.
Variable E : Env.

Lemma scaffold_adding rootFolderPath projectType boardId :
  steps (adding besidesCreation) (scaffold E rootFolderPath projectType boardId).
Proof.
  unfold scaffold, expandTemplate. steps_tac; adding_tac.
Qed.

Lemma persist_adding rootFolderPath workspace projectConfig openInNewWindow :
  steps (adding besidesCreation)
    (persist E rootFolderPath workspace projectConfig openInNewWindow).
Proof.
  unfold persist. steps_tac; adding_tac.
Qed.

Lemma persist_sameRegistry rootFolderPath workspace projectConfig openInNewWindow :
  steps sameRegistry
    (persist E rootFolderPath workspace projectConfig openInNewWindow).
Proof.
  unfold persist. steps_tac; intros; reflexivity.
Qed.

Lemma createLoop_trace items :
  ∀ w r w', forOf items (createItem E) w = (r, w') →
  ∃ evs,
    log w' = log w ++ evs
    ∧ componentList w' = componentList w
    ∧ CreateTrace items evs r
    ∧ (r = Returned (Some false) → fs w' = None).
Proof.
  induction items as [|item rest IH]; intros w r w' Hrun.
  - inversion Hrun; subst. exists []. rewrite app_nil_r.
    repeat split; [constructor|done].
  - rewrite forOf_cons in Hrun. unfold createItem at 1 in Hrun.
    rewrite bind_run, call_run in Hrun.
    destruct (invoke E (log w) item Create) as [[|]|e]; simpl in Hrun.
    + destruct (IH _ _ _ Hrun) as (evs & Hlog & Hcl & Htr & Hfs).
      eexists. rewrite Hlog, Hcl. autorewrite with world.
      rewrite <- !app_assoc. simpl.
      repeat split; [by apply CT_created|done].
    + run_eq. eexists. autorewrite with world. rewrite <- !app_assoc. simpl.
      repeat split. apply CT_canceled.
    + run_eq. eexists. autorewrite with world.
      repeat split; [apply CT_threw|done].
Qed.

Lemma createComponents_trace w :
  ∃ evs r,
    log (createComponents E w).2 = log w ++ evs
    ∧ componentList (createComponents E w).2 = componentList w
    ∧ CreateTrace (componentList w) evs r
    ∧ (createComponents E w).1 =
        match r with
        | Returned (Some b) => Returned b
        | Returned None => Returned true
        | Thrown e => Thrown e
        end
    ∧ (r = Returned (Some false) → fs (createComponents E w).2 = None).
Proof.
  unfold createComponents, getComponentList, catch.
  rewrite bind_run, bind_run.
  destruct (forOf _ _ w) as [r w'] eqn:Hrun.
  destruct (createLoop_trace _ _ _ _ Hrun) as (evs & Hlog & Hcl & Htr & Hfs).
  exists evs, r. destruct r as [[b|]|e]; simpl; auto.
Qed.
End Create.


Lemma CreateTrace_shape items evs r :
  CreateTrace items evs r →
  ∃ k,
    match r with
    | Returned None => k = length items ∧ evs = created items k
    | Returned (Some b) =>
        b = false
        ∧ ∃ c, items !! k = Some c
               ∧ evs = created items k
                         ++ [EvInvoke c Create (Returned false); EvRemoveSync;
                             EvShowWarningMessage "Project initialize canceled."]
    | Thrown e =>
        ∃ c, items !! k = Some c
             ∧ evs = created items k ++ [EvInvoke c Create (Thrown e)]
    end.
Proof.
  induction 1 as [|item rest evs r _ [k IH]| |].
  - by exists 0.
  - exists (S k). destruct r as [[b|]|e].
    + destruct IH as (-> & c & Hc & ->). eauto.
    + destruct IH as (-> & ->). done.
    + destruct IH as (c & Hc & ->). eauto.
  - exists 0. eauto.
  - exists 0. eauto.
Qed.

Lemma created_all_true items k :
  Forall (λ e, ∃ c, e = EvInvoke c Create (Returned true)) (created items k).
Proof.
  unfold created. apply Forall_fmap, Forall_forall. intros c _. by exists c.
Qed.

(** Every run of [create]: what comes before the loop over the registry,
    the loop itself, and what comes after it. *)
Lemma create_run E rootFolderPath projectType boardId openInNewWindow w :
  ∃ before evs after,
    log (create E rootFolderPath projectType boardId openInNewWindow w).2
      = log w ++ before ++ evs ++ after
    ∧ Forall (λ e, besidesCreation e = true) before
    ∧ Forall (λ e, besidesCreation e = true) after
    ∧ ((evs = [] ∧ after = [])
       ∨ ∃ r,
           CreateTrace
             (componentList
                (create E rootFolderPath projectType boardId openInNewWindow w).2)
             evs r
           ∧ match r with
             | Returned None => True
             | Returned (Some b) =>
                 after = []
                 ∧ (create E rootFolderPath projectType boardId
                      openInNewWindow w).1 = Returned b
                 ∧ (b = false →
                    fs (create E rootFolderPath projectType boardId
                          openInNewWindow w).2 = None)
             | Thrown e =>
                 after = []
                 ∧ (create E rootFolderPath projectType boardId
                      openInNewWindow w).1 = Thrown e
             end).
Proof.
  unfold create. rewrite bind_run.
  destruct (scaffold E rootFolderPath projectType boardId w)
    as [r1 w1] eqn:Hrun1.
  destruct (scaffold_adding E _ _ _ _ _ _ Hrun1) as (evs1 & Hlog1 & Hq1).
  destruct r1 as [[[workspace projectConfig]|]|e].
  2,3: exists evs1, [], []; simpl; rewrite app_nil_r; repeat split; auto.
  rewrite bind_run.
  destruct (createComponents_trace E w1) as (evs2 & r2 & Hlog2 & Hcl2 & Htr2 & Hres2 & Hfs2).
  destruct (createComponents E w1) as [r w2]. simpl in *. subst r.
  destruct r2 as [[b|]|e].
  - destruct b.
    { apply CreateTrace_shape in Htr2 as (k & ? & _). done. }
    exists evs1, evs2, []. simpl.
    rewrite Hlog2, Hlog1, app_nil_r, <- app_assoc, Hcl2.
    repeat split; auto. right. exists (Returned (Some false)). auto.
  - simpl.
    destruct (persist E rootFolderPath workspace projectConfig openInNewWindow w2)
      as [r3 w3] eqn:Hrun3.
    destruct (persist_adding E _ _ _ _ _ _ _ Hrun3) as (evs3 & Hlog3 & Hq3).
    pose proof (persist_sameRegistry E _ _ _ _ _ _ _ Hrun3) as Hcl3.
    unfold sameRegistry in Hcl3.
    exists evs1, evs2, evs3. simpl.
    rewrite Hlog3, Hlog2, Hlog1, <- !app_assoc, Hcl3, Hcl2.
    repeat split; auto. right. by exists (Returned None).
  - exists evs1, evs2, []. simpl.
    rewrite Hlog2, Hlog1, app_nil_r, <- app_assoc, Hcl2.
    repeat split; auto. right. exists (Thrown e). auto.
Qed.

(** *** Following one run step by step *)


Lemma hasRoot_logged E e w : keepsRoot E → hasRoot w → hasRoot (logged E e w).
Proof. intros HE Hw. by apply HE. Qed.

Lemma hasRoot_noted e w : hasRoot w → hasRoot (noted e w).
Proof. done. Qed.

Lemma hasRoot_pushed c w : hasRoot w → hasRoot (pushed c w).
Proof. done. Qed.

Lemma hasRoot_putFile p f w : hasRoot (putFile p f w).
Proof. unfold hasRoot, putFile. simpl. by destruct (fs w). Qed.

Create HintDb root.
#[global] Hint Resolve hasRoot_logged hasRoot_noted hasRoot_pushed
  hasRoot_putFile : root.

Lemma mkdirSync_run p w :
  hasRoot w →
  mkdirSync p w = (Returned tt, noted (EvMkdir p) (putFile p Directory w)).
Proof. intros [files H]. unfold mkdirSync. by rewrite H. Qed.

Lemma writeFileSync_run p f w :
  hasRoot w →
  writeFileSync p f w = (Returned tt, noted (EvWriteFile p f) (putFile p f w)).
Proof. intros [files H]. unfold writeFileSync. by rewrite H. Qed.

Lemma rootExists_run w : hasRoot w → rootExists w = (Returned true, w).
Proof. intros H. unfold rootExists. by rewrite bool_decide_eq_true_2. Qed.

Lemma new_run E cls deps w :
  new E cls deps w =
    (Returned (mkComponent cls (newId E (log w) cls) (nameOf E cls) deps),
     logged E (EvNew (mkComponent cls (newId E (log w) cls) (nameOf E cls) deps)) w).
Proof. reflexivity. Qed.

Lemma createStore_run E s w :
  createStore E s w =
    (createIfNotExists E (log w) s,
     logged E (EvCreateIfNotExists s (createIfNotExists E (log w) s)) w).
Proof. reflexivity. Qed.

Lemma updateSettings_run E c s w :
  updateSettings E c s w =
    (updateConfigSettings E (log w) c s,
     logged E (EvUpdateConfigSettings c s (updateConfigSettings E (log w) c s)) w).
Proof. reflexivity. Qed.


Section RunsTo.
Variable E : Env.

Lemma runsTo_ret {A} (a : A) w (P : A → World → Prop) :
  P a w → runsTo (ret a) w P.
Proof. intros H. by exists a, w. Qed.

Lemma runsTo_bind {A B} (m : M A) (k : A → M B) w (P : B → World → Prop) :
  runsTo m w (λ a w1, runsTo (k a) w1 P) → runsTo (bind m k) w P.
Proof.
  intros (a & w1 & Hm & b & w2 & Hk & HP). exists b, w2.
  rewrite bind_run, Hm. done.
Qed.

Lemma runsTo_ask {A} (f : list Event → A) w (P : A → World → Prop) :
  P (f (log w)) w → runsTo (ask f) w P.
Proof. intros H. by eexists _, _. Qed.

Lemma runsTo_lift {A} (a : A) w (P : A → World → Prop) :
  P a w → runsTo (lift (Returned a)) w P.
Proof. intros H. by eexists _, _. Qed.

Lemma runsTo_push c w (P : unit → World → Prop) :
  P tt (pushed c w) → runsTo (push c) w P.
Proof. intros H. by eexists _, _. Qed.

Lemma runsTo_getComponentList w (P : list Component → World → Prop) :
  P (componentList w) w → runsTo getComponentList w P.
Proof. intros H. by eexists _, _. Qed.

Lemma runsTo_setProjectRootPath p w (P : unit → World → Prop) :
  P tt {| componentList := componentList w; projectRootPath := p;
          fs := fs w; log := log w |} →
  runsTo (setProjectRootPath p) w P.
Proof. intros H. by eexists _, _. Qed.

Lemma runsTo_new cls deps w (P : Component → World → Prop) :
  (∀ c, componentClass c = cls → dependencies c = deps →
        P c (logged E (EvNew c) w)) →
  runsTo (new E cls deps) w P.
Proof. intros H. eexists _, _. split; [apply new_run|]. by apply H. Qed.

Lemma runsTo_call c a b w (P : bool → World → Prop) :
  invoke E (log w) c a = Returned b →
  P b (logged E (EvInvoke c a (Returned b)) w) →
  runsTo (call E c a) w P.
Proof. intros Hb H. eexists _, _. rewrite call_run, Hb. done. Qed.

Lemma runsTo_createStore s w (P : unit → World → Prop) :
  createIfNotExists E (log w) s = Returned tt →
  P tt (logged E (EvCreateIfNotExists s (Returned tt)) w) →
  runsTo (createStore E s) w P.
Proof. intros Hb H. eexists _, _. rewrite createStore_run, Hb. done. Qed.

Lemma runsTo_updateSettings c s w (P : unit → World → Prop) :
  updateConfigSettings E (log w) c s = Returned tt →
  P tt (logged E (EvUpdateConfigSettings c s (Returned tt)) w) →
  runsTo (updateSettings E c s) w P.
Proof. intros Hb H. eexists _, _. rewrite updateSettings_run, Hb. done. Qed.

Lemma runsTo_existsSync p w (P : bool → World → Prop) :
  (∀ b, P b w) → runsTo (existsSync p) w P.
Proof. intros H. by eexists _, _. Qed.

Lemma runsTo_rootExists w (P : bool → World → Prop) :
  hasRoot w → P true w → runsTo rootExists w P.
Proof. intros Hw H. eexists _, _. by rewrite rootExists_run. Qed.

Lemma runsTo_mkdirSync p w (P : unit → World → Prop) :
  hasRoot w → P tt (noted (EvMkdir p) (putFile p Directory w)) →
  runsTo (mkdirSync p) w P.
Proof. intros Hw H. eexists _, _. by rewrite mkdirSync_run. Qed.

Lemma runsTo_writeFileSync p f w (P : unit → World → Prop) :
  hasRoot w → P tt (noted (EvWriteFile p f) (putFile p f w)) →
  runsTo (writeFileSync p f) w P.
Proof. intros Hw H. eexists _, _. by rewrite writeFileSync_run. Qed.

Lemma runsTo_checkAll items w (P : unit → World → Prop) :
  (∀ w', componentList w' = componentList w →
         (∃ evs, log w' = log w ++ evs
                 ∧ Forall2 (λ c e, ∃ r, e = EvInvoke c CheckPrerequisites r)
                     items evs) →
         P tt w') →
  runsTo (checkAll E items) w P.
Proof.
  revert w P. induction items as [|item rest IH]; intros w P H; simpl.
  - apply runsTo_ret, H; [done|]. exists []. by rewrite app_nil_r.
  - apply runsTo_bind, runsTo_ask, runsTo_bind.
    eexists _, _. split; [apply record_run|].
    apply IH. intros w' Hcl (evs & Hlog & Hevs). apply H.
    + by rewrite Hcl.
    + eexists (_ :: evs). rewrite Hlog, log_logged, <- app_assoc.
      split; [done|]. constructor; eauto.
Qed.
End RunsTo.

(** One step of a run written in a hypothesis. *)
Ltac run_step H :=
  first [ rewrite bind_run in H
        | rewrite ask_run in H
        | rewrite record_run in H
        | rewrite emit_run in H
        | rewrite push_run in H
        | rewrite call_run in H
        | rewrite new_run in H
        | rewrite createStore_run in H
        | rewrite updateSettings_run in H ];
  cbn beta iota in H.

(** Follow a run forward, as far as the rules without side conditions go. *)
Ltac runs :=
  repeat (cbn beta iota; cbn [negb];
          lazymatch goal with
          | |- runsTo (bind _ _) _ _ => apply runsTo_bind
          | |- runsTo (ret _) _ _ => apply runsTo_ret
          | |- runsTo (ask _) _ _ => apply runsTo_ask
          | |- runsTo (lift (Returned _)) _ _ => apply runsTo_lift
          | |- runsTo (push _) _ _ => apply runsTo_push
          | |- runsTo getComponentList _ _ => apply runsTo_getComponentList
          | |- runsTo (setProjectRootPath _) _ _ => apply runsTo_setProjectRootPath
          | |- runsTo (new _ _ _) _ _ => apply runsTo_new; intros ? ? ?
          | |- runsTo (existsSync _) _ _ => apply runsTo_existsSync; intros [|]
          | |- runsTo (mkdirSync _) _ _ =>
              apply runsTo_mkdirSync; [solve [auto 20 with root]|]
          | |- runsTo (writeFileSync _ _) _ _ =>
              apply runsTo_writeFileSync; [solve [auto 20 with root]|]
          | |- runsTo rootExists _ _ =>
              apply runsTo_rootExists; [solve [auto 20 with root]|]
          end).

Section StreamAnalyticsTemplate.
Variable E : Env.
Hypothesis E_keepsRoot : keepsRoot E.
Hypothesis prerequisites_hold :
  ∀ l c, invoke E l c CheckPrerequisites = Returned true.
Hypothesis template_readable : ∀ l, ∃ t, readAsaTemplate E l = Returned t.

Lemma expandTemplate_StreamAnalytics workspace projectConfig w :
  hasRoot w →
  runsTo
    (expandTemplate E ProjectTemplateType.StreamAnalytics workspace projectConfig)
    w
    (λ r w1,
       r = Some ({| folders := folders workspace ++ [asaFolderName];
                    settings := <[ConfigKey.asaPath := asaFolderName]>
                                  (settings workspace) |},
                 <[ConfigKey.asaPath := CfgString asaFolderName]> projectConfig)
       ∧ hasRoot w1
       ∧ ∃ iothub cosmosDB asa,
           componentList w1 = componentList w ++ [iothub; cosmosDB; asa]
           ∧ componentClass iothub = IoTHub
           ∧ componentClass cosmosDB = CosmosDB
           ∧ componentClass asa = StreamAnalyticsJob
           ∧ dependencies asa = [mkDependency iothub DependencyType.Input;
                                 mkDependency cosmosDB DependencyType.Other]).
Proof using E_keepsRoot prerequisites_hold template_readable.
  intros Hroot. unfold expandTemplate. runs.
  eapply runsTo_call; [apply prerequisites_hold|]. runs.
  eapply runsTo_call; [apply prerequisites_hold|]. runs.
  all: match goal with |- runsTo (lift (readAsaTemplate E ?l)) _ _ =>
         destruct (template_readable l) as [t ->] end.
  all: runs.
  all: eapply runsTo_call; [apply prerequisites_hold|]; runs.
  all: split; [done|split; [auto 20 with root|]].
  all: eexists _, _, _; autorewrite with world; rewrite <- !app_assoc; simpl.
  all: repeat split; done.
Qed.

Lemma scaffold_StreamAnalytics rootFolderPath w :
  hasRoot w →
  (∀ l, createIfNotExists E l ScaffoldType.Local = Returned tt) →
  runsTo
    (scaffold E rootFolderPath ProjectTemplateType.StreamAnalytics
       (RaspberryPiDevice_boardId E))
    w
    (λ r w1,
       ∃ workspace projectConfig device iothub cosmosDB asa,
         r = Some (workspace, projectConfig)
         ∧ componentList w1
           = componentList w ++ [device; device; iothub; cosmosDB; asa]
         ∧ componentClass device = RaspberryPiDevice
         ∧ componentClass iothub = IoTHub
         ∧ componentClass cosmosDB = CosmosDB
         ∧ componentClass asa = StreamAnalyticsJob
         ∧ dependencies asa = [mkDependency iothub DependencyType.Input;
                               mkDependency cosmosDB DependencyType.Other]
         ∧ folders workspace = [deviceDefaultFolderName; asaFolderName]
         ∧ projectConfig !! ConfigKey.boardId
           = Some (CfgString (RaspberryPiDevice_boardId E))
         ∧ projectConfig !! ConfigKey.asaPath = Some (CfgString asaFolderName)).
Proof using E_keepsRoot prerequisites_hold template_readable.
  intros Hroot Hstore. unfold scaffold. runs.
  eapply runsTo_createStore; [apply Hstore|]. runs.
  all: rewrite String.eqb_refl; runs.
  all: eapply runsTo_call; [apply prerequisites_hold|]; runs.
  all: match goal with |- runsTo _ ?w0 _ =>
         assert (hasRoot w0) as Hroot0 by auto 20 with root;
         destruct (expandTemplate_StreamAnalytics
                     {| folders := [deviceDefaultFolderName];
                        settings := <[ConfigKey.devicePath := deviceDefaultFolderName]>
                                      (<[ConfigKey.boardId := RaspberryPiDevice_boardId E]> ∅) |}
                     (<[ConfigKey.projectType :=
                          CfgProjectType ProjectTemplateType.StreamAnalytics]>
                        (<[ConfigKey.boardId :=
                             CfgString (RaspberryPiDevice_boardId E)]> ∅))
                     w0 Hroot0)
           as (r & w1 & Hrun & -> & _ & iothub & cosmosDB & asa & Hcl & ? & ? & ? & ?)
       end.
  all: eexists _, w1; split; [exact Hrun|].
  all: eexists _, _, _, iothub, cosmosDB, asa; split; [reflexivity|].
  all: rewrite Hcl; autorewrite with world; rewrite <- !app_assoc; simpl.
  all: repeat split; try done.
Qed.
End StreamAnalyticsTemplate.

(** ** load *)

Section LoadRuns.
Variable E : Env.

Lemma runsTo_loadComponent cfg c b w (P : Component → World → Prop) :
  invoke E (log w) c Load = Returned b →
  (∀ c', componentClass c' = componentClass c →
         dependencies c' = dependencies c →
         id c' = idAfterLoad E
                   (log (logged E (EvInvoke c Load (Returned b)) w)) cfg c →
         P c' (logged E (EvInvoke c Load (Returned b)) w)) →
  runsTo (loadComponent E cfg c) w P.
Proof.
  intros Hb H. unfold loadComponent.
  apply runsTo_bind. eapply runsTo_call; [exact Hb|].
  apply runsTo_bind, runsTo_ask, runsTo_ret. by apply H.
Qed.

Lemma lookupMember_Some components k c :
  components !! k = Some c → lookupMember components k = Some (Stored c).
Proof. intros H. unfold lookupMember. by rewrite H. Qed.

Lemma lookupMember_inherited components k :
  components !! k = None → k ∈ objectPrototypeNames →
  lookupMember components k = Some (Inherited k).
Proof.
  intros H Hk. unfold lookupMember. rewrite H. by rewrite bool_decide_eq_true_2.
Qed.

Lemma lookupMember_None components k :
  lookupMember components k = None
  ↔ components !! k = None ∧ k ∉ objectPrototypeNames.
Proof.
  unfold lookupMember. destruct (components !! k) as [c|].
  - split; [done|]. by intros [? _].
  - case_bool_decide; split; try done. by intros [_ ?].
Qed.

Lemma resolveDependencies_resolved components deps :
  Forall (λ d, is_Some (components !! dep_id d)) deps →
  ∀ acc, ∃ dependencies, resolveDependencies components deps acc = Returned dependencies.
Proof.
  induction 1 as [|d deps [c Hc] _ IH]; intros acc; simpl; [by eexists|].
  rewrite (lookupMember_Some _ _ _ Hc). apply IH.
Qed.

Lemma resolveDependencies_unresolved components deps d :
  d ∈ deps → lookupMember components (dep_id d) = None →
  ∀ acc, resolveDependencies components deps acc = Thrown cannotFindComponent.
Proof.
  intros Hin Hd. induction deps as [|d' deps IH]; intros acc.
  - by apply elem_of_nil in Hin.
  - simpl. destruct (lookupMember components (dep_id d')) as [c|] eqn:Hc; [|done].
    apply elem_of_cons in Hin as [->|Hin]; [congruence|]. by apply IH.
Qed.
End LoadRuns.

Ltac loads Hloads :=
  lazymatch goal with
  | |- runsTo (loadComponent ?E ?cfg ?c) ?w _ =>
      let b := fresh "b" in
      let Hb := fresh "Hb" in
      destruct (Hloads (log w) c) as [b Hb];
      eapply runsTo_loadComponent; [exact Hb|]; intros ? ? ? ?
  end.

Section LoadRuns2.
Variable E : Env.
Hypothesis E_loads : loadsQuietly E.

Lemma loadLegacy_runs w :
  (∀ l, truthy (configGet E l ConfigKey.functionPath) = true) →
  (∀ l c s, updateConfigSettings E l c s = Returned tt) →
  runsTo (loadLegacy E) w
    (λ r w',
       r = true
       ∧ ∃ iotHub device functionApp evs checks,
           componentList w' = componentList w ++ [iotHub; device; functionApp]
           ∧ componentClass iotHub = IoTHub
           ∧ componentClass device = IoTHubDevice
           ∧ componentClass functionApp = AzureFunctions
           ∧ dependencies functionApp = [mkDependency iotHub DependencyType.Input]
           ∧ log w' = log w ++ evs ++ checks
           ∧ Forall2 (λ c e, ∃ res, e = EvInvoke c CheckPrerequisites res)
               (componentList w') checks).
Proof using E_loads.
  intros Hpath Hupdate. unfold loadLegacy. runs.
  eapply runsTo_updateSettings; [apply Hupdate|]. runs.
  loads E_loads. runs. rewrite Hpath. runs.
  eapply runsTo_updateSettings; [apply Hupdate|]. runs.
  loads E_loads. runs.
  apply runsTo_checkAll. intros w' Hcl (checks & Hlog & Hchecks). runs.
  split; [done|].
  match type of Hlog with _ = log ?w0 ++ _ =>
    assert (∃ evs, log w0 = log w ++ evs) as [evs Hevs]
      by (autorewrite with world; rewrite <- !app_assoc; eexists; reflexivity)
  end.
  rewrite Hevs in Hlog.
  revert Hchecks. rewrite Hcl, Hlog. autorewrite with world.
  rewrite <- !app_assoc. simpl. intros Hchecks.
  eexists _, _, _, evs, checks.
  split; [reflexivity|]. repeat split; try done; congruence.
Qed.
End LoadRuns2.

Section Resolver.
Variable E : Env.
Hypothesis E_loads : loadsQuietly E.
Hypothesis E_rehydrates : rehydrates E.
Hypothesis functionPath_set :
  ∀ l, truthy (configGet E l ConfigKey.functionPath) = true.

Lemma loadComponentConfig_runs componentConfig components seen w :
  cfg_type componentConfig ∈ supportedTypes →
  (∀ k, k ∈ seen → is_Some (components !! k)) →
  Forall (λ d, dep_id d ∈ seen) (cfg_dependencies componentConfig) →
  runsTo (loadComponentConfig E componentConfig components) w
    (λ r w',
       ∃ components' R,
         r = Some components'
         ∧ componentList w' = componentList w ++ R
         ∧ componentClass <$> R = componentsOf componentConfig
         ∧ id <$> filter ofRecord R = [cfg_id componentConfig]
         ∧ ∀ k, k ∈ cfg_id componentConfig :: seen → is_Some (components' !! k)).
Proof using E_loads E_rehydrates functionPath_set.
  intros Htype Hseen Hdeps.
  assert (Hresolved : ∃ dependencies,
             resolveDependencies components (cfg_dependencies componentConfig) []
             = Returned dependencies).
  { apply resolveDependencies_resolved. eapply Forall_impl; [exact Hdeps|].
    intros d Hd. by apply Hseen. }
  destruct Hresolved as [resolved Hresolved].
  assert (Hkeys : ∀ c, id c = cfg_id componentConfig →
             ∀ k, k ∈ cfg_id componentConfig :: seen →
                  is_Some (<[id c := c]> components !! k)).
  { intros c Hc k Hk. rewrite lookup_insert. case_decide; [by eexists|].
    apply Hseen. apply elem_of_cons in Hk as [Hk|Hk]; [congruence|done]. }
  unfold supportedTypes in Htype.
  repeat (apply elem_of_cons in Htype as [Htype|Htype]);
    [..|by apply elem_of_nil in Htype];
    unfold loadComponentConfig, componentsOf; rewrite Htype; simpl;
    rewrite ?Hresolved; runs; rewrite ?functionPath_set; runs;
    loads E_loads; runs.
  all: match goal with Hid : id _ = idAfterLoad _ _ _ _ |- _ =>
         rewrite E_rehydrates in Hid end.
  all: eexists _, _; split; [reflexivity|].
  all: autorewrite with world; rewrite <- ?app_assoc; simpl.
  all: split; [reflexivity|]; simpl.
  all: rewrite ?filter_cons, ?filter_nil; unfold ofRecord.
  all: repeat case_decide; try congruence.
  all: repeat split; simpl; try congruence; auto.
Qed.

Lemma loadComponentConfigs_runs componentConfigs :
  ∀ components seen w,
    Forall (λ componentConfig, cfg_type componentConfig ∈ supportedTypes)
      componentConfigs →
    (∀ k, k ∈ seen → is_Some (components !! k)) →
    resolvable seen componentConfigs →
    runsTo (loadComponentConfigs E componentConfigs components) w
      (λ r w',
         r = Some tt
         ∧ ∃ R,
             componentList w' = componentList w ++ R
             ∧ componentClass <$> R = flat_map componentsOf componentConfigs
             ∧ id <$> filter ofRecord R = cfg_id <$> componentConfigs).
Proof using E_loads E_rehydrates functionPath_set.
  induction componentConfigs as [|componentConfig rest IH];
    intros components seen w Htypes Hseen Hres; simpl.
  - apply runsTo_ret. split; [done|]. exists []. by rewrite app_nil_r.
  - inversion Htypes as [|? ? Htype Hrest]; subst. destruct Hres as [Hdeps Hres].
    apply runsTo_bind.
    destruct (loadComponentConfig_runs componentConfig components seen w
                Htype Hseen Hdeps)
      as (r & w1 & Hrun & components' & R1 & -> & Hcl1 & Hcls1 & Hid1 & Hseen').
    exists (Some components'), w1. split; [exact Hrun|].
    destruct (IH components' (cfg_id componentConfig :: seen) w1 Hrest Hseen' Hres)
      as (r & w2 & Hrun2 & -> & R2 & Hcl2 & Hcls2 & Hid2).
    exists (Some tt), w2. split; [exact Hrun2|]. split; [done|].
    exists (R1 ++ R2). rewrite Hcl2, Hcl1, <- app_assoc.
    split; [done|]. rewrite fmap_app, filter_app, fmap_app.
    by rewrite Hcls1, Hcls2, Hid1, Hid2.
Qed.
End Resolver.

Lemma loadComponent_id E cfg c w c' w1 :
  loadComponent E cfg c w = (Returned c', w1) →
  id c' = idAfterLoad E (log w1) cfg c.
Proof.
  unfold loadComponent. rewrite bind_run, call_run.
  destruct (invoke E (log w) c Load) as [b|e]; [|done].
  cbn beta iota. rewrite bind_run, ask_run. intros H. by run_eq.
Qed.

(** The object [components] after a record holds one more key, the id of
    the component loaded for it. *)
Lemma loadComponentConfig_keys E componentConfig components w components' w1 :
  rehydrates E →
  loadComponentConfig E componentConfig components w
    = (Returned (Some components'), w1) →
  ∃ c, components' = <[cfg_id componentConfig := c]> components.
Proof.
  intros Hrehydrates Hrun.
  unfold loadComponentConfig, lift in Hrun.
  repeat match type of Hrun with
         | context [String.eqb ?a ?b] => destruct (String.eqb a b)
         end.
  all: repeat (first [ run_step Hrun
                     | match type of Hrun with
                       | context [loadComponent ?E0 ?cfg ?c ?w0] =>
                           let Hl := fresh "Hl" in
                           destruct (loadComponent E0 cfg c w0) as [[?|?] ?] eqn:Hl;
                           [apply loadComponent_id in Hl; rewrite Hrehydrates in Hl|]
                       | context [match ?x with _ => _ end] => destruct x
                       end ];
               cbn beta iota in Hrun).
  all: run_eq.
  all: eexists; by f_equal.
Qed.

Lemma loadComponentConfig_unresolved E componentConfig components d w :
  cfg_type componentConfig = "StreamAnalyticsJob"
  ∨ cfg_type componentConfig = "CosmosDB" →
  d ∈ cfg_dependencies componentConfig →
  lookupMember components (dep_id d) = None →
  loadComponentConfig E componentConfig components w
    = (Thrown cannotFindComponent, w).
Proof.
  intros Htype Hd Hnone. unfold loadComponentConfig.
  destruct Htype as [-> | ->]; simpl;
    rewrite bind_run;
    by rewrite (resolveDependencies_unresolved _ _ _ Hd Hnone).
Qed.

Lemma loadComponentConfigs_unresolved E componentConfig post d :
  rehydrates E →
  cfg_type componentConfig = "StreamAnalyticsJob"
  ∨ cfg_type componentConfig = "CosmosDB" →
  d ∈ cfg_dependencies componentConfig →
  ∀ pre components seen w,
    (∀ k, is_Some (components !! k) → k ∈ seen) →
    dep_id d ∉ seen ++ (cfg_id <$> pre) →
    dep_id d ∉ objectPrototypeNames →
    (loadComponentConfigs E pre components w).1 = Returned (Some tt) →
    loadComponentConfigs E (pre ++ componentConfig :: post) components w
    = (Thrown cannotFindComponent, (loadComponentConfigs E pre components w).2).
Proof.
  intros Hrehydrates Htype Hd.
  induction pre as [|r pre IH]; intros components seen w Hseen Hnot Hname Hpre.
  - simpl. rewrite bind_run, (loadComponentConfig_unresolved _ _ _ d); try done.
    apply lookupMember_None. split; [|done].
    apply eq_None_not_Some. intros Hsome. apply Hnot.
    rewrite app_nil_r. by apply Hseen.
  - simpl in *. rewrite !bind_run in *.
    destruct (loadComponentConfig E r components w)
      as [[[components'|]|e] w1] eqn:Hstep; try done.
    destruct (loadComponentConfig_keys _ _ _ _ _ _ Hrehydrates Hstep) as [c ->].
    apply (IH _ (cfg_id r :: seen)); [| |done|done].
    + intros k Hk. rewrite lookup_insert in Hk.
      case_decide; [subst; apply list_elem_of_here|].
      by apply list_elem_of_further, Hseen.
    + intros Hin. apply Hnot.
      rewrite elem_of_app, elem_of_cons.
      rewrite elem_of_app, elem_of_cons in Hin. tauto.
Qed.

(** ** Two loads of one descriptor end alike *)

Section Sim.
Variables r1 r2 : list Component.

Lemma agree_forget disk w1 w2 : agree r1 r2 disk w1 w2 → agree r1 r2 false w1 w2.
Proof. intros [H _]. by split. Qed.

Lemma sim_ret {A} (a : A) disk : sim r1 r2 disk false (ret a) (ret a).
Proof. intros w1 w2 H. split; [done|]. by eapply agree_forget. Qed.

Lemma sim_throw {A} e disk disk' : sim r1 r2 disk disk' (@throw A e) (throw e).
Proof. intros w1 w2 H. split; [done|]. by eapply agree_forget. Qed.

Lemma sim_lift {A} (r : Result A) disk : sim r1 r2 disk disk (lift r) (lift r).
Proof.
  intros w1 w2 H. split; [done|]. destruct r; [done|]. by eapply agree_forget.
Qed.

Lemma sim_bind {A B} (m1 m2 : M A) (k1 k2 : A → M B) disk disk' disk'' :
  sim r1 r2 disk disk' m1 m2 →
  (∀ a, sim r1 r2 disk' disk'' (k1 a) (k2 a)) →
  sim r1 r2 disk disk'' (bind m1 k1) (bind m2 k2).
Proof.
  intros Hm Hk w1 w2 H. rewrite !bind_run.
  destruct (Hm w1 w2 H) as [Hres Hagree].
  destruct (m1 w1) as [[a|e] w1'], (m2 w2) as [[a'|e'] w2'];
    simpl in *; simplify_eq; [|done].
  by apply Hk.
Qed.

Lemma sim_ask {A} (f1 f2 : list Event → A) disk :
  (∀ l1 l2, f1 l1 = f2 l2) → sim r1 r2 disk disk (ask f1) (ask f2).
Proof. intros Hf w1 w2 H. rewrite !ask_run. simpl. by rewrite (Hf _ (log w2)). Qed.

Lemma sim_push c disk : sim r1 r2 disk disk (push c) (push c).
Proof.
  intros w1 w2 [(R & H1 & H2) Hfs]. rewrite !push_run. simpl.
  split; [done|]. split; [|done].
  exists (R ++ [c]). autorewrite with world. by rewrite H1, H2, !app_assoc.
Qed.

Lemma sim_setProjectRootPath p1 p2 disk :
  sim r1 r2 disk disk (setProjectRootPath p1) (setProjectRootPath p2).
Proof. intros w1 w2 H. by split. Qed.

Lemma sim_existsSync p : sim r1 r2 true true (existsSync p) (existsSync p).
Proof.
  intros w1 w2 H. unfold existsSync. simpl. split; [|done].
  destruct H as [_ Hfs]. by rewrite Hfs.
Qed.

Lemma sim_requireJson p : sim r1 r2 true true (requireJson p) (requireJson p).
Proof.
  intros w1 w2 H. unfold requireJson. destruct (H) as [_ Hfs].
  rewrite Hfs by done.
  destruct (fs w2) as [files|]; [|by split; [|eapply agree_forget]].
  destruct (files !! p) as [[]|]; simpl; split; try done;
    by eapply agree_forget.
Qed.

(** A collaborator call: whatever it does to the disk and to the log, the
    registries still agree. *)
Lemma sim_record E1 E2 e1 e2 disk :
  sim r1 r2 disk false (record E1 e1) (record E2 e2).
Proof. intros w1 w2 [H _]. rewrite !record_run. by split. Qed.

Lemma agree_logged E1 E2 e1 e2 disk w1 w2 :
  agree r1 r2 disk w1 w2 → agree r1 r2 false (logged E1 e1 w1) (logged E2 e2 w2).
Proof. intros [H _]. by split. Qed.

Lemma sim_answer {A} E1 E2 (f1 f2 : list Event → Result A)
    (ev1 ev2 : Result A → Event) disk :
  (∀ l1 l2, f1 l1 = f2 l2) →
  sim r1 r2 disk false
    (r <- ask f1 ;; record E1 (ev1 r) ;;; lift r)
    (r <- ask f2 ;; record E2 (ev2 r) ;;; lift r).
Proof.
  intros Hf. eapply sim_bind; [by apply sim_ask|intros r].
  eapply sim_bind; [apply sim_record|intros _]. apply sim_lift.
Qed.
End Sim.

Section SimLoad.
Variables E1 E2 : Env.
Hypothesis same : sameDescriptor E1 E2.
Variables r1 r2 : list Component.

Lemma sim_new cls deps disk :
  sim r1 r2 disk false (new E1 cls deps) (new E2 cls deps).
Proof using same.
  unfold new. eapply sim_bind; [apply sim_ask; intros; by apply sd_newId|].
  intros i. rewrite (sd_nameOf _ _ same).
  eapply sim_bind; [apply sim_record|intros _]. apply sim_ret.
Qed.

Lemma sim_callLoad c disk :
  sim r1 r2 disk false (call E1 c Load) (call E2 c Load).
Proof using same.
  unfold call. apply (sim_answer r1 r2 E1 E2 _ _ (EvInvoke c Load) (EvInvoke c Load)).
  intros. by apply sd_load.
Qed.

Lemma sim_loadComponent cfg c disk :
  sim r1 r2 disk false (loadComponent E1 cfg c) (loadComponent E2 cfg c).
Proof using same.
  unfold loadComponent. eapply sim_bind; [apply sim_callLoad|intros _].
  eapply sim_bind; [apply sim_ask; intros; by apply sd_idAfterLoad|intros i].
  apply sim_ret.
Qed.

Lemma sim_updateSettings c s disk :
  sim r1 r2 disk false (updateSettings E1 c s) (updateSettings E2 c s).
Proof using same.
  unfold updateSettings.
  apply (sim_answer r1 r2 E1 E2 _ _ (EvUpdateConfigSettings c s)
           (EvUpdateConfigSettings c s)).
  intros. by apply sd_update.
Qed.

Lemma sim_createStore s disk :
  sim r1 r2 disk false (createStore E1 s) (createStore E2 s).
Proof using same.
  unfold createStore.
  apply (sim_answer r1 r2 E1 E2 _ _ (EvCreateIfNotExists s)
           (EvCreateIfNotExists s)).
  intros. by apply sd_store.
Qed.

(** Telemetry is sent or not, succeeds or not: it changes nothing. *)
Lemma sim_telemetry (initLoad1 initLoad2 : bool) n disk :
  sim r1 r2 disk false
    (if initLoad1 then trySendEvent E1 n else ret tt)
    (if initLoad2 then trySendEvent E2 n else ret tt).
Proof.
  assert (Htry : ∀ E w, (trySendEvent E n w).1 = Returned tt
                        ∧ componentList (trySendEvent E n w).2 = componentList w).
  { intros E w. unfold trySendEvent, catch.
    rewrite bind_run, ask_run. cbn beta iota.
    rewrite bind_run, record_run. cbn beta iota. unfold lift.
    by destruct (sendEvent E (log w) n) as [[]|]. }
  intros w1 w2 [(R & H1 & H2) _].
  destruct initLoad1, initLoad2; simpl;
    try destruct (Htry E1 w1) as [-> Hc1];
    try destruct (Htry E2 w2) as [-> Hc2];
    (split; [done|]); (split; [|done]); exists R; split; congruence.
Qed.

(** The prerequisites of every component are checked, and every answer
    dropped. *)
Lemma sim_checkAll {A} (a : A) disk :
  sim r1 r2 disk false
    (items <- getComponentList ;; checkAll E1 items ;;; ret a)
    (items <- getComponentList ;; checkAll E2 items ;;; ret a).
Proof.
  assert (Hcheck : ∀ E items w,
             (checkAll E items w).1 = Returned tt
             ∧ componentList (checkAll E items w).2 = componentList w).
  { intros E. induction items as [|item items IH]; intros w; simpl; [done|].
    rewrite bind_run, ask_run. cbn beta iota.
    rewrite bind_run, record_run. cbn beta iota.
    destruct (IH (logged E (EvInvoke item CheckPrerequisites
                              (invoke E (log w) item CheckPrerequisites)) w))
      as [-> ->]. done. }
  intros w1 w2 [(R & H1 & H2) _]. unfold getComponentList.
  rewrite !bind_run. cbn beta iota.
  destruct (Hcheck E1 (componentList w1) w1) as [Hr1 Hc1].
  destruct (Hcheck E2 (componentList w2) w2) as [Hr2 Hc2].
  destruct (checkAll E1 (componentList w1) w1) as [? w1'],
           (checkAll E2 (componentList w2) w2) as [? w2'].
  simpl in *. subst. simpl.
  split; [done|]. split; [|done]. exists R. split; congruence.
Qed.

Lemma deviceOfBoard_same boardId :
  deviceOfBoard E1 boardId = deviceOfBoard E2 boardId.
Proof using same.
  unfold deviceOfBoard.
  by rewrite (sd_AZ3166 _ _ same), (sd_IoTButton _ _ same),
    (sd_Esp32 _ _ same), (sd_RaspberryPi _ _ same).
Qed.
End SimLoad.

(** Take two copies of a method apart, step against step. *)
Ltac sim_tac same :=
  repeat (cbn beta iota;
          lazymatch goal with
          | |- sim _ _ _ _ (bind getComponentList _) (bind getComponentList _) =>
              apply sim_checkAll
          | |- sim _ _ _ _ (bind _ _) (bind _ _) => eapply sim_bind; [|intros ?]
          | |- sim _ _ _ _ (ret _) (ret _) => apply sim_ret
          | |- sim _ _ _ _ (throw _) (throw _) => apply sim_throw
          | |- sim _ _ _ _ (lift _) (lift _) => apply sim_lift
          | |- sim _ _ _ _ (push _) (push _) => apply sim_push
          | |- sim _ _ _ _ (setProjectRootPath _) (setProjectRootPath _) =>
              apply sim_setProjectRootPath
          | |- sim _ _ _ _ (existsSync _) (existsSync _) => apply sim_existsSync
          | |- sim _ _ _ _ (requireJson _) (requireJson _) => apply sim_requireJson
          | |- sim _ _ _ _ (new _ _ _) (new _ _ _) => apply (sim_new _ _ same)
          | |- sim _ _ _ _ (call _ _ Load) (call _ _ Load) =>
              apply (sim_callLoad _ _ same)
          | |- sim _ _ _ _ (loadComponent _ _ _) (loadComponent _ _ _) =>
              apply (sim_loadComponent _ _ same)
          | |- sim _ _ _ _ (updateSettings _ _ _) (updateSettings _ _ _) =>
              apply (sim_updateSettings _ _ same)
          | |- sim _ _ _ _ (createStore _ _) (createStore _ _) =>
              apply (sim_createStore _ _ same)
          | |- sim _ _ _ _ (if _ then trySendEvent _ _ else _) _ =>
              apply sim_telemetry
          | |- sim _ _ _ _ (ask _) (ask _) => apply sim_ask; intros ? ?
          | |- sim _ _ _ _ (if ?b then _ else _) (if ?b then _ else _) =>
              destruct b
          | |- sim _ _ _ _ (match ?x with _ => _ end) (match ?x with _ => _ end) =>
              destruct x
          end).

Section SimLoad2.
Variables E1 E2 : Env.
Hypothesis same : sameDescriptor E1 E2.
Variables r1 r2 : list Component.

Lemma sim_loadDevice initLoad1 initLoad2 :
  sim r1 r2 true false (loadDevice E1 initLoad1) (loadDevice E2 initLoad2).
Proof using same.
  unfold loadDevice.
  rewrite (sd_projectFile _ _ same), (sd_vscodeFolder _ _ same).
  sim_tac same.
  - by apply sd_folders.
  - by apply sd_config.
  - by apply sd_config.
  - rewrite (deviceOfBoard_same _ _ same). sim_tac same.
Qed.

Lemma sim_loadLegacy : sim r1 r2 false false (loadLegacy E1) (loadLegacy E2).
Proof using same.
  unfold loadLegacy. sim_tac same. by apply sd_config.
Qed.

Lemma sim_loadComponentConfig componentConfig components :
  sim r1 r2 false false
    (loadComponentConfig E1 componentConfig components)
    (loadComponentConfig E2 componentConfig components).
Proof using same.
  unfold loadComponentConfig. sim_tac same. by apply sd_config.
Qed.

Lemma sim_loadComponentConfigs componentConfigs :
  ∀ components,
    sim r1 r2 false false
      (loadComponentConfigs E1 componentConfigs components)
      (loadComponentConfigs E2 componentConfigs components).
Proof using same.
  induction componentConfigs as [|componentConfig rest IH]; intros components;
    simpl.
  - apply sim_ret.
  - eapply sim_bind; [apply sim_loadComponentConfig|intros [components'|]].
    + apply IH.
    + apply sim_ret.
Qed.

Lemma sim_load initLoad1 initLoad2 :
  sim r1 r2 true false (load E1 initLoad1) (load E2 initLoad2).
Proof using same.
  unfold load.
  eapply sim_bind; [apply sim_loadDevice|intros [[]|]]; [|apply sim_ret].
  eapply sim_bind; [apply sim_ask; intros; by apply sd_sorted|intros sorted].
  eapply sim_bind; [apply sim_lift|intros [[|componentConfig rest]|]].
  - apply sim_loadLegacy.
  - eapply sim_bind; [apply sim_loadComponentConfigs|intros [[]|]].
    + apply sim_checkAll.
    + apply sim_ret.
  - apply sim_loadLegacy.
Qed.
End SimLoad2.

(** ** The loop of compile and upload, as one equation *)

Lemma eligible_cons_true can item rest :
  can item = true → eligible can (item :: rest) = item :: eligible can rest.
Proof. intros H. unfold eligible. by rewrite filter_cons_True. Qed.

Lemma eligible_cons_false can item rest :
  can item = false → eligible can (item :: rest) = eligible can rest.
Proof.
  intros H. unfold eligible. rewrite filter_cons_False; [done|].
  by rewrite H.
Qed.

(** Every run of the loop: the eligible components up to some point are
    checked and acted on, in order; then the registry is exhausted, or the
    loop stops at the next eligible component. *)
Lemma PhaseTrace_shape can act err items evs r :
  PhaseTrace can act err items evs r →
  ∃ acted stopped,
    eligible can items = acted ++ stopped
    ∧ (r = Returned None ∧ stopped = []
       ∧ evs = flat_map (checkedAndActed act) acted
       ∨ ∃ c rest tail,
           stopped = c :: rest
           ∧ evs = flat_map (checkedAndActed act) acted ++ tail
           ∧ phaseStop act err c tail
               match r with
               | Returned (Some b) => Returned b
               | Returned None => Returned true
               | Thrown e => Thrown e
               end).
Proof.
  induction 1 as [|item rest evs r Hcan _ IH|item rest evs r Hcan _ IH
                  |item rest Hcan|item rest e Hcan|item rest Hcan
                  |item rest e Hcan].
  - exists [], []. split; [done|]. by left.
  - rewrite eligible_cons_false by done. exact IH.
  - destruct IH as (acted & stopped & Hel & Hend).
    exists (item :: acted), stopped.
    rewrite eligible_cons_true, Hel by done. split; [done|].
    destruct Hend as [(-> & -> & ->)|(c & rest' & tail & -> & -> & Hstop)].
    + by left.
    + right. by exists c, rest', tail.
  - exists [], (eligible can (item :: rest)). split; [done|]. right.
    rewrite eligible_cons_true by done. eexists item, _, _.
    split; [done|]. split; [done|]. by left.
  - exists [], (eligible can (item :: rest)). split; [done|]. right.
    rewrite eligible_cons_true by done. eexists item, _, _.
    split; [done|]. split; [done|]. right; left. by exists e.
  - exists [], (eligible can (item :: rest)). split; [done|]. right.
    rewrite eligible_cons_true by done. eexists item, _, _.
    split; [done|]. split; [done|]. right; right; left. done.
  - exists [], (eligible can (item :: rest)). split; [done|]. right.
    rewrite eligible_cons_true by done. eexists item, _, _.
    split; [done|]. split; [done|]. right; right; right. by exists e.
Qed.

(** ** Two loads of one descriptor end alike, whatever the ids *)

Section Alike.
Variable records : Prop.
Variables r1 r2 : list Component.

Lemma alikeWorlds_forget disk w1 w2 :
  alikeWorlds records r1 r2 disk w1 w2 → alikeWorlds records r1 r2 false w1 w2.
Proof. intros [H _]. by split. Qed.

Lemma simAlike_ret {A B} (V : A → B → Prop) a b disk :
  V a b → simAlike records r1 r2 disk false V (ret a) (ret b).
Proof. intros HV w1 w2 H. split; [done|]. by eapply alikeWorlds_forget. Qed.

Lemma simAlike_throw {A B} (V : A → B → Prop) e disk disk' :
  simAlike records r1 r2 disk disk' V (throw e) (throw e).
Proof. intros w1 w2 H. split; [done|]. by eapply alikeWorlds_forget. Qed.

Lemma simAlike_lift {A B} (V : A → B → Prop) x y disk :
  alikeResults V x y → simAlike records r1 r2 disk disk V (lift x) (lift y).
Proof.
  intros HV w1 w2 H. split; [done|]. simpl.
  destruct x; [done|]. by eapply alikeWorlds_forget.
Qed.

Lemma simAlike_bind {A A' B B'} (V : A → A' → Prop) (W : B → B' → Prop)
    (m1 : M A) (m2 : M A') (k1 : A → M B) (k2 : A' → M B') disk disk' disk'' :
  simAlike records r1 r2 disk disk' V m1 m2 →
  (∀ a a', V a a' → simAlike records r1 r2 disk' disk'' W (k1 a) (k2 a')) →
  simAlike records r1 r2 disk disk'' W (bind m1 k1) (bind m2 k2).
Proof.
  intros Hm Hk w1 w2 H. rewrite !bind_run.
  destruct (Hm w1 w2 H) as [Hres Hagree].
  destruct (m1 w1) as [[a|e] w1'], (m2 w2) as [[a'|e'] w2'];
    simpl in *; try done.
  by apply Hk.
Qed.

(** An answer that is the same whatever happened before: both runs read
    it, and it is the answer at every log. *)
Lemma simAlike_ask {A} (f1 f2 : list Event → A) disk :
  (∀ l1 l2, f1 l1 = f2 l2) →
  simAlike records r1 r2 disk disk (λ a b, a = b ∧ ∀ l, f1 l = a)
    (ask f1) (ask f2).
Proof.
  intros Hf w1 w2 H. rewrite !ask_run. simpl. split; [|done].
  split; [apply Hf|]. intros l. by rewrite (Hf l (log w2)), <- (Hf (log w1)).
Qed.

Lemma simAlike_push c1 c2 disk :
  alike records c1 c2 →
  simAlike records r1 r2 disk disk (λ _ _, True) (push c1) (push c2).
Proof.
  intros Hc w1 w2 [(R1 & R2 & H1 & H2 & HR) Hfs]. rewrite !push_run. simpl.
  split; [done|]. split; [|done].
  exists (R1 ++ [c1]), (R2 ++ [c2]). autorewrite with world.
  rewrite H1, H2, !app_assoc. split; [done|]. split; [done|].
  apply Forall2_app; [done|]. by constructor.
Qed.

Lemma simAlike_setProjectRootPath p1 p2 disk :
  simAlike records r1 r2 disk disk (λ _ _, True)
    (setProjectRootPath p1) (setProjectRootPath p2).
Proof. intros w1 w2 H. by split. Qed.

Lemma simAlike_existsSync p :
  simAlike records r1 r2 true true eq (existsSync p) (existsSync p).
Proof.
  intros w1 w2 H. unfold existsSync. simpl. split; [|done].
  destruct H as [_ Hfs]. by rewrite Hfs.
Qed.

Lemma simAlike_requireJson p :
  simAlike records r1 r2 true true eq (requireJson p) (requireJson p).
Proof.
  intros w1 w2 H. unfold requireJson. destruct (H) as [_ Hfs].
  rewrite Hfs by done.
  destruct (fs w2) as [files|]; [|by split; [|eapply alikeWorlds_forget]].
  destruct (files !! p) as [[]|]; simpl; split; try done;
    by eapply alikeWorlds_forget.
Qed.

(** A collaborator call: whatever it does to the disk and to the log, the
    registries are as alike as before. *)
Lemma alikeWorlds_logged E1 E2 e1 e2 disk w1 w2 :
  alikeWorlds records r1 r2 disk w1 w2 →
  alikeWorlds records r1 r2 false (logged E1 e1 w1) (logged E2 e2 w2).
Proof. intros [H _]. by split. Qed.

Lemma simAlike_answer {A} E1 E2 (f1 f2 : list Event → Result A)
    (ev1 ev2 : Result A → Event) disk :
  (∀ w1 w2, f1 (log w1) = f2 (log w2)) →
  simAlike records r1 r2 disk false eq
    (r <- ask f1 ;; record E1 (ev1 r) ;;; lift r)
    (r <- ask f2 ;; record E2 (ev2 r) ;;; lift r).
Proof.
  intros Hf w1 w2 H. rewrite !bind_run, !ask_run. cbn beta iota.
  rewrite !bind_run, !record_run. cbn beta iota. unfold lift.
  rewrite (Hf w1 w2). destruct (f2 (log w2)); simpl.
  - split; [done|]. by eapply alikeWorlds_logged.
  - split; [done|]. by eapply alikeWorlds_logged.
Qed.
End Alike.

Section AlikeLoad.
Variables E1 E2 : Env.
Hypothesis same : sameRecords E1 E2.
Hypothesis rehydrates1 : rehydrates E1.
Hypothesis rehydrates2 : rehydrates E2.
Variable records : Prop.
Variables r1 r2 : list Component.

Lemma simAlike_new cls deps1 deps2 disk :
  simAlike records r1 r2 disk false
    (λ c1 c2, componentClass c1 = cls ∧ componentClass c2 = cls)
    (new E1 cls deps1) (new E2 cls deps2).
Proof.
  intros w1 w2 H. rewrite !new_run. simpl. split; [done|].
  by eapply alikeWorlds_logged.
Qed.

Lemma simAlike_callLoad c1 c2 disk :
  componentClass c1 = componentClass c2 →
  simAlike records r1 r2 disk false eq (call E1 c1 Load) (call E2 c2 Load).
Proof using same.
  intros Hc. unfold call.
  apply (simAlike_answer records r1 r2 E1 E2
           (λ l, invoke E1 l c1 Load) (λ l, invoke E2 l c2 Load)
           (EvInvoke c1 Load) (EvInvoke c2 Load)).
  intros. by apply sr_load.
Qed.

(** After [load()], the two components are of the class they were of;
    loaded for a record, they carry its id. *)
Lemma simAlike_loadComponent cfg c1 c2 disk :
  componentClass c1 = componentClass c2 →
  simAlike records r1 r2 disk false
    (λ c1' c2', componentClass c1' = componentClass c1
                ∧ componentClass c2' = componentClass c1
                ∧ (is_Some cfg → id c1' = id c2'))
    (loadComponent E1 cfg c1) (loadComponent E2 cfg c2).
Proof using same rehydrates1 rehydrates2.
  intros Hc. unfold loadComponent.
  eapply simAlike_bind; [by apply simAlike_callLoad|intros _ _ _].
  intros w1 w2 H. rewrite !bind_run, !ask_run. simpl.
  split; [|by eapply alikeWorlds_forget].
  split; [done|]. split; [done|].
  intros [componentConfig ->]. by rewrite rehydrates1, rehydrates2.
Qed.

Lemma simAlike_updateSettings c1 c2 s disk :
  componentClass c1 = componentClass c2 →
  simAlike records r1 r2 disk false eq
    (updateSettings E1 c1 s) (updateSettings E2 c2 s).
Proof using same.
  intros Hc. unfold updateSettings.
  apply (simAlike_answer records r1 r2 E1 E2
           (λ l, updateConfigSettings E1 l c1 s)
           (λ l, updateConfigSettings E2 l c2 s)
           (EvUpdateConfigSettings c1 s) (EvUpdateConfigSettings c2 s)).
  intros. by apply sr_update.
Qed.

Lemma simAlike_createStore s disk :
  simAlike records r1 r2 disk false eq (createStore E1 s) (createStore E2 s).
Proof using same.
  unfold createStore.
  apply (simAlike_answer records r1 r2 E1 E2
           (λ l, createIfNotExists E1 l s) (λ l, createIfNotExists E2 l s)
           (EvCreateIfNotExists s) (EvCreateIfNotExists s)).
  intros. by apply sr_store.
Qed.

(** Telemetry is sent or not, succeeds or not: it changes nothing. *)
Lemma simAlike_telemetry (initLoad1 initLoad2 : bool) n disk :
  simAlike records r1 r2 disk false eq
    (if initLoad1 then trySendEvent E1 n else ret tt)
    (if initLoad2 then trySendEvent E2 n else ret tt).
Proof.
  assert (Htry : ∀ E w, (trySendEvent E n w).1 = Returned tt
                        ∧ componentList (trySendEvent E n w).2 = componentList w).
  { intros E w. unfold trySendEvent, catch.
    rewrite bind_run, ask_run. cbn beta iota.
    rewrite bind_run, record_run. cbn beta iota. unfold lift.
    by destruct (sendEvent E (log w) n) as [[]|]. }
  intros w1 w2 [(R1 & R2 & H1 & H2 & HR) _].
  destruct initLoad1, initLoad2; simpl;
    try destruct (Htry E1 w1) as [-> Hc1];
    try destruct (Htry E2 w2) as [-> Hc2];
    (split; [done|]); (split; [|done]); exists R1, R2;
    (split; [congruence|]); (split; [congruence|done]).
Qed.

(** The prerequisites of every component are checked, and every answer
    dropped. *)
Lemma simAlike_checkAll {A} (a : A) disk :
  simAlike records r1 r2 disk false eq
    (items <- getComponentList ;; checkAll E1 items ;;; ret a)
    (items <- getComponentList ;; checkAll E2 items ;;; ret a).
Proof.
  assert (Hcheck : ∀ E items w,
             (checkAll E items w).1 = Returned tt
             ∧ componentList (checkAll E items w).2 = componentList w).
  { intros E. induction items as [|item items IH]; intros w; simpl; [done|].
    rewrite bind_run, ask_run. cbn beta iota.
    rewrite bind_run, record_run. cbn beta iota.
    destruct (IH (logged E (EvInvoke item CheckPrerequisites
                              (invoke E (log w) item CheckPrerequisites)) w))
      as [-> ->]. done. }
  intros w1 w2 [(R1 & R2 & H1 & H2 & HR) _]. unfold getComponentList.
  rewrite !bind_run. cbn beta iota.
  destruct (Hcheck E1 (componentList w1) w1) as [Hr1 Hc1].
  destruct (Hcheck E2 (componentList w2) w2) as [Hr2 Hc2].
  destruct (checkAll E1 (componentList w1) w1) as [? w1'],
           (checkAll E2 (componentList w2) w2) as [? w2'].
  simpl in *. subst. simpl.
  split; [done|]. split; [|done]. exists R1, R2.
  split; [congruence|]. split; [congruence|done].
Qed.

Lemma deviceOfBoard_sameRecords boardId :
  deviceOfBoard E1 boardId = deviceOfBoard E2 boardId.
Proof using same.
  unfold deviceOfBoard.
  by rewrite (sr_AZ3166 _ _ same), (sr_IoTButton _ _ same),
    (sr_Esp32 _ _ same), (sr_RaspberryPi _ _ same).
Qed.
End AlikeLoad.

Lemma sameKeys_insert components1 components2 k1 k2 c1 c2 :
  sameKeys components1 components2 → k1 = k2 →
  sameKeys (<[k1 := c1]> components1) (<[k2 := c2]> components2).
Proof.
  intros Hkeys <- k. rewrite !lookup_insert_is_Some. by rewrite (Hkeys k).
Qed.

Lemma resolveDependencies_sameKeys components1 components2 deps :
  sameKeys components1 components2 →
  ∀ acc1 acc2,
    alikeResults (λ _ _, True)
      (resolveDependencies components1 deps acc1)
      (resolveDependencies components2 deps acc2).
Proof.
  intros Hkeys. induction deps as [|d deps IH]; intros acc1 acc2; simpl; [done|].
  unfold lookupMember. specialize (Hkeys (dep_id d)).
  destruct (components1 !! dep_id d) as [c1|] eqn:H1,
           (components2 !! dep_id d) as [c2|] eqn:H2.
  - apply IH.
  - exfalso. by apply (is_Some_None (A := Component)), Hkeys.
  - exfalso. by apply (is_Some_None (A := Component)), Hkeys.
  - case_bool_decide; [apply IH|done].
Qed.

(** Two components are alike: by their classes and, for the id, by what
    is known of them. *)
Ltac alike_solve :=
  split;
  [ congruence
  | let Hrec := fresh "Hrec" in
    let Hfrom := fresh "Hfrom" in
    intros Hrec Hfrom;
    first [ solve [auto]
          | match goal with
            | H : is_Some (Some _) → _ |- _ => apply H; by eexists
            end
          | exfalso; solve [auto]
          | exfalso; unfold fromRecord in Hfrom;
            repeat match goal with
                   | H : componentClass _ = _ |- _ => rewrite H in Hfrom
                   end;
            revert Hfrom; apply (bool_decide_unpack _); vm_compute; exact I ] ].

(** Take two copies of a method apart, step against step. *)
Ltac alike_tac same :=
  repeat (cbn beta iota;
          lazymatch goal with
          | |- simAlike _ _ _ _ _ _ (bind getComponentList _) (bind getComponentList _) =>
              apply simAlike_checkAll
          | |- simAlike _ _ _ _ _ _ (bind (if ?b then trySendEvent _ _ else _) _) _ =>
              eapply simAlike_bind; [apply simAlike_telemetry|intros ? ? _]
          | |- simAlike _ _ _ _ _ _ (bind (if ?b then _ else _) _)
                 (bind (if ?b then _ else _) _) =>
              destruct b
          | |- simAlike _ _ _ _ _ _ (bind _ _) (bind _ _) =>
              eapply simAlike_bind;
              [ first
                  [ apply simAlike_ask; intros ? ?;
                    first [ apply (sr_folders _ _ same)
                          | apply (sr_config _ _ same)
                          | apply (sr_sorted _ _ same) ]
                  | apply simAlike_existsSync
                  | apply simAlike_requireJson
                  | apply simAlike_setProjectRootPath
                  | apply (simAlike_createStore _ _ same)
                  | apply simAlike_new
                  | apply simAlike_push; alike_solve
                  | apply (simAlike_callLoad _ _ same); congruence
                  | apply (simAlike_loadComponent _ _ same); [done|done|congruence]
                  | apply (simAlike_updateSettings _ _ same); congruence
                  | apply simAlike_lift;
                    apply resolveDependencies_sameKeys; assumption
                  | apply (simAlike_ret _ _ _ (λ _ _, True)); exact I
                  | alike_tac same ]
              | let H := fresh "HV" in
                intros ? ? H; cbv beta in H; destruct_and?; simplify_eq ]
          | |- simAlike _ _ _ _ _ _ (ret _) (ret _) => apply simAlike_ret; done
          | |- simAlike _ _ _ _ _ _ (throw _) (throw _) => apply simAlike_throw
          | |- simAlike _ _ _ _ _ _ (push _) (push _) =>
              apply simAlike_push; alike_solve
          | |- simAlike _ _ _ _ _ _ (if ?b then _ else _) (if ?b then _ else _) =>
              destruct b
          | |- simAlike _ _ _ _ _ _ (match ?x with _ => _ end)
                 (match ?x with _ => _ end) =>
              destruct x
          end).

Section AlikeLoad2.
Variables E1 E2 : Env.
Hypothesis same : sameRecords E1 E2.
Hypothesis rehydrates1 : rehydrates E1.
Hypothesis rehydrates2 : rehydrates E2.
Variable records : Prop.
Variables r1 r2 : list Component.

Lemma simAlike_loadDevice initLoad1 initLoad2 :
  simAlike records r1 r2 true false eq
    (loadDevice E1 initLoad1) (loadDevice E2 initLoad2).
Proof using same.
  unfold loadDevice.
  rewrite (sr_projectFile _ _ same), (sr_vscodeFolder _ _ same).
  alike_tac same.
  rewrite (deviceOfBoard_sameRecords _ _ same). unfold deviceOfBoard.
  repeat match goal with
         | |- context [String.eqb ?a ?b] => destruct (String.eqb a b)
         end; alike_tac same.
Qed.

Lemma simAlike_loadLegacy :
  ¬ records →
  simAlike records r1 r2 false false eq (loadLegacy E1) (loadLegacy E2).
Proof using same rehydrates1 rehydrates2.
  intros Hlegacy. unfold loadLegacy. alike_tac same.
Qed.

Lemma simAlike_loadComponentConfig componentConfig components1 components2 :
  sameKeys components1 components2 →
  simAlike records r1 r2 false false sameProgress
    (loadComponentConfig E1 componentConfig components1)
    (loadComponentConfig E2 componentConfig components2).
Proof using same rehydrates1 rehydrates2.
  intros Hkeys. unfold loadComponentConfig. alike_tac same.
  all: apply simAlike_ret; simpl; by apply sameKeys_insert; auto.
Qed.

Lemma simAlike_loadComponentConfigs componentConfigs :
  ∀ components1 components2,
    sameKeys components1 components2 →
    simAlike records r1 r2 false false eq
      (loadComponentConfigs E1 componentConfigs components1)
      (loadComponentConfigs E2 componentConfigs components2).
Proof using same rehydrates1 rehydrates2.
  induction componentConfigs as [|componentConfig rest IH];
    intros components1 components2 Hkeys; simpl.
  - by apply simAlike_ret.
  - eapply simAlike_bind; [by apply simAlike_loadComponentConfig|].
    intros [components1'|] [components2'|] Hstep; try done.
    by apply IH.
Qed.

Lemma simAlike_load initLoad1 initLoad2 :
  (records →
   ∃ l componentConfigs,
     getSortedComponents E1 l = Returned (Some componentConfigs)
     ∧ componentConfigs ≠ []) →
  simAlike records r1 r2 true false eq (load E1 initLoad1) (load E2 initLoad2).
Proof using same rehydrates1 rehydrates2.
  intros Hrecords. unfold load.
  eapply simAlike_bind; [apply simAlike_loadDevice|].
  intros ready ? <-. destruct ready as [[]|]; [|by apply simAlike_ret].
  eapply simAlike_bind;
    [apply simAlike_ask; intros; apply (sr_sorted _ _ same)|].
  intros sorted ? [<- Hsorted].
  eapply simAlike_bind;
    [apply (simAlike_lift _ _ _ (λ a b, a = b ∧ sorted = Returned a));
     destruct sorted; by simpl|].
  intros componentConfigs ? [<- ->].
  assert (Hlegacy : componentConfigs = None ∨ componentConfigs = Some [] →
                    ¬ records).
  { intros Hnone Hrec. destruct (Hrecords Hrec) as (l & cfgs & Hl & Hne).
    rewrite Hsorted in Hl. destruct Hnone; by simplify_eq. }
  destruct componentConfigs as [[|componentConfig rest]|].
  - apply simAlike_loadLegacy. apply Hlegacy. by right.
  - eapply simAlike_bind.
    { apply simAlike_loadComponentConfigs. done. }
    intros loaded ? <-. destruct loaded as [[]|]; [|by apply simAlike_ret].
    apply simAlike_checkAll.
  - apply simAlike_loadLegacy. apply Hlegacy. by left.
Qed.
End AlikeLoad2.

Lemma alike_classes records R1 R2 :
  Forall2 (alike records) R1 R2 →
  componentClass <$> R1 = componentClass <$> R2.
Proof.
  induction 1 as [|c1 c2 R1 R2 [Hc _] _ IH]; [done|].
  rewrite !fmap_cons. by f_equal.
Qed.

Lemma alike_ids (records : Prop) R1 R2 :
  records →
  Forall2 (alike records) R1 R2 →
  Forall2 (λ c1 c2, fromRecord c1 → id c1 = id c2) R1 R2.
Proof.
  intros Hrecords. induction 1 as [|c1 c2 R1 R2 [_ Hid] _ IH]; constructor; auto.
Qed.

(** * The claims *)

(** ** Compile and upload *)

(** C5.  [compile()] and [upload()] walk the registry in order and act on
    the components that have the capability, on no other.  Every run is of
    one shape: for the eligible components up to some point, in registry
    order, the prerequisites check answering [true] and then the phase
    method answering [true]; after which either every eligible component
    has been acted on and the call returns [true], or the run stops at the
    next eligible component.  It stops there when the prerequisites check
    of that component answers [false]: the call returns [false] and that
    check is the last thing done, so no phase method is invoked from that
    point on.  The other ways to stop at a component are errors thrown. *)
Theorem compile_upload_gate (E : Env) (w : World) :
  (∃ acted stopped,
     eligible (canCompile E) (componentList w) = acted ++ stopped
     ∧ ((compile E w).1 = Returned true ∧ stopped = []
        ∧ newEvents w (compile E w).2 = flat_map (checkedAndActed Compile) acted
        ∨ ∃ c rest tail,
            stopped = c :: rest
            ∧ newEvents w (compile E w).2
              = flat_map (checkedAndActed Compile) acted ++ tail
            ∧ phaseStop Compile compileError c tail (compile E w).1))
  ∧ (∃ acted stopped,
       eligible (canUpload E) (componentList w) = acted ++ stopped
       ∧ ((upload E w).1 = Returned true ∧ stopped = []
          ∧ newEvents w (upload E w).2 = flat_map (checkedAndActed Upload) acted
          ∨ ∃ c rest tail,
              stopped = c :: rest
              ∧ newEvents w (upload E w).2
                = flat_map (checkedAndActed Upload) acted ++ tail
              ∧ phaseStop Upload uploadError c tail (upload E w).1)).
Proof.
  split.
  - destruct (compile_trace E w) as (evs & r & Hlog & _ & Htr & Hres).
    rewrite (newEvents_app _ _ _ Hlog), Hres.
    destruct (PhaseTrace_shape _ _ _ _ _ _ Htr)
      as (acted & stopped & Hel & [(-> & -> & ->)|Hstop]).
    + exists acted, []. split; [done|]. by left.
    + exists acted, stopped. split; [done|]. by right.
  - destruct (upload_trace E w) as (evs & r & Hlog & _ & Htr & Hres).
    rewrite (newEvents_app _ _ _ Hlog), Hres.
    destruct (PhaseTrace_shape _ _ _ _ _ _ Htr)
      as (acted & stopped & Hel & [(-> & -> & ->)|Hstop]).
    + exists acted, []. split; [done|]. by left.
    + exists acted, stopped. split; [done|]. by right.
Qed.

(** The board compiles, then the second board's toolchain is found
    missing: the run stops there, with [false], the hub between them never
    looked at. *)
Lemma compile_upload_gate_witness :
  ∃ acted stopped,
    [Sample.board; spareBoard] = acted ++ stopped
    ∧ ((compile spareBoardMissing
          (Sample.loaded [Sample.board; Sample.hub; spareBoard])).1
       = Returned true
       ∧ stopped = []
       ∧ [checked Sample.board; EvInvoke Sample.board Compile (Returned true);
          EvInvoke spareBoard CheckPrerequisites (Returned false)]
         = flat_map (checkedAndActed Compile) acted
       ∨ ∃ c rest tail,
           stopped = c :: rest
           ∧ [checked Sample.board; EvInvoke Sample.board Compile (Returned true);
              EvInvoke spareBoard CheckPrerequisites (Returned false)]
             = flat_map (checkedAndActed Compile) acted ++ tail
           ∧ phaseStop Compile compileError c tail (Returned false)).
Proof.
  exact (proj1 (compile_upload_gate spareBoardMissing
                  (Sample.loaded [Sample.board; Sample.hub; spareBoard]))).
Defined.

(** ** Provision and deploy *)

(** C7, as the code has it.  Whenever a component's [provision()] runs,
    the login check was called and a resource group and a subscription id
    were resolved, both non-empty, before the first such call; when the
    resource group or the subscription id is missing, [provision()] returns
    [false] and no component's [provision()] was called.  The boolean the
    login check answers is not looked at: only a login check that throws
    stops [provision()], which then throws the same error, no component
    provisioned. *)
Theorem provision_gate (E : Env) (w : World) :
  (∀ c res, EvInvoke c Provision res ∈ newEvents w (provision E w).2 →
     ∃ before after login group subscription,
       newEvents w (provision E w).2
         = before ++ provisionGate login (Some group) (Some subscription) ++ after
       ∧ invoked Provision before = []
       ∧ group ≠ EmptyString ∧ subscription ≠ EmptyString)
  ∧ (∀ group,
       EvGetResourceGroup (Returned group) ∈ newEvents w (provision E w).2 →
       truthy group = false →
       (provision E w).1 = Returned false
       ∧ invoked Provision (newEvents w (provision E w).2) = [])
  ∧ (∀ subscription,
       EvSubscriptionId subscription ∈ newEvents w (provision E w).2 →
       truthy subscription = false →
       (provision E w).1 = Returned false
       ∧ invoked Provision (newEvents w (provision E w).2) = [])
  ∧ (∀ e,
       EvCheckAzureLogin (Thrown e) ∈ newEvents w (provision E w).2 →
       (provision E w).1 = Thrown e
       ∧ invoked Provision (newEvents w (provision E w).2) = []).
Proof.
  destruct (provision_run E w) as (evs & Hlog & _ & Hrun).
  rewrite (newEvents_app _ _ _ Hlog).
  split; [|split; [|split]].
  - intros c res Hin. by eapply ProvisionRun_gate.
  - intros group Hin Hg. eapply ProvisionRun_unresolved; eauto.
  - intros subscription Hin Hs. eapply ProvisionRun_unresolved; eauto.
  - intros e Hin. by eapply ProvisionRun_login_threw.
Qed.

Lemma provision_gate_witness :
  (provision
     (Sample.env Sample.allFine (Sample.config "raspberrypi" None) None
        (Returned true) None (Some "subscription") true)
     (Sample.loaded [Sample.board; Sample.hub])).1
  = Returned false.
Proof.
  refine (proj1 (proj1 (proj2 (provision_gate
            (Sample.env Sample.allFine (Sample.config "raspberrypi" None) None
               (Returned true) None (Some "subscription") true)
            (Sample.loaded [Sample.board; Sample.hub]))) None _ _)).
  - vm_compute. repeat constructor.
  - reflexivity.
Defined.

(** C7 as stated fails: a login check that answers [false] does not stop
    [provision()], which goes on to provision the hub and returns [true]. *)
Lemma provision_after_failed_login :
  (provision
     (Sample.env Sample.allFine (Sample.config "raspberrypi" None) None
        (Returned false) (Some "group") (Some "subscription") true)
     (Sample.loaded [Sample.board; Sample.hub])).1
  = Returned true
  ∧ newEvents (Sample.loaded [Sample.board; Sample.hub])
      (provision
         (Sample.env Sample.allFine (Sample.config "raspberrypi" None) None
            (Returned false) (Some "group") (Some "subscription") true)
         (Sample.loaded [Sample.board; Sample.hub])).2
    = [EvInvoke Sample.hub CheckPrerequisites (Returned true);
       EvCheckAzureLogin (Returned false);
       EvAzureUtilityInit;
       EvGetResourceGroup (Returned (Some "group"));
       EvSubscriptionId (Some "subscription");
       EvShowQuickPick ">> 1. IoT Hub" "Provision process" true;
       EvInvoke Sample.hub Provision (Returned true)].
Proof. split; vm_compute; reflexivity. Qed.

(** C8, as the code has it.  When a component's phase method answers
    [false]: [compile()] and [upload()] throw their fixed error, which names
    the action; [deploy()] throws an error naming the deployment and the
    component; [provision()] shows the warning "Provision canceled." and
    returns [false].  In all four the run ends there: no further component
    is acted on. *)
Theorem false_answer_stops (E : Env) (w : World) :
  (∀ i c,
     newEvents w (compile E w).2 !! i = Some (EvInvoke c Compile (Returned false)) →
     (compile E w).1 = Thrown compileError
     ∧ length (newEvents w (compile E w).2) = S i)
  ∧ (∀ i c,
       newEvents w (upload E w).2 !! i = Some (EvInvoke c Upload (Returned false)) →
       (upload E w).1 = Thrown uploadError
       ∧ length (newEvents w (upload E w).2) = S i)
  ∧ (∀ i c,
       newEvents w (deploy E w).2 !! i = Some (EvInvoke c Deploy (Returned false)) →
       (deploy E w).1 = Thrown (deploymentFailed (name c))
       ∧ length (newEvents w (deploy E w).2) = S i)
  ∧ (∀ i c,
       newEvents w (provision E w).2 !! i
         = Some (EvInvoke c Provision (Returned false)) →
       (provision E w).1 = Returned false
       ∧ drop (S i) (newEvents w (provision E w).2)
         = [EvShowWarningMessage "Provision canceled."]).
Proof.
  split; [|split; [|split]]; intros i c Hi.
  - destruct (compile_trace E w) as (evs & r & Hlog & _ & Htr & Hres).
    rewrite (newEvents_app _ _ _ Hlog) in *.
    destruct (PhaseTrace_action_final (act := Compile)
                ltac:(done) _ _ _ Htr _ _ Hi) as [-> ?].
    by rewrite Hres.
  - destruct (upload_trace E w) as (evs & r & Hlog & _ & Htr & Hres).
    rewrite (newEvents_app _ _ _ Hlog) in *.
    destruct (PhaseTrace_action_final (act := Upload)
                ltac:(done) _ _ _ Htr _ _ Hi) as [-> ?].
    by rewrite Hres.
  - destruct (deploy_run E w) as (evs & Hlog & _ & Hrun).
    rewrite (newEvents_app _ _ _ Hlog) in *.
    exact (DeployRun_action_final _ _ _ _ Hrun _ _ Hi).
  - destruct (provision_run E w) as (evs & Hlog & _ & Hrun).
    rewrite (newEvents_app _ _ _ Hlog) in *.
    exact (ProvisionRun_action_final _ _ _ _ Hrun _ _ Hi).
Qed.


Lemma false_answer_stops_witness :
  (deploy
     (Sample.env actionRefused (Sample.config "raspberrypi" None) None
        (Returned true) (Some "group") (Some "subscription") true)
     (Sample.loaded [Sample.board; Sample.hub; Sample.functions])).1
  = Thrown "The deployment of Azure Functions failed.".
Proof.
  refine (proj1 (proj1 (proj2 (proj2 (false_answer_stops
            (Sample.env actionRefused (Sample.config "raspberrypi" None) None
               (Returned true) (Some "group") (Some "subscription") true)
            (Sample.loaded [Sample.board; Sample.hub; Sample.functions]))))
            3 Sample.functions _)).
  vm_compute. reflexivity.
Defined.

(** C8 as stated fails for provision: the hub's [provision()] answers
    [false] and [provision()] returns [false]; nothing is thrown. *)
Lemma provision_false_is_not_thrown :
  (provision
     (Sample.env actionRefused (Sample.config "raspberrypi" None) None
        (Returned true) (Some "group") (Some "subscription") true)
     (Sample.loaded [Sample.board; Sample.hub])).1
  = Returned false
  ∧ newEvents (Sample.loaded [Sample.board; Sample.hub])
      (provision
         (Sample.env actionRefused (Sample.config "raspberrypi" None) None
            (Returned true) (Some "group") (Some "subscription") true)
         (Sample.loaded [Sample.board; Sample.hub])).2
    = [EvInvoke Sample.hub CheckPrerequisites (Returned true);
       EvCheckAzureLogin (Returned true);
       EvAzureUtilityInit;
       EvGetResourceGroup (Returned (Some "group"));
       EvSubscriptionId (Some "subscription");
       EvShowQuickPick ">> 1. IoT Hub" "Provision process" true;
       EvInvoke Sample.hub Provision (Returned false);
       EvShowWarningMessage "Provision canceled."].
Proof. split; vm_compute; reflexivity. Qed.

(** C10.  When the [devicePath] setting is absent (undefined, or empty),
    [provision()] throws, and it does so before anything else: the world is
    left as it was, no component was asked anything.  [load()] in the same
    situation returns [false]. *)
Theorem provision_throws_outside_project (E : Env) (w : World) :
  truthy (configGet E (log w) ConfigKey.devicePath) = false →
  provision E w = (Thrown notAnIoTProjectError, w)
  ∧ ∀ initLoad, load E initLoad w = (Returned false, w).
Proof.
  intros Hpath. split; [by apply provision_not_a_project|].
  intros initLoad. unfold load, loadDevice.
  rewrite !bind_run, ask_run.
  destruct (workspaceFolders E (log w)) as [folders|]; [|done].
  rewrite bind_run, ask_run.
  destruct (configGet E (log w) ConfigKey.devicePath) as [devicePath|]; [|done].
  simpl in Hpath. apply negb_false_iff in Hpath. by rewrite Hpath.
Qed.

Lemma provision_throws_outside_project_witness :
  provision
    (Sample.env Sample.allFine Sample.noConfig None (Returned true)
       (Some "group") (Some "subscription") true)
    (Sample.loaded [Sample.hub])
  = (Thrown notAnIoTProjectError, Sample.loaded [Sample.hub])
  ∧ ∀ initLoad,
      load
        (Sample.env Sample.allFine Sample.noConfig None (Returned true)
           (Some "group") (Some "subscription") true)
        initLoad (Sample.loaded [Sample.hub])
      = (Returned false, Sample.loaded [Sample.hub]).
Proof.
  apply (provision_throws_outside_project
           (Sample.env Sample.allFine Sample.noConfig None (Returned true)
              (Some "group") (Some "subscription") true)
           (Sample.loaded [Sample.hub])).
  reflexivity.
Defined.

(** ** Create *)

(** C2.  When the [create()] of a component of the registry answers
    [false], [create] returns [false], the project root is gone from the
    disk, and with it every part of the descriptor; the run ends with that
    answer, the removal and the warning, after the components before it
    (position [k] in the registry) were created.  When a component's
    [create()] throws, the error reaches the caller as it is and the run
    ends there: the root is not removed, nothing is cleaned up. *)
Theorem create_all_or_nothing (E : Env) (rootFolderPath : string)
    (projectType : ProjectTemplateType.t) (boardId : string)
    (openInNewWindow : bool) (w : World) :
  (∀ c,
     EvInvoke c Create (Returned false)
       ∈ newEvents w (create E rootFolderPath projectType boardId openInNewWindow w).2 →
     (create E rootFolderPath projectType boardId openInNewWindow w).1
       = Returned false
     ∧ fs (create E rootFolderPath projectType boardId openInNewWindow w).2 = None
     ∧ (∀ p,
          (existsSync p
             (create E rootFolderPath projectType boardId openInNewWindow w).2).1
          = Returned false)
     ∧ ∃ before k,
         componentList
           (create E rootFolderPath projectType boardId openInNewWindow w).2 !! k
           = Some c
         ∧ Forall (λ e, besidesCreation e = true) before
         ∧ newEvents w (create E rootFolderPath projectType boardId openInNewWindow w).2
           = before
               ++ created
                    (componentList
                       (create E rootFolderPath projectType boardId
                          openInNewWindow w).2) k
               ++ [EvInvoke c Create (Returned false); EvRemoveSync;
                   EvShowWarningMessage "Project initialize canceled."])
  ∧ (∀ c e,
       EvInvoke c Create (Thrown e)
         ∈ newEvents w (create E rootFolderPath projectType boardId openInNewWindow w).2 →
       (create E rootFolderPath projectType boardId openInNewWindow w).1
         = Thrown e
       ∧ (EvRemoveSync
            ∉ newEvents w (create E rootFolderPath projectType boardId openInNewWindow w).2)
       ∧ ∃ before k,
           componentList
             (create E rootFolderPath projectType boardId openInNewWindow w).2 !! k
             = Some c
           ∧ Forall (λ e, besidesCreation e = true) before
           ∧ newEvents w (create E rootFolderPath projectType boardId openInNewWindow w).2
             = before
                 ++ created
                      (componentList
                         (create E rootFolderPath projectType boardId
                            openInNewWindow w).2) k
                 ++ [EvInvoke c Create (Thrown e)]).
Proof.
  destruct (create_run E rootFolderPath projectType boardId openInNewWindow w)
    as (before & evs & after & Hlog & Hbefore & Hafter & Hloop).
  rewrite (newEvents_app _ _ _ Hlog).
  set (run := create E rootFolderPath projectType boardId openInNewWindow w) in *.
  assert (Hquiet : ∀ c res l,
             Forall (λ e, besidesCreation e = true) l →
             EvInvoke c Create res ∉ l).
  { intros c res l Hl Hin. rewrite Forall_forall in Hl. by apply Hl in Hin. }
  assert (Htrue : ∀ c res k,
             res ≠ Returned true →
             EvInvoke c Create res ∉ created (componentList run.2) k).
  { intros c res k Hres Hin.
    pose proof (created_all_true (componentList run.2) k) as Hall.
    rewrite Forall_forall in Hall. destruct (Hall _ Hin) as (? & ?).
    congruence. }
  split.
  - intros c Hin.
    rewrite !elem_of_app in Hin. destruct Hin as [Hin|[Hin|Hin]];
      [by apply Hquiet in Hin| |by apply Hquiet in Hin].
    destruct Hloop as [[-> _]|(r & Htr & Hr)]; [by apply elem_of_nil in Hin|].
    apply CreateTrace_shape in Htr as (k & Hk).
    destruct r as [[b|]|e].
    + destruct Hk as (-> & c' & Hc' & ->), Hr as (-> & Hres & Hfs).
      rewrite elem_of_app in Hin. destruct Hin as [Hin|Hin];
        [by apply Htrue in Hin|].
      apply elem_of_cons in Hin as [Heq|Hin].
      2:{ repeat (apply elem_of_cons in Hin as [?|Hin]; [done|]).
          by apply elem_of_nil in Hin. }
      simplify_eq. rewrite app_nil_r.
      split; [done|]. split; [by apply Hfs|]. split.
      { intros p. unfold existsSync. simpl. by rewrite Hfs. }
      by exists before, k.
    + destruct Hk as (-> & ->). by apply Htrue in Hin.
    + destruct Hk as (c' & Hc' & ->).
      rewrite elem_of_app in Hin. destruct Hin as [Hin|Hin];
        [by apply Htrue in Hin|].
      apply elem_of_cons in Hin as [?|Hin]; [done|]. by apply elem_of_nil in Hin.
  - intros c e Hin.
    rewrite !elem_of_app in Hin. destruct Hin as [Hin|[Hin|Hin]];
      [by apply Hquiet in Hin| |by apply Hquiet in Hin].
    destruct Hloop as [[-> _]|(r & Htr & Hr)]; [by apply elem_of_nil in Hin|].
    apply CreateTrace_shape in Htr as (k & Hk).
    destruct r as [[b|]|e'].
    + destruct Hk as (-> & c' & Hc' & ->).
      rewrite elem_of_app in Hin. destruct Hin as [Hin|Hin];
        [by apply Htrue in Hin|].
      repeat (apply elem_of_cons in Hin as [?|Hin]; [done|]).
      by apply elem_of_nil in Hin.
    + destruct Hk as (-> & ->). by apply Htrue in Hin.
    + destruct Hk as (c' & Hc' & ->), Hr as (-> & Hres).
      rewrite elem_of_app in Hin. destruct Hin as [Hin|Hin];
        [by apply Htrue in Hin|].
      apply elem_of_cons in Hin as [Heq|Hin]; [|by apply elem_of_nil in Hin].
      simplify_eq. rewrite app_nil_r.
      split; [done|]. split; [|by exists before, k].
      rewrite !elem_of_app. intros [Hin|[Hin|Hin]].
      * rewrite Forall_forall in Hbefore. by apply Hbefore in Hin.
      * pose proof (created_all_true (componentList run.2) k) as Hall.
        rewrite Forall_forall in Hall. by destruct (Hall _ Hin) as (? & ?).
      * apply elem_of_cons in Hin as [?|Hin]; [done|]. by apply elem_of_nil in Hin.
Qed.


Lemma create_all_or_nothing_witness :
  (create
     (Sample.env storeCanceled Sample.noConfig None (Returned true) None None true)
     "/home/project" ProjectTemplateType.StreamAnalytics "raspberrypi" false
     Sample.emptyFolder).1
  = Returned false
  ∧ fs (create
          (Sample.env storeCanceled Sample.noConfig None (Returned true) None None true)
          "/home/project" ProjectTemplateType.StreamAnalytics "raspberrypi" false
          Sample.emptyFolder).2
    = None.
Proof.
  pose proof (proj1 (create_all_or_nothing
            (Sample.env storeCanceled Sample.noConfig None (Returned true) None None true)
            "/home/project" ProjectTemplateType.StreamAnalytics "raspberrypi" false
            Sample.emptyFolder)) as H.
  set (evs := newEvents _ _) in H. vm_compute in evs. subst evs.
  edestruct H as (Hres & Hfs & _).
  - repeat first [apply list_elem_of_here|apply list_elem_of_further].
  - split; [exact Hres|exact Hfs].
Defined.

Lemma create_registry E rootFolderPath projectType boardId openInNewWindow w :
  componentList (create E rootFolderPath projectType boardId openInNewWindow w).2
  = componentList (scaffold E rootFolderPath projectType boardId w).2.
Proof.
  unfold create. rewrite bind_run.
  destruct (scaffold E rootFolderPath projectType boardId w)
    as [[[[workspace projectConfig]|]|e] w1]; try done.
  rewrite bind_run.
  destruct (createComponents_trace E w1) as (_ & _ & _ & Hcl & _).
  destruct (createComponents E w1) as [[[|]|e] w2]; simpl in *; try done.
  destruct (persist E rootFolderPath workspace projectConfig openInNewWindow w2)
    as [r3 w3] eqn:Hrun3.
  apply persist_sameRegistry in Hrun3. unfold sameRegistry in Hrun3.
  simpl. congruence.
Qed.

(** C1, as the code has it.  For the StreamAnalytics template and the one
    board [create] supports, with every prerequisites check passing, the
    workspace gains the folders Device and StreamAnalytics and the project
    config gains the board id and the StreamAnalytics path; but the registry
    becomes [Device; Device; IoTHub; CosmosDB; StreamAnalyticsJob]: the
    device is pushed twice (lines 536 and 543), where the claim has it
    once. *)
Theorem create_StreamAnalytics_registry (E : Env) (rootFolderPath : string)
    (openInNewWindow : bool) (w : World) :
  keepsRoot E →
  (∀ l c, invoke E l c CheckPrerequisites = Returned true) →
  (∀ l, ∃ t, readAsaTemplate E l = Returned t) →
  (∀ l, createIfNotExists E l ScaffoldType.Local = Returned tt) →
  hasRoot w →
  ∃ workspace projectConfig device iothub cosmosDB asa w1,
    scaffold E rootFolderPath ProjectTemplateType.StreamAnalytics
      (RaspberryPiDevice_boardId E) w
    = (Returned (Some (workspace, projectConfig)), w1)
    ∧ componentList
        (create E rootFolderPath ProjectTemplateType.StreamAnalytics
           (RaspberryPiDevice_boardId E) openInNewWindow w).2
      = componentList w ++ [device; device; iothub; cosmosDB; asa]
    ∧ componentClass device = RaspberryPiDevice
    ∧ componentClass iothub = IoTHub
    ∧ componentClass cosmosDB = CosmosDB
    ∧ componentClass asa = StreamAnalyticsJob
    ∧ dependencies asa = [mkDependency iothub DependencyType.Input;
                          mkDependency cosmosDB DependencyType.Other]
    ∧ folders workspace = [deviceDefaultFolderName; asaFolderName]
    ∧ projectConfig !! ConfigKey.boardId
      = Some (CfgString (RaspberryPiDevice_boardId E))
    ∧ projectConfig !! ConfigKey.asaPath = Some (CfgString asaFolderName).
Proof.
  intros Hkeeps Hpre Htemplate Hstore Hroot.
  destruct (scaffold_StreamAnalytics E Hkeeps Hpre Htemplate rootFolderPath w
              Hroot Hstore)
    as (r & w1 & Hrun & workspace & projectConfig & device & iothub & cosmosDB
        & asa & -> & Hcl & H).
  exists workspace, projectConfig, device, iothub, cosmosDB, asa, w1.
  split; [done|]. split; [|done].
  by rewrite create_registry, Hrun.
Qed.

Lemma create_StreamAnalytics_registry_witness :
  componentClass
  <$> componentList
        (create
           (Sample.env Sample.allFine Sample.noConfig None (Returned true)
              None None true)
           "/home/project" ProjectTemplateType.StreamAnalytics "raspberrypi"
           false Sample.emptyFolder).2
  = [RaspberryPiDevice; RaspberryPiDevice; IoTHub; CosmosDB; StreamAnalyticsJob].
Proof.
  destruct (create_StreamAnalytics_registry
              (Sample.env Sample.allFine Sample.noConfig None (Returned true)
                 None None true)
              "/home/project" false Sample.emptyFolder)
    as (workspace & projectConfig & device & iothub & cosmosDB & asa & w1
        & _ & Hcl & Hd & Hh & Hc & Ha & _).
  - intros l e files Hfiles. exact Hfiles.
  - reflexivity.
  - intros l. eexists. reflexivity.
  - reflexivity.
  - eexists. reflexivity.
  - change (RaspberryPiDevice_boardId _) with "raspberrypi" in Hcl.
    rewrite Hcl. simpl. by rewrite Hd, Hh, Hc, Ha.
Defined.

(** ** Load *)

Lemma load_after_device E initLoad w w1 sorted :
  loadDevice E initLoad w = (Returned (Some tt), w1) →
  getSortedComponents E (log w1) = Returned sorted →
  load E initLoad w =
    match sorted with
    | None | Some [] => loadLegacy E w1
    | Some componentConfigs =>
        match loadComponentConfigs E componentConfigs ∅ w1 with
        | (Returned (Some _), w2) =>
            (Returned true, (checkAll E (componentList w2) w2).2)
        | (Returned None, w2) => (Returned false, w2)
        | (Thrown e, w2) => (Thrown e, w2)
        end
    end.
Proof.
  intros Hdev Hsorted. unfold load.
  rewrite bind_run, Hdev. cbn beta iota.
  rewrite bind_run, ask_run. cbn beta iota. rewrite Hsorted.
  rewrite bind_run. unfold lift. cbn beta iota.
  destruct sorted as [[|componentConfig rest]|]; try done.
  rewrite bind_run.
  destruct (loadComponentConfigs E (componentConfig :: rest) ∅ w1)
    as [[[[]|]|e] w2]; try done.
  unfold getComponentList. rewrite bind_run. cbn beta iota.
  rewrite bind_run.
  assert (Hcheck : ∀ items w0, (checkAll E items w0).1 = Returned tt).
  { induction items as [|item items IH]; intros w0; simpl; [done|].
    rewrite bind_run, ask_run. cbn beta iota.
    rewrite bind_run, record_run. cbn beta iota. apply IH. }
  specialize (Hcheck (componentList w2) w2).
  destruct (checkAll E (componentList w2) w2) as [r w3].
  simpl in Hcheck. by subst r.
Qed.

(** C6.  A project that passes the checks of [load()] on the opened folder
    and the device, whose component config store hands out no records and
    whose [functionPath] setting is present ([updateConfigSettings] and the
    components' [load()] not throwing): [load()] appends an IoTHub, an
    IoTHubDevice and an AzureFunctions that depends on that hub as its
    input, in this order, then calls [checkPrerequisites()] on every
    component of the registry, whatever each call answers or throws, and
    returns [true]. *)
Theorem load_legacy_project (E : Env) (initLoad : bool) (w w1 : World) :
  loadDevice E initLoad w = (Returned (Some tt), w1) →
  (getSortedComponents E (log w1) = Returned None
   ∨ getSortedComponents E (log w1) = Returned (Some [])) →
  (∀ l, truthy (configGet E l ConfigKey.functionPath) = true) →
  (∀ l c s, updateConfigSettings E l c s = Returned tt) →
  loadsQuietly E →
  ∃ iotHub device functionApp evs checks w',
    load E initLoad w = (Returned true, w')
    ∧ componentList w' = componentList w1 ++ [iotHub; device; functionApp]
    ∧ componentClass iotHub = IoTHub
    ∧ componentClass device = IoTHubDevice
    ∧ componentClass functionApp = AzureFunctions
    ∧ dependencies functionApp = [mkDependency iotHub DependencyType.Input]
    ∧ log w' = log w1 ++ evs ++ checks
    ∧ Forall2 (λ c e, ∃ res, e = EvInvoke c CheckPrerequisites res)
        (componentList w') checks.
Proof.
  intros Hdev Hsorted Hpath Hupdate Hloads.
  destruct (loadLegacy_runs E Hloads w1 Hpath Hupdate)
    as (r & w' & Hrun & -> & iotHub & device & functionApp & evs & checks & H).
  exists iotHub, device, functionApp, evs, checks, w'.
  split; [|exact H].
  destruct Hsorted as [Hsorted|Hsorted];
    by rewrite (load_after_device _ _ _ _ _ Hdev Hsorted).
Qed.


Lemma load_legacy_project_witness :
  (load
     (Sample.env nothingInstalled
        (Sample.config "raspberrypi" (Some "Functions")) None
        (Returned true) None None true)
     true Sample.onDisk).1
  = Returned true
  ∧ componentClass
    <$> componentList
          (load
             (Sample.env nothingInstalled
                (Sample.config "raspberrypi" (Some "Functions")) None
                (Returned true) None None true)
             true Sample.onDisk).2
    = [RaspberryPiDevice; IoTHub; IoTHubDevice; AzureFunctions].
Proof.
  destruct (load_legacy_project
              (Sample.env nothingInstalled
                 (Sample.config "raspberrypi" (Some "Functions")) None
                 (Returned true) None None true)
              true Sample.onDisk
              (loadDevice
                 (Sample.env nothingInstalled
                    (Sample.config "raspberrypi" (Some "Functions")) None
                    (Returned true) None None true)
                 true Sample.onDisk).2)
    as (iotHub & device & functionApp & evs & checks & w' & Hrun & Hcl
        & Hh & Hd & Hf & _).
  - vm_compute. reflexivity.
  - left. reflexivity.
  - reflexivity.
  - reflexivity.
  - intros l c. eexists. reflexivity.
  - rewrite Hrun. simpl. rewrite Hcl, fmap_app. simpl. rewrite Hh, Hd, Hf.
    split; [reflexivity|]. f_equal.
Defined.

Lemma componentsOf_length componentConfigs :
  Forall (λ componentConfig, cfg_type componentConfig ∈ supportedTypes)
    componentConfigs →
  length (flat_map componentsOf componentConfigs)
  = length componentConfigs
    + length (filter (λ componentConfig, cfg_type componentConfig = "IoTHub")
                componentConfigs).
Proof.
  induction 1 as [|c l Hc _ IH]; [done|].
  simpl. rewrite length_app, IH, filter_cons. unfold componentsOf.
  unfold supportedTypes in Hc.
  repeat (apply elem_of_cons in Hc as [Hc|Hc]); [..|by apply elem_of_nil in Hc];
    rewrite Hc; simpl; try case_decide; try done; simpl; lia.
Qed.

(** C3, as the code has it.  For a non-empty list of records of the four
    supported types whose dependency ids all resolve against records
    earlier in the list (the [functionPath] setting present, the components'
    [load()] not throwing and giving each component the id of its record),
    [load()] returns [true] and appends to the registry, in record order,
    the components of each record: an IoTHub record stands for two, the hub
    and its hub device, every other record for one.  So the components
    added are the records plus one per IoTHub record, and the ids of those
    other than the hub devices are the ids of the records, in order. *)
Theorem load_follows_records (E : Env) (initLoad : bool) (w w1 : World)
    (componentConfigs : list ComponentConfig) :
  loadDevice E initLoad w = (Returned (Some tt), w1) →
  getSortedComponents E (log w1) = Returned (Some componentConfigs) →
  componentConfigs ≠ [] →
  Forall (λ componentConfig, cfg_type componentConfig ∈ supportedTypes)
    componentConfigs →
  resolvable [] componentConfigs →
  loadsQuietly E →
  rehydrates E →
  (∀ l, truthy (configGet E l ConfigKey.functionPath) = true) →
  ∃ R,
    (load E initLoad w).1 = Returned true
    ∧ componentList (load E initLoad w).2 = componentList w1 ++ R
    ∧ componentClass <$> R = flat_map componentsOf componentConfigs
    ∧ id <$> filter ofRecord R = cfg_id <$> componentConfigs
    ∧ length R
      = length componentConfigs
        + length (filter (λ componentConfig, cfg_type componentConfig = "IoTHub")
                    componentConfigs).
Proof.
  intros Hdev Hsorted Hne Htypes Hres Hloads Hrehydrates Hpath.
  destruct (loadComponentConfigs_runs E Hloads Hrehydrates Hpath
              componentConfigs ∅ [] w1 Htypes)
    as (r & w2 & Hrun & -> & R & Hcl & Hcls & Hids); [|exact Hres|].
  { intros k Hk. by apply elem_of_nil in Hk. }
  exists R. rewrite (load_after_device _ _ _ _ _ Hdev Hsorted).
  destruct componentConfigs as [|componentConfig rest]; [done|].
  rewrite Hrun. split; [done|]. split.
  { pose proof (steps_checkAll E sameRegistry sameRegistry_refl
                  sameRegistry_trans (componentList w2)) as Hsame.
    destruct (checkAll E (componentList w2) w2) as [r3 w3] eqn:Hcheck.
    eapply Hsame in Hcheck; [|done]. simpl. by rewrite Hcheck. }
  split; [done|]. split; [done|].
  apply (f_equal length) in Hcls. rewrite length_fmap in Hcls. rewrite Hcls.
  by apply componentsOf_length.
Qed.


Lemma load_follows_records_witness :
  ∃ R,
    (load
       (Sample.env Sample.allFine (Sample.config "raspberrypi" (Some "Functions"))
          (Some [hubRecord; jobRecord]) (Returned true) None None true)
       false Sample.onDisk).1
    = Returned true
    ∧ componentClass <$> R = [IoTHub; IoTHubDevice; StreamAnalyticsJob]
    ∧ id <$> filter ofRecord R = ["hub"; "job"]
    ∧ length R = 3.
Proof.
  destruct (load_follows_records
              (Sample.env Sample.allFine
                 (Sample.config "raspberrypi" (Some "Functions"))
                 (Some [hubRecord; jobRecord]) (Returned true) None None true)
              false Sample.onDisk
              (loadDevice
                 (Sample.env Sample.allFine
                    (Sample.config "raspberrypi" (Some "Functions"))
                    (Some [hubRecord; jobRecord]) (Returned true) None None true)
                 false Sample.onDisk).2
              [hubRecord; jobRecord])
    as (R & Hres & _ & Hcls & Hids & Hlen).
  - vm_compute. reflexivity.
  - reflexivity.
  - discriminate.
  - repeat constructor.
  - simpl. repeat constructor.
  - intros l c. eexists. reflexivity.
  - intros l componentConfig c. reflexivity.
  - reflexivity.
  - exists R. split; [exact Hres|]. split; [exact Hcls|].
    split; [exact Hids|exact Hlen].
Defined.

(** C3 as stated fails: one IoTHub record, and the registry [load()]
    builds from an empty one holds three components, the device, the hub
    and the hub device the resolver adds with every hub. *)
Lemma registry_larger_than_records :
  resolvable [] [hubRecord]
  ∧ (load
       (Sample.env Sample.allFine (Sample.config "raspberrypi" None)
          (Some [hubRecord]) (Returned true) None None true)
       false Sample.onDisk).1
    = Returned true
  ∧ componentClass
    <$> componentList
          (load
             (Sample.env Sample.allFine (Sample.config "raspberrypi" None)
                (Some [hubRecord]) (Returned true) None None true)
             false Sample.onDisk).2
    = [RaspberryPiDevice; IoTHub; IoTHubDevice]
  ∧ length
      (componentList
         (load
            (Sample.env Sample.allFine (Sample.config "raspberrypi" None)
               (Some [hubRecord]) (Returned true) None None true)
            false Sample.onDisk).2)
    ≠ length [hubRecord].
Proof.
  split; [repeat constructor|].
  split; [vm_compute; reflexivity|].
  split; [vm_compute; reflexivity|].
  vm_compute. discriminate.
Qed.

(** C4, as the code has it.  When a StreamAnalyticsJob or CosmosDB record
    is reached (the records before it loaded, each component carrying the
    id of its record once loaded) and one of its dependency ids is neither
    the id of a record before it nor a name that every object inherits
    from [Object.prototype], the resolver throws "Cannot find component
    with id ..." and does nothing more, whatever records follow: the
    lookup is against the ids of the records already walked.  No record
    before it has the id [__proto__], under which the object would take the
    component for its prototype.  The dependencies of IoTHub and
    AzureFunctions records are not looked up. *)
Theorem unresolved_dependency_throws (E : Env)
    (pre post : list ComponentConfig) (componentConfig : ComponentConfig)
    (d : DependencyConfig) (w : World) :
  rehydrates E →
  cfg_type componentConfig = "StreamAnalyticsJob"
  ∨ cfg_type componentConfig = "CosmosDB" →
  d ∈ cfg_dependencies componentConfig →
  dep_id d ∉ cfg_id <$> pre →
  dep_id d ∉ objectPrototypeNames →
  "__proto__" ∉ cfg_id <$> pre →
  (loadComponentConfigs E pre ∅ w).1 = Returned (Some tt) →
  loadComponentConfigs E (pre ++ componentConfig :: post) ∅ w
  = (Thrown cannotFindComponent, (loadComponentConfigs E pre ∅ w).2).
Proof.
  intros Hrehydrates Htype Hd Hnot Hname _ Hpre.
  apply (loadComponentConfigs_unresolved E componentConfig post d
           Hrehydrates Htype Hd pre ∅ []); [|done|done|done].
  intros k [c Hk]. by rewrite lookup_empty in Hk.
Qed.


Lemma unresolved_dependency_throws_witness :
  (loadComponentConfigs
     (Sample.env Sample.allFine (Sample.config "raspberrypi" None) None
        (Returned true) None None true)
     [hubRecord; eagerJobRecord; storeRecord] ∅ Sample.onDisk).1
  = Thrown "Cannot find component with id [object Object].".
Proof.
  refine (f_equal fst
            (unresolved_dependency_throws
               (Sample.env Sample.allFine (Sample.config "raspberrypi" None) None
                  (Returned true) None None true)
               [hubRecord] [storeRecord] eagerJobRecord
               {| dep_id := "store"; dep_type := DependencyType.Other |}
               Sample.onDisk _ _ _ _ _ _ _)).
  - intros l componentConfig c. reflexivity.
  - left. reflexivity.
  - simpl. apply list_elem_of_further, list_elem_of_here.
  - simpl. intros Hin. apply elem_of_cons in Hin as [Hin|Hin]; [discriminate|].
    by apply elem_of_nil in Hin.
  - apply (bool_decide_unpack _). vm_compute. exact I.
  - simpl. intros Hin. apply elem_of_cons in Hin as [Hin|Hin]; [discriminate|].
    by apply elem_of_nil in Hin.
  - vm_compute. reflexivity.
Defined.


(** C4 as stated fails, twice over.  A record with a dependency id that
    no earlier record carries, and [load()] returns [true]: nothing is
    thrown, because the record is an AzureFunctions one.  And a
    StreamAnalyticsJob record whose dependency id is [constructor], the id
    of no record: [load()] returns [true] again, the job depending on what
    the empty object inherits under that name. *)
Lemma unresolved_dependency_ignored :
  ({| dep_id := "constructor"; dep_type := DependencyType.Input |}
     ∈ cfg_dependencies inheritingJobRecord
   ∧ (load
        (Sample.env Sample.allFine (Sample.config "raspberrypi" None)
           (Some [inheritingJobRecord]) (Returned true) None None true)
        false Sample.onDisk).1
     = Returned true
   ∧ dependencies
     <$> componentList
           (load
              (Sample.env Sample.allFine (Sample.config "raspberrypi" None)
                 (Some [inheritingJobRecord]) (Returned true) None None true)
              false Sample.onDisk).2
     = [[]; [mkDependency (Inherited "constructor") DependencyType.Input]])
  ∧ {| dep_id := "hub"; dep_type := DependencyType.Input |}
    ∈ cfg_dependencies orphanFunctionsRecord
  ∧ load
      (Sample.env Sample.allFine (Sample.config "raspberrypi" (Some "Functions"))
         (Some [orphanFunctionsRecord]) (Returned true) None None true)
      false Sample.onDisk
    = (Returned true,
       (load
          (Sample.env Sample.allFine
             (Sample.config "raspberrypi" (Some "Functions"))
             (Some [orphanFunctionsRecord]) (Returned true) None None true)
          false Sample.onDisk).2)
  ∧ componentClass
    <$> componentList
          (load
             (Sample.env Sample.allFine
                (Sample.config "raspberrypi" (Some "Functions"))
                (Some [orphanFunctionsRecord]) (Returned true) None None true)
             false Sample.onDisk).2
    = [RaspberryPiDevice; AzureFunctions].
Proof.
  split.
  { split; [apply list_elem_of_here|]. split; vm_compute; reflexivity. }
  split; [apply list_elem_of_here|].
  split; vm_compute; reflexivity.
Qed.

(** C9, as the code has it.  Two runs of [load()] that are handed the
    same descriptor (the same files of the project on disk; collaborators
    that give the same answers about the workspace, the settings and the
    component records; components whose [load()] and
    [updateConfigSettings()] succeed or fail by their class; each component
    loaded for a record carrying the id of that record) end with the same
    result and append, to the registries they started from, components of
    the same classes in the same order.  Component by component the ids
    agree where the component was loaded for a record.  The ids of the
    device and of the hub devices are those their constructors assign:
    nothing is concluded of them.  Neither the [initLoad] flag, nor
    telemetry, nor the outcome of any prerequisites check, nor what
    happened before matters. *)
Theorem load_determined_by_descriptor (E1 E2 : Env)
    (initLoad1 initLoad2 : bool) (w1 w2 : World) :
  sameRecords E1 E2 →
  rehydrates E1 →
  rehydrates E2 →
  fs w1 = fs w2 →
  (load E1 initLoad1 w1).1 = (load E2 initLoad2 w2).1
  ∧ ∃ R1 R2,
      componentList (load E1 initLoad1 w1).2 = componentList w1 ++ R1
      ∧ componentList (load E2 initLoad2 w2).2 = componentList w2 ++ R2
      ∧ componentClass <$> R1 = componentClass <$> R2
      ∧ (∀ componentConfigs,
           getSortedComponents E1 (log w1) = Returned (Some componentConfigs) →
           componentConfigs ≠ [] →
           Forall2 (λ c1 c2, fromRecord c1 → id c1 = id c2) R1 R2).
Proof.
  intros Hsame Hre1 Hre2 Hfs.
  destruct (simAlike_load E1 E2 Hsame Hre1 Hre2
              (∃ componentConfigs,
                 getSortedComponents E1 (log w1) = Returned (Some componentConfigs)
                 ∧ componentConfigs ≠ [])
              (componentList w1) (componentList w2) initLoad1 initLoad2)
    with (w1 := w1) (w2 := w2)
    as [Hres [(R1 & R2 & H1 & H2 & HR) _]].
  { intros (componentConfigs & Hsorted & Hne). by exists (log w1), componentConfigs. }
  { split; [|done]. exists [], []. by rewrite !app_nil_r. }
  split.
  - destruct (load E1 initLoad1 w1).1, (load E2 initLoad2 w2).1;
      simpl in Hres; by subst.
  - exists R1, R2. split; [done|]. split; [done|].
    split; [by eapply alike_classes|].
    intros componentConfigs Hsorted Hne.
    eapply alike_ids; [|exact HR]. by exists componentConfigs.
Qed.

(** The project of the sample is loaded, and loaded later in the
    session, by constructors that number what they build: the classes come
    out the same, and so do the ids of the hub and of the job. *)
Lemma load_determined_by_descriptor_witness :
  ∃ R1 R2,
    componentList (load numbered false Sample.onDisk).2 = [] ++ R1
    ∧ componentList (load numbered false onDiskLater).2 = [] ++ R2
    ∧ componentClass <$> R1 = componentClass <$> R2
    ∧ Forall2 (λ c1 c2, fromRecord c1 → id c1 = id c2) R1 R2.
Proof.
  destruct (load_determined_by_descriptor numbered numbered false false
              Sample.onDisk onDiskLater)
    as [_ (R1 & R2 & H1 & H2 & Hcls & Hids)].
  - split; try done.
  - intros l componentConfig c. reflexivity.
  - intros l componentConfig c. reflexivity.
  - reflexivity.
  - exists R1, R2. split; [exact H1|]. split; [exact H2|].
    split; [exact Hcls|]. apply (Hids [hubRecord; jobRecord]); [reflexivity|].
    discriminate.
Defined.

(** C9 as stated fails: the same descriptor, loaded twice in a session by
    constructors that number what they build, gives registries of the same
    classes whose device and hub device have other ids the second time. *)
Lemma reloaded_ids_differ :
  fs onDiskLater = fs Sample.onDisk
  ∧ componentList onDiskLater = componentList Sample.onDisk
  ∧ id <$> componentList (load numbered false Sample.onDisk).2
    = ["guid-1"; "hub"; "guid-5"; "job"]
  ∧ id <$> componentList (load numbered false onDiskLater).2
    = ["guid-2"; "hub"; "guid-6"; "job"]
  ∧ id <$> componentList (load numbered false Sample.onDisk).2
    ≠ id <$> componentList (load numbered false onDiskLater).2.
Proof.
  assert (H1 : id <$> componentList (load numbered false Sample.onDisk).2
               = ["guid-1"; "hub"; "guid-5"; "job"])
    by (vm_compute; reflexivity).
  assert (H2 : id <$> componentList (load numbered false onDiskLater).2
               = ["guid-2"; "hub"; "guid-6"; "job"])
    by (vm_compute; reflexivity).
  split; [reflexivity|]. split; [reflexivity|].
  split; [exact H1|]. split; [exact H2|].
  rewrite H1, H2. discriminate.
Qed.

(** * Further properties of the lifecycle driver *)

(** ** Facts about the loops *)

Lemma eligible_nil can items :
  Forall (λ c, can c = false) items ↔ eligible can items = [].
Proof.
  induction items as [|item rest IH]; [done|].
  rewrite Forall_cons. destruct (can item) eqn:Hcan.
  - rewrite eligible_cons_true by done. split; [intros [? _]|]; done.
  - rewrite eligible_cons_false by done. rewrite IH. tauto.
Qed.

Lemma elem_of_eligible can items c :
  c ∈ eligible can items ↔ can c = true ∧ c ∈ items.
Proof. unfold eligible. by rewrite list_elem_of_filter. Qed.

Section PhaseFacts.
Context {can : Component → bool} {act : Action} {err : Error}.

Lemma PhaseTrace_result items evs r :
  PhaseTrace can act err items evs r → r ≠ Returned (Some true).
Proof. induction 1; done. Qed.

Lemma PhaseTrace_completed items evs :
  PhaseTrace can act err items evs (Returned None) →
  evs = flat_map (checkedAndActed act) (eligible can items).
Proof.
  remember (Returned None) as r eqn:Hr.
  induction 1 as [|item rest evs r Hcan _ IH|item rest evs r Hcan _ IH| | | |];
    simplify_eq.
  - done.
  - rewrite eligible_cons_false by done. by apply IH.
  - rewrite eligible_cons_true by done. simpl. unfold checked.
    do 2 f_equal. by apply IH.
Qed.

Lemma PhaseTrace_refused items evs :
  PhaseTrace can act err items evs (Returned (Some false)) →
  ∃ c, c ∈ items ∧ can c = true
       ∧ last evs = Some (EvInvoke c CheckPrerequisites (Returned false)).
Proof.
  remember (Returned (Some false)) as r eqn:Hr.
  induction 1 as [|item rest evs r Hcan _ IH|item rest evs r Hcan _ IH
                  |item rest Hcan| | |];
    simplify_eq.
  - destruct (IH eq_refl) as (c & Hc & Hcanc & Hlast).
    exists c. split; [by apply list_elem_of_further|done].
  - destruct (IH eq_refl) as (c & Hc & Hcanc & Hlast).
    exists c. split; [by apply list_elem_of_further|]. split; [done|].
    by rewrite !last_cons, Hlast.
  - exists item. split; [apply list_elem_of_here|done].
Qed.

Lemma PhaseTrace_checked_first items evs r :
  act ≠ CheckPrerequisites →
  PhaseTrace can act err items evs r →
  ∀ i c res, evs !! i = Some (EvInvoke c act res) →
    ∃ j, i = S j
         ∧ evs !! j = Some (checked c)
         ∧ can c = true ∧ c ∈ items.
Proof.
  intros Hact.
  induction 1 as [|item rest evs r Hcan _ IH|item rest evs r Hcan _ IH
                  |item rest Hcan|item rest e Hcan|item rest Hcan
                  |item rest e Hcan];
    intros i c res Hi.
  - done.
  - destruct (IH _ _ _ Hi) as (j & -> & Hj & Hc & Hin).
    exists j. repeat split; try done. by apply list_elem_of_further.
  - destruct i as [|[|i]]; simplify_eq/=.
    + exists 0. repeat split; try done. apply list_elem_of_here.
    + destruct (IH _ _ _ Hi) as (j & -> & Hj & Hc & Hin).
      exists (S (S j)). repeat split; try done. by apply list_elem_of_further.
  - destruct i as [|[|i]]; simplify_eq/=.
  - destruct i as [|[|i]]; simplify_eq/=.
  - destruct i as [|[|[|i]]]; simplify_eq/=.
    exists 0. repeat split; try done. apply list_elem_of_here.
  - destruct i as [|[|[|i]]]; simplify_eq/=.
    exists 0. repeat split; try done. apply list_elem_of_here.
Qed.
End PhaseFacts.

Lemma EligibleTrace_collected can items itemList evs l :
  EligibleTrace can items itemList evs (Returned (Some l)) →
  evs = checked <$> eligible can items
  ∧ l = itemList ++ (name <$> eligible can items).
Proof.
  remember (Returned (Some l)) as r eqn:Hr. intros H. revert l Hr.
  induction H as [itemList|item rest itemList evs r Hcan _ IH
                  |item rest itemList evs r Hcan _ IH| |];
    intros l Hr; simplify_eq.
  - by rewrite app_nil_r.
  - rewrite eligible_cons_false by done. by apply IH.
  - rewrite eligible_cons_true by done.
    destruct (IH _ eq_refl) as [-> ->]. by rewrite <- app_assoc.
Qed.

Lemma EligibleTrace_prerequisites_final can items itemList evs r :
  EligibleTrace can items itemList evs r →
  ∀ i c, evs !! i = Some (EvInvoke c CheckPrerequisites (Returned false)) →
         r = Returned None ∧ length evs = S i.
Proof.
  induction 1 as [|? ? ? ? ? ? ? IH|? ? ? ? ? ? ? IH| |]; intros i c Hi;
    try (destruct i as [|[|i]]; simplify_eq/=; done).
  - by apply IH in Hi.
  - destruct i as [|i]; simplify_eq/=.
    destruct (IH _ _ Hi) as [-> ->]. done.
Qed.

Lemma EligibleTrace_stopped can items itemList evs :
  EligibleTrace can items itemList evs (Returned None) →
  ∃ c, c ∈ items ∧ can c = true
       ∧ last evs = Some (EvInvoke c CheckPrerequisites (Returned false)).
Proof.
  remember (Returned None) as r eqn:Hr.
  induction 1 as [|item rest itemList evs r Hcan _ IH
                  |item rest itemList evs r Hcan _ IH|item rest itemList Hcan|];
    simplify_eq.
  - destruct (IH eq_refl) as (c & Hc & Hcanc & Hlast).
    exists c. split; [by apply list_elem_of_further|done].
  - destruct (IH eq_refl) as (c & Hc & Hcanc & Hlast).
    exists c. split; [by apply list_elem_of_further|]. split; [done|].
    by rewrite last_cons, Hlast.
  - exists item. split; [apply list_elem_of_here|done].
Qed.

Section ConfirmFacts.
Context {can : Component → bool} {act : Action} {placeHolder : string}
  {itemList : list string} {falseEvents : list Event}
  {falseResult : Component → Result (option bool)}.

Lemma ConfirmTrace_result items evs r :
  (∀ item, falseResult item ≠ Returned (Some true)) →
  ConfirmTrace can act placeHolder itemList falseEvents falseResult items evs r →
  r ≠ Returned (Some true).
Proof. intros Hfalse. induction 1; done. Qed.

Lemma ConfirmTrace_completed items evs :
  (∀ item, falseResult item ≠ Returned None) →
  ConfirmTrace can act placeHolder itemList falseEvents falseResult items evs
    (Returned None) →
  evs = flat_map (confirmedAndActed act placeHolder itemList) (eligible can items).
Proof.
  intros Hfalse. remember (Returned None) as r eqn:Hr.
  induction 1 as [|item rest evs r Hcan _ IH|item rest evs r Hcan _ IH
                  | |item rest Hcan|];
    simplify_eq.
  - done.
  - rewrite eligible_cons_false by done. by apply IH.
  - rewrite eligible_cons_true by done. simpl. do 2 f_equal. by apply IH.
  - by destruct (Hfalse item).
Qed.

Lemma ConfirmTrace_declined_final items evs r :
  Forall (λ e, ∀ label ph, e ≠ EvShowQuickPick label ph false) falseEvents →
  ConfirmTrace can act placeHolder itemList falseEvents falseResult items evs r →
  ∀ i label ph, evs !! i = Some (EvShowQuickPick label ph false) →
                r = Returned (Some false) ∧ length evs = S i.
Proof.
  intros Hquiet.
  induction 1 as [|? ? ? ? ? ? IH|? ? ? ? ? ? IH| | |]; intros i label ph Hi;
    try (destruct i as [|[|[|i]]]; simplify_eq/=; done).
  - by apply IH in Hi.
  - destruct i as [|[|i]]; simplify_eq/=.
    destruct (IH _ _ _ Hi) as [-> ->]. done.
  - destruct i as [|[|i]]; simplify_eq/=.
    rewrite Forall_lookup in Hquiet.
    by destruct (Hquiet _ _ Hi label ph).
Qed.

Lemma ConfirmTrace_confirmed_first items evs r :
  Forall (λ e, ∀ c res, e ≠ EvInvoke c act res) falseEvents →
  ConfirmTrace can act placeHolder itemList falseEvents falseResult items evs r →
  ∀ i c res, evs !! i = Some (EvInvoke c act res) →
    ∃ j, i = S j
         ∧ evs !! j
           = Some (EvShowQuickPick (progressLabel (name c) itemList) placeHolder true)
         ∧ can c = true ∧ c ∈ items.
Proof.
  intros Hquiet.
  induction 1 as [|item rest evs r Hcan _ IH|item rest evs r Hcan _ IH
                  |item rest Hcan|item rest Hcan|item rest e Hcan];
    intros i c res Hi.
  - done.
  - destruct (IH _ _ _ Hi) as (j & -> & Hj & Hc & Hin).
    exists j. repeat split; try done. by apply list_elem_of_further.
  - destruct i as [|[|i]]; simplify_eq/=.
    + exists 0. repeat split; try done. apply list_elem_of_here.
    + destruct (IH _ _ _ Hi) as (j & -> & Hj & Hc & Hin).
      exists (S (S j)). repeat split; try done. by apply list_elem_of_further.
  - destruct i as [|[|i]]; simplify_eq/=.
  - destruct i as [|[|i]]; simplify_eq/=.
    + exists 0. repeat split; try done. apply list_elem_of_here.
    + rewrite Forall_lookup in Hquiet. by destruct (Hquiet _ _ Hi c res).
  - destruct i as [|[|[|i]]]; simplify_eq/=.
    exists 0. repeat split; try done. apply list_elem_of_here.
Qed.
End ConfirmFacts.

Lemma PhaseTrace_thrown can act err items evs r :
  PhaseTrace can act err items evs r →
  ∀ i c a thrown, evs !! i = Some (EvInvoke c a (Thrown thrown)) →
                  r = Thrown thrown ∧ length evs = S i.
Proof.
  induction 1 as [|? ? ? ? ? ? IH|? ? ? ? ? ? IH| | | |]; intros i c a thrown Hi;
    try (destruct i as [|[|[|i]]]; simplify_eq/=; done).
  - by apply IH in Hi.
  - destruct i as [|[|i]]; simplify_eq/=.
    destruct (IH _ _ _ _ Hi) as [-> ->]. done.
Qed.

Lemma EligibleTrace_thrown can items itemList evs r :
  EligibleTrace can items itemList evs r →
  ∀ i c a thrown, evs !! i = Some (EvInvoke c a (Thrown thrown)) →
                  r = Thrown thrown ∧ length evs = S i.
Proof.
  induction 1 as [|? ? ? ? ? ? ? IH|? ? ? ? ? ? ? IH| |]; intros i c a thrown Hi;
    try (destruct i as [|[|i]]; simplify_eq/=; done).
  - by apply IH in Hi.
  - destruct i as [|i]; simplify_eq/=.
    destruct (IH _ _ _ _ Hi) as [-> ->]. done.
Qed.

Lemma ConfirmTrace_thrown can act placeHolder itemList falseEvents falseResult
    items evs r :
  Forall (λ ev, ∀ c a e, ev ≠ EvInvoke c a (Thrown e)) falseEvents →
  ConfirmTrace can act placeHolder itemList falseEvents falseResult items evs r →
  ∀ i c a thrown, evs !! i = Some (EvInvoke c a (Thrown thrown)) →
                  r = Thrown thrown ∧ length evs = S i.
Proof.
  intros Hquiet.
  induction 1 as [|? ? ? ? ? ? IH|? ? ? ? ? ? IH| | |]; intros i c a thrown Hi;
    try (destruct i as [|[|[|i]]]; simplify_eq/=; done).
  - by apply IH in Hi.
  - destruct i as [|[|i]]; simplify_eq/=.
    destruct (IH _ _ _ _ Hi) as [-> ->]. done.
  - destruct i as [|[|i]]; simplify_eq/=.
    rewrite Forall_lookup in Hquiet.
    by destruct (Hquiet _ _ Hi c a thrown).
Qed.

Lemma lookup_app_plus {A} (l1 l2 : list A) j :
  (l1 ++ l2) !! (length l1 + j) = l2 !! j.
Proof. rewrite lookup_app_r by lia. f_equal. lia. Qed.

Lemma collectEligible_none E can items :
  Forall (λ c, can c = false) items →
  ∀ itemList w,
    collectEligible E can items itemList w = (Returned (Some itemList), w).
Proof.
  induction 1 as [|item rest Hcan _ IH]; intros itemList w; simpl; [done|].
  rewrite Hcan. apply IH.
Qed.


(** ** Facts about the runs of provision and deploy *)

Lemma provisionGate_not_confirmation login group subscription :
  Forall (λ e, ∀ label ph selected, e ≠ EvShowQuickPick label ph selected)
    (provisionGate login group subscription).
Proof. repeat constructor; done. Qed.

Lemma not_a_check_confirmation label ph selected :
  ¬ ∃ c res, EvShowQuickPick label ph selected = EvInvoke c CheckPrerequisites res.
Proof. by intros (? & ? & ?). Qed.

(** Go through the positions of a list that is written out. *)
Ltac lookup_cases H :=
  match type of H with
  | _ !! ?i = _ =>
      let j := fresh "j" in
      let Hj := fresh "Hj" in
      remember i as j eqn:Hj; clear Hj;
      repeat (destruct j as [|j]; simplify_eq/=)
  end.

Lemma ProvisionRun_returned_true E items evs :
  ProvisionRun E items evs (Returned true) →
  ∃ login group subscription,
    evs = (checked <$> eligible (canProvision E) items)
          ++ provisionGate login (Some group) (Some subscription)
          ++ flat_map
               (confirmedAndActed Provision "Provision process"
                  (name <$> eligible (canProvision E) items))
               (eligible (canProvision E) items)
    ∧ eligible (canProvision E) items ≠ []
    ∧ group ≠ EmptyString ∧ subscription ≠ EmptyString.
Proof.
  remember (Returned true) as res eqn:Hres.
  destruct 1 as [ |evs e Ht|evs Ht|evs Ht|evs l e Ht|evs l login e Ht
                 |evs l login g s Ht|evs l login g s evs' r Ht Hl Hg Hs Hc];
    simplify_eq.
  destruct r as [[[]|]|]; simplify_eq.
  - by apply ConfirmTrace_result in Hc.
  - apply EligibleTrace_collected in Ht as [-> ->]. simpl in *.
    apply ConfirmTrace_completed in Hc as ->; [|done].
    apply truthy_Some in Hg as (group & -> & Hg).
    apply truthy_Some in Hs as (sub & -> & Hs).
    exists login, group, sub. repeat split; try done.
    intros Heq. by rewrite Heq in Hl.
Qed.

Lemma DeployRun_returned_true E items evs :
  DeployRun E items evs (Returned true) →
  ∃ login,
    evs = (checked <$> eligible (canDeploy E) items)
          ++ EvCheckAzureLogin (Returned login)
             :: flat_map
                  (confirmedAndActed Deploy "Deploy process"
                     (name <$> eligible (canDeploy E) items))
                  (eligible (canDeploy E) items)
          ++ [EvShowInformationMessage "Azure deploy succeeded."]
    ∧ eligible (canDeploy E) items ≠ [].
Proof.
  remember (Returned true) as res eqn:Hres.
  destruct 1 as [evs e Ht|evs Ht|evs Ht|evs l e Ht
                 |evs l login evs' r Ht Hl Hc Hr|evs l login evs' Ht Hl Hc];
    simplify_eq.
  - destruct r as [[[]|]|]; simplify_eq.
    by apply ConfirmTrace_result in Hc.
  - apply EligibleTrace_collected in Ht as [-> ->]. simpl in *.
    apply ConfirmTrace_completed in Hc as ->; [|done].
    exists login. split; [done|].
    intros Heq. by rewrite Heq in Hl.
Qed.

Lemma ProvisionRun_declined E items evs r :
  ProvisionRun E items evs r →
  ∀ i label ph, evs !! i = Some (EvShowQuickPick label ph false) →
                r = Returned false ∧ length evs = S i.
Proof.
  destruct 1 as [ |evs e Ht|evs Ht|evs Ht|evs l e Ht|evs l login e Ht
                 |evs l login g s Ht|evs l login g s evs' r Ht Hl Hg Hs Hc];
    intros i label ph Hi; try done.
  all: apply EligibleTrace_no_gate in Ht.
  1-2: rewrite Forall_lookup in Ht;
       by apply Ht, not_a_check_confirmation in Hi.
  1-4: eapply lookup_app_skip in Hi as (j & -> & Hj);
         [|exact Ht|apply not_a_check_confirmation];
       by repeat (destruct j as [|j]; simplify_eq/=).
  eapply lookup_app_skip in Hi as (j & -> & Hj);
    [|exact Ht|apply not_a_check_confirmation].
  eapply lookup_app_skip in Hj as (k & -> & Hk);
    [|apply provisionGate_not_confirmation|by intros H; destruct (H label ph false)].
  eapply ConfirmTrace_declined_final in Hk as [-> Hlen]; [| |exact Hc].
  - split; [done|]. rewrite !length_app, Hlen. lia.
  - repeat constructor; done.
Qed.

Lemma DeployRun_declined E items evs r :
  DeployRun E items evs r →
  ∀ i label ph, evs !! i = Some (EvShowQuickPick label ph false) →
                r = Returned false ∧ length evs = S i.
Proof.
  destruct 1 as [evs e Ht|evs Ht|evs Ht|evs l e Ht
                 |evs l login evs' r Ht Hl Hc Hr|evs l login evs' Ht Hl Hc];
    intros i label ph Hi.
  all: apply EligibleTrace_no_gate in Ht.
  1-2: rewrite Forall_lookup in Ht;
       by apply Ht, not_a_check_confirmation in Hi.
  1-2: eapply lookup_app_skip in Hi as (j & -> & Hj);
         [|exact Ht|apply not_a_check_confirmation];
       by repeat (destruct j as [|j]; simplify_eq/=).
  - eapply lookup_app_skip in Hi as (j & -> & Hj);
      [|exact Ht|apply not_a_check_confirmation].
    destruct j as [|j]; [done|]. simpl in Hj.
    eapply ConfirmTrace_declined_final in Hj as [-> Hlen]; [| |exact Hc].
    + split; [done|]. rewrite length_app. simpl. lia.
    + constructor.
  - eapply lookup_app_skip in Hi as (j & -> & Hj);
      [|exact Ht|apply not_a_check_confirmation].
    destruct j as [|j]; [done|]. simpl in Hj.
    apply lookup_app_Some in Hj as [Hj|[_ Hj]].
    + by eapply ConfirmTrace_declined_final in Hj as [? _];
        [| |exact Hc]; [|constructor].
    + by lookup_cases Hj.
Qed.

Lemma confirmed_not_check can act placeHolder itemList falseEvents falseResult
    items evs r :
  act ≠ CheckPrerequisites →
  Forall (λ e, notInvoke CheckPrerequisites e = true) falseEvents →
  ConfirmTrace can act placeHolder itemList falseEvents falseResult items evs r →
  Forall (λ e, notInvoke CheckPrerequisites e = true) evs.
Proof.
  intros Hact Hfalse. apply ConfirmTrace_events; [done| |done].
  intros c res. simpl. by rewrite bool_decide_eq_false_2.
Qed.

Lemma ProvisionRun_prerequisites_final E items evs r :
  ProvisionRun E items evs r →
  ∀ i c, evs !! i = Some (EvInvoke c CheckPrerequisites (Returned false)) →
         r = Returned false ∧ length evs = S i.
Proof.
  assert (Hev : ∀ c res,
            ¬ notInvoke CheckPrerequisites (EvInvoke c CheckPrerequisites res) = true).
  { intros c res. by vm_compute. }
  destruct 1 as [ |evs e Ht|evs Ht|evs Ht|evs l e Ht|evs l login e Ht
                 |evs l login g s Ht|evs l login g s evs' r Ht Hl Hg Hs Hc];
    intros i c Hi; try done.
  1-2: by eapply EligibleTrace_prerequisites_final in Hi as [? ?]; [|exact Ht].
  all: apply lookup_app_Some in Hi as [Hi|[_ Hi]];
    [by eapply EligibleTrace_prerequisites_final in Hi as [? ?]; [|exact Ht]|].
  1-4: by lookup_cases Hi.
  apply lookup_app_Some in Hi as [Hi|[_ Hi]].
  - by lookup_cases Hi.
  - eapply confirmed_not_check in Hc; [|done|repeat constructor].
    rewrite Forall_lookup in Hc. by apply Hc, Hev in Hi.
Qed.

Lemma DeployRun_prerequisites_final E items evs r :
  DeployRun E items evs r →
  ∀ i c, evs !! i = Some (EvInvoke c CheckPrerequisites (Returned false)) →
         r = Returned false ∧ length evs = S i.
Proof.
  assert (Hev : ∀ c res,
            ¬ notInvoke CheckPrerequisites (EvInvoke c CheckPrerequisites res) = true).
  { intros c res. by vm_compute. }
  destruct 1 as [evs e Ht|evs Ht|evs Ht|evs l e Ht
                 |evs l login evs' r Ht Hl Hc Hr|evs l login evs' Ht Hl Hc];
    intros i c Hi.
  1-2: by eapply EligibleTrace_prerequisites_final in Hi as [? ?]; [|exact Ht].
  all: apply lookup_app_Some in Hi as [Hi|[_ Hi]];
    [by eapply EligibleTrace_prerequisites_final in Hi as [? ?]; [|exact Ht]|].
  1-2: by lookup_cases Hi.
  - destruct (i - length evs) as [|j]; [done|]. simpl in Hi.
    eapply confirmed_not_check in Hc; [|done|constructor].
    rewrite Forall_lookup in Hc. by apply Hc, Hev in Hi.
  - destruct (i - length evs) as [|j]; [done|]. simpl in Hi.
    apply lookup_app_Some in Hi as [Hi|[_ Hi]].
    + eapply confirmed_not_check in Hc; [|done|constructor].
      rewrite Forall_lookup in Hc. by apply Hc, Hev in Hi.
    + by lookup_cases Hi.
Qed.

Lemma ProvisionRun_confirmed_first E items evs r :
  ProvisionRun E items evs r →
  ∀ i c res, evs !! i = Some (EvInvoke c Provision res) →
    ∃ j, i = S j
         ∧ evs !! j
           = Some (EvShowQuickPick
                     (progressLabel (name c)
                        (name <$> eligible (canProvision E) items))
                     "Provision process" true)
         ∧ canProvision E c = true ∧ c ∈ items.
Proof.
  assert (Hne : Provision ≠ CheckPrerequisites) by done.
  assert (Hev : ∀ c res, ¬ notInvoke Provision (EvInvoke c Provision res) = true).
  { intros c res. by vm_compute. }
  destruct 1 as [ |evs e Ht|evs Ht|evs Ht|evs l e Ht|evs l login e Ht
                 |evs l login g s Ht|evs l login g s evs' r Ht Hl Hg Hs Hc];
    intros i c res Hi; try done.
  all: pose proof (EligibleTrace_checks _ _ _ _ _ _ Hne Ht) as Hquiet.
  1-2: rewrite Forall_lookup in Hquiet; by apply Hquiet, Hev in Hi.
  1-4: eapply lookup_app_skip in Hi as (j & -> & Hj); [|exact Hquiet|apply Hev];
       by repeat (destruct j as [|j]; simplify_eq/=).
  eapply lookup_app_skip in Hi as (j & -> & Hj); [|exact Hquiet|apply Hev].
  eapply lookup_app_skip in Hj as (k & -> & Hk);
    [|apply (provisionGate_quiet Provision)|apply Hev].
  eapply ConfirmTrace_confirmed_first in Hk as (k' & -> & Hk' & Hcan & Hin);
    [|apply provisionCanceled_quiet|exact Hc].
  exists (length evs + (length (provisionGate login g s) + k')).
  split; [lia|]. rewrite !lookup_app_plus.
  apply EligibleTrace_collected in Ht as [_ ->]. done.
Qed.

Lemma DeployRun_confirmed_first E items evs r :
  DeployRun E items evs r →
  ∀ i c res, evs !! i = Some (EvInvoke c Deploy res) →
    ∃ j, i = S j
         ∧ evs !! j
           = Some (EvShowQuickPick
                     (progressLabel (name c)
                        (name <$> eligible (canDeploy E) items))
                     "Deploy process" true)
         ∧ canDeploy E c = true ∧ c ∈ items.
Proof.
  assert (Hne : Deploy ≠ CheckPrerequisites) by done.
  assert (Hev : ∀ c res, ¬ notInvoke Deploy (EvInvoke c Deploy res) = true).
  { intros c res. by vm_compute. }
  assert (Hnil : Forall (λ e, ∀ c res, e ≠ EvInvoke c Deploy res) []) by constructor.
  destruct 1 as [evs e Ht|evs Ht|evs Ht|evs l e Ht
                 |evs l login evs' r Ht Hl Hc Hr|evs l login evs' Ht Hl Hc];
    intros i c res Hi.
  all: pose proof (EligibleTrace_checks _ _ _ _ _ _ Hne Ht) as Hquiet.
  1-2: rewrite Forall_lookup in Hquiet; by apply Hquiet, Hev in Hi.
  1-2: eapply lookup_app_skip in Hi as (j & -> & Hj); [|exact Hquiet|apply Hev];
       by repeat (destruct j as [|j]; simplify_eq/=).
  - eapply lookup_app_skip in Hi as (j & -> & Hj); [|exact Hquiet|apply Hev].
    destruct j as [|j]; [done|]. simpl in Hj.
    eapply ConfirmTrace_confirmed_first in Hj as (k' & -> & Hk' & Hcan & Hin);
      [|exact Hnil|exact Hc].
    exists (length evs + S k').
    split; [lia|]. rewrite lookup_app_plus.
    apply EligibleTrace_collected in Ht as [_ ->]. done.
  - eapply lookup_app_skip in Hi as (j & -> & Hj); [|exact Hquiet|apply Hev].
    destruct j as [|j]; [done|]. simpl in Hj.
    apply lookup_app_Some in Hj as [Hj|[_ Hj]].
    2:{ by lookup_cases Hj. }
    eapply ConfirmTrace_confirmed_first in Hj as (k' & -> & Hk' & Hcan & Hin);
      [|exact Hnil|exact Hc].
    exists (length evs + S k').
    split; [lia|]. rewrite lookup_app_plus. simpl.
    rewrite lookup_app_l by (by eapply lookup_lt_Some).
    apply EligibleTrace_collected in Ht as [_ ->]. done.
Qed.

Lemma ProvisionRun_thrown E items evs r :
  ProvisionRun E items evs r →
  ∀ i c a e, evs !! i = Some (EvInvoke c a (Thrown e)) →
             r = Thrown e ∧ length evs = S i.
Proof.
  destruct 1 as [ |evs e' Ht|evs Ht|evs Ht|evs l e' Ht|evs l login e' Ht
                 |evs l login g s Ht|evs l login g s evs' r Ht Hl Hg Hs Hc];
    intros i c a e Hi; try done.
  1-2: by destruct (EligibleTrace_thrown _ _ _ _ _ Ht _ _ _ _ Hi) as [Heq Hlen];
         simplify_eq.
  all: apply lookup_app_Some in Hi as [Hi|[Hle Hi]];
    [by destruct (EligibleTrace_thrown _ _ _ _ _ Ht _ _ _ _ Hi) as [Heq Hlen]|].
  1-4: by lookup_cases Hi.
  apply lookup_app_Some in Hi as [Hi|[Hle' Hi]]; [by lookup_cases Hi|].
  eapply ConfirmTrace_thrown in Hi as [-> Hlen]; [| |exact Hc].
  - split; [done|]. rewrite !length_app, Hlen. simpl in *. lia.
  - repeat constructor; done.
Qed.

Lemma DeployRun_thrown E items evs r :
  DeployRun E items evs r →
  ∀ i c a e, evs !! i = Some (EvInvoke c a (Thrown e)) →
             r = Thrown e ∧ length evs = S i.
Proof.
  destruct 1 as [evs e' Ht|evs Ht|evs Ht|evs l e' Ht
                 |evs l login evs' r Ht Hl Hc Hr|evs l login evs' Ht Hl Hc];
    intros i c a e Hi.
  1-2: by destruct (EligibleTrace_thrown _ _ _ _ _ Ht _ _ _ _ Hi) as [Heq Hlen];
         simplify_eq.
  all: apply lookup_app_Some in Hi as [Hi|[Hle Hi]];
    [by destruct (EligibleTrace_thrown _ _ _ _ _ Ht _ _ _ _ Hi) as [Heq Hlen]|].
  1-2: by lookup_cases Hi.
  - destruct (i - length evs) as [|j] eqn:Hj; [done|]. simpl in Hi.
    eapply ConfirmTrace_thrown in Hi as [-> Hlen]; [|constructor|exact Hc].
    split; [done|]. rewrite length_app. simpl. lia.
  - destruct (i - length evs) as [|j] eqn:Hj; [done|]. simpl in Hi.
    apply lookup_app_Some in Hi as [Hi|[_ Hi]]; [|by lookup_cases Hi].
    by eapply ConfirmTrace_thrown in Hi as [? _]; [|constructor|exact Hc].
Qed.


(** ** compile, upload, provision, deploy: what a run looks like *)

(** X1.  [compile()], [upload()], [provision()] and [deploy()] leave the
    registry as it is: whether the run returns or throws, [componentList]
    holds the same components, in the same order, as before. *)
Theorem phases_leave_registry (E : Env) (w : World) :
  componentList (compile E w).2 = componentList w
  ∧ componentList (upload E w).2 = componentList w
  ∧ componentList (provision E w).2 = componentList w
  ∧ componentList (deploy E w).2 = componentList w.
Proof.
  destruct (compile_trace E w) as (? & ? & _ & Hc & _).
  destruct (upload_trace E w) as (? & ? & _ & Hu & _).
  destruct (provision_run E w) as (? & _ & Hp & _).
  destruct (deploy_run E w) as (? & _ & Hd & _).
  done.
Qed.

Lemma phase_outcome can act err items evs r (res : Result bool) :
  PhaseTrace can act err items evs r →
  res = match r with
        | Returned (Some b) => Returned b
        | Returned None => Returned true
        | Thrown e => Thrown e
        end →
  (res = Returned true → evs = flat_map (checkedAndActed act) (eligible can items))
  ∧ (res = Returned false →
     ∃ c, c ∈ items ∧ can c = true
          ∧ last evs = Some (EvInvoke c CheckPrerequisites (Returned false))).
Proof.
  intros Htr ->. split; intros Hres.
  - destruct r as [[[]|]|]; simplify_eq.
    + by apply PhaseTrace_result in Htr.
    + by eapply PhaseTrace_completed.
  - destruct r as [[[]|]|]; simplify_eq. by eapply PhaseTrace_refused.
Qed.

(** X2.  [compile()] returns [true] only after every component with the
    capability, in registry order, passed its prerequisites check and
    compiled, each check right before the compile, and nothing else was
    called; it returns [false] only when the last thing it did was a
    prerequisites check of such a component that answered [false].  The same
    holds of [upload()]. *)
Theorem compile_upload_outcome (E : Env) (w : World) :
  ((compile E w).1 = Returned true →
   newEvents w (compile E w).2
   = flat_map (checkedAndActed Compile) (eligible (canCompile E) (componentList w)))
  ∧ ((compile E w).1 = Returned false →
     ∃ c, c ∈ componentList w ∧ canCompile E c = true
          ∧ last (newEvents w (compile E w).2)
            = Some (EvInvoke c CheckPrerequisites (Returned false)))
  ∧ ((upload E w).1 = Returned true →
     newEvents w (upload E w).2
     = flat_map (checkedAndActed Upload) (eligible (canUpload E) (componentList w)))
  ∧ ((upload E w).1 = Returned false →
     ∃ c, c ∈ componentList w ∧ canUpload E c = true
          ∧ last (newEvents w (upload E w).2)
            = Some (EvInvoke c CheckPrerequisites (Returned false))).
Proof.
  destruct (compile_trace E w) as (evs & r & Hlog & _ & Htr & Hres).
  destruct (upload_trace E w) as (evs' & r' & Hlog' & _ & Htr' & Hres').
  rewrite (newEvents_app _ _ _ Hlog), (newEvents_app _ _ _ Hlog').
  destruct (phase_outcome _ _ _ _ _ _ _ Htr Hres).
  destruct (phase_outcome _ _ _ _ _ _ _ Htr' Hres').
  done.
Qed.

Lemma compile_upload_outcome_witness :
  newEvents (Sample.loaded [Sample.hub; Sample.board; Sample.db])
    (compile
       (Sample.env Sample.allFine (Sample.config "raspberrypi" None) None
          (Returned true) None None true)
       (Sample.loaded [Sample.hub; Sample.board; Sample.db])).2
  = [EvInvoke Sample.board CheckPrerequisites (Returned true);
     EvInvoke Sample.board Compile (Returned true)].
Proof.
  refine (proj1 (compile_upload_outcome _ _) _).
  vm_compute. reflexivity.
Defined.

(** X3.  With no provisionable component in the registry (an empty
    registry included), [provision()], run inside a project, only shows the
    message that there is nothing to provision and returns [false]: no
    prerequisites check, no login, no resource group.  Likewise [deploy()]
    with no deployable component. *)
Theorem nothing_eligible (E : Env) (w : World) :
  (truthy (configGet E (log w) ConfigKey.devicePath) = true →
   Forall (λ c, canProvision E c = false) (componentList w) →
   provision E w
   = (Returned false, noted (EvShowInformationMessage nothingToProvision) w))
  ∧ (Forall (λ c, canDeploy E c = false) (componentList w) →
     deploy E w
     = (Returned false, noted (EvShowInformationMessage nothingToDeploy) w)).
Proof.
  split.
  - intros Hpath Hnone. unfold provision.
    rewrite bind_run, ask_run, Hpath. simpl.
    unfold getComponentList. rewrite !bind_run.
    by rewrite collectEligible_none.
  - intros Hnone. unfold deploy, getComponentList. rewrite !bind_run.
    by rewrite collectEligible_none.
Qed.

Lemma nothing_eligible_witness :
  deploy
    (Sample.env Sample.allFine (Sample.config "raspberrypi" None) None
       (Returned true) None None true)
    (Sample.loaded [Sample.board; Sample.hub])
  = (Returned false,
     noted (EvShowInformationMessage nothingToDeploy)
       (Sample.loaded [Sample.board; Sample.hub])).
Proof.
  refine (proj2 (nothing_eligible _ _) _).
  repeat constructor.
Defined.

(** X4.  When the user dismisses a confirmation of [provision()] or
    [deploy()], the method returns [false] and the dismissed quick pick is
    the last thing the run did: the component it was shown for, and every
    component after it, is left alone. *)
Theorem declined_confirmation_stops (E : Env) (w : World) :
  (∀ i label placeHolder,
     newEvents w (provision E w).2 !! i
       = Some (EvShowQuickPick label placeHolder false) →
     (provision E w).1 = Returned false
     ∧ length (newEvents w (provision E w).2) = S i)
  ∧ (∀ i label placeHolder,
       newEvents w (deploy E w).2 !! i
         = Some (EvShowQuickPick label placeHolder false) →
       (deploy E w).1 = Returned false
       ∧ length (newEvents w (deploy E w).2) = S i).
Proof.
  destruct (provision_run E w) as (evs & Hlog & _ & Hrun).
  destruct (deploy_run E w) as (evs' & Hlog' & _ & Hrun').
  rewrite (newEvents_app _ _ _ Hlog), (newEvents_app _ _ _ Hlog').
  split.
  - by eapply ProvisionRun_declined.
  - by eapply DeployRun_declined.
Qed.

Lemma declined_confirmation_stops_witness :
  (deploy
     (Sample.env Sample.allFine (Sample.config "raspberrypi" None) None
        (Returned true) None None false)
     (Sample.loaded [Sample.board; Sample.hub; Sample.functions])).1
  = Returned false.
Proof.
  refine (proj1 (proj2 (declined_confirmation_stops _ _) 2 _ _ _)).
  vm_compute. reflexivity.
Defined.

(** X5.  In [compile()] and [upload()], every call of a component's phase
    method comes right after the prerequisites check of that same component
    answered [true]; the component has the capability and is in the
    registry. *)
Theorem checked_right_before_acting (E : Env) (w : World) :
  (∀ i c res,
     newEvents w (compile E w).2 !! i = Some (EvInvoke c Compile res) →
     ∃ j, i = S j
          ∧ newEvents w (compile E w).2 !! j = Some (checked c)
          ∧ canCompile E c = true ∧ c ∈ componentList w)
  ∧ (∀ i c res,
       newEvents w (upload E w).2 !! i = Some (EvInvoke c Upload res) →
       ∃ j, i = S j
            ∧ newEvents w (upload E w).2 !! j = Some (checked c)
            ∧ canUpload E c = true ∧ c ∈ componentList w).
Proof.
  destruct (compile_trace E w) as (evs & r & Hlog & _ & Htr & _).
  destruct (upload_trace E w) as (evs' & r' & Hlog' & _ & Htr' & _).
  rewrite (newEvents_app _ _ _ Hlog), (newEvents_app _ _ _ Hlog').
  split.
  - by eapply PhaseTrace_checked_first.
  - by eapply PhaseTrace_checked_first.
Qed.

Lemma checked_right_before_acting_witness :
  ∃ j, 1 = S j
       ∧ newEvents (Sample.loaded [Sample.hub; Sample.board])
           (upload
              (Sample.env actionRefused (Sample.config "raspberrypi" None) None
                 (Returned true) None None true)
              (Sample.loaded [Sample.hub; Sample.board])).2 !! j
         = Some (checked Sample.board).
Proof.
  destruct (proj2 (checked_right_before_acting
                     (Sample.env actionRefused (Sample.config "raspberrypi" None)
                        None (Returned true) None None true)
                     (Sample.loaded [Sample.hub; Sample.board]))
              1 Sample.board (Returned false))
    as (j & Hj & Hcheck & _).
  - vm_compute. reflexivity.
  - exists j. split; [exact Hj|exact Hcheck].
Defined.

(** X6.  In [provision()] and [deploy()], every call of a component's phase
    method comes right after the user accepted the quick pick shown for that
    component, whose label lists the eligible components of the registry by
    name with this one marked; the component has the capability and is in
    the registry. *)
Theorem confirmed_right_before_acting (E : Env) (w : World) :
  (∀ i c res,
     newEvents w (provision E w).2 !! i = Some (EvInvoke c Provision res) →
     ∃ j, i = S j
          ∧ newEvents w (provision E w).2 !! j
            = Some (EvShowQuickPick
                      (progressLabel (name c)
                         (name <$> eligible (canProvision E) (componentList w)))
                      "Provision process" true)
          ∧ canProvision E c = true ∧ c ∈ componentList w)
  ∧ (∀ i c res,
       newEvents w (deploy E w).2 !! i = Some (EvInvoke c Deploy res) →
       ∃ j, i = S j
            ∧ newEvents w (deploy E w).2 !! j
              = Some (EvShowQuickPick
                        (progressLabel (name c)
                           (name <$> eligible (canDeploy E) (componentList w)))
                        "Deploy process" true)
            ∧ canDeploy E c = true ∧ c ∈ componentList w).
Proof.
  destruct (provision_run E w) as (evs & Hlog & _ & Hrun).
  destruct (deploy_run E w) as (evs' & Hlog' & _ & Hrun').
  rewrite (newEvents_app _ _ _ Hlog), (newEvents_app _ _ _ Hlog').
  split.
  - exact (ProvisionRun_confirmed_first _ _ _ _ Hrun).
  - exact (DeployRun_confirmed_first _ _ _ _ Hrun').
Qed.

Lemma confirmed_right_before_acting_witness :
  ∃ j, 3 = S j
       ∧ newEvents (Sample.loaded [Sample.board; Sample.hub; Sample.functions])
           (deploy
              (Sample.env Sample.allFine (Sample.config "raspberrypi" None) None
                 (Returned true) None None true)
              (Sample.loaded [Sample.board; Sample.hub; Sample.functions])).2 !! j
         = Some (EvShowQuickPick ">> 1. Azure Functions" "Deploy process" true).
Proof.
  destruct (proj2 (confirmed_right_before_acting
                     (Sample.env Sample.allFine (Sample.config "raspberrypi" None)
                        None (Returned true) None None true)
                     (Sample.loaded [Sample.board; Sample.hub; Sample.functions]))
              3 Sample.functions (Returned true))
    as (j & Hj & Hpick & _).
  - vm_compute. reflexivity.
  - exists j. split; [exact Hj|exact Hpick].
Defined.

(** X7.  When the prerequisites check of a provisionable component answers
    [false], [provision()] returns [false] and that check is the last thing
    the run did: no login, no resource group, no confirmation, no component
    provisioned.  Likewise [deploy()] and the deployable components. *)
Theorem failed_prerequisites_stop (E : Env) (w : World) :
  (∀ i c,
     newEvents w (provision E w).2 !! i
       = Some (EvInvoke c CheckPrerequisites (Returned false)) →
     (provision E w).1 = Returned false
     ∧ length (newEvents w (provision E w).2) = S i)
  ∧ (∀ i c,
       newEvents w (deploy E w).2 !! i
         = Some (EvInvoke c CheckPrerequisites (Returned false)) →
       (deploy E w).1 = Returned false
       ∧ length (newEvents w (deploy E w).2) = S i).
Proof.
  destruct (provision_run E w) as (evs & Hlog & _ & Hrun).
  destruct (deploy_run E w) as (evs' & Hlog' & _ & Hrun').
  rewrite (newEvents_app _ _ _ Hlog), (newEvents_app _ _ _ Hlog').
  split.
  - by eapply ProvisionRun_prerequisites_final.
  - by eapply DeployRun_prerequisites_final.
Qed.

Lemma failed_prerequisites_stop_witness :
  (provision
     (Sample.env nothingInstalled (Sample.config "raspberrypi" None) None
        (Returned true) (Some "group") (Some "subscription") true)
     (Sample.loaded [Sample.board; Sample.db; Sample.hub])).1
  = Returned false
  ∧ length
      (newEvents (Sample.loaded [Sample.board; Sample.db; Sample.hub])
         (provision
            (Sample.env nothingInstalled (Sample.config "raspberrypi" None) None
               (Returned true) (Some "group") (Some "subscription") true)
            (Sample.loaded [Sample.board; Sample.db; Sample.hub])).2)
    = 1.
Proof.
  refine (proj1 (failed_prerequisites_stop _ _) 0 Sample.db _).
  vm_compute. reflexivity.
Defined.

(** X8.  [provision()] returns [true] only after a run of this shape: the
    prerequisites check of every provisionable component, in registry order,
    all answering [true]; the login check, the resource group and the
    subscription id, both non-empty; then, for every provisionable
    component in registry order, the accepted confirmation and its
    [provision()] answering [true].  [deploy()] returns [true] only after
    the checks, the login check, the confirmation and [deploy()] of every
    deployable component, and the message that the deployment succeeded.  In
    both, at least one component was eligible. *)
Theorem provision_deploy_success (E : Env) (w : World) :
  ((provision E w).1 = Returned true →
   ∃ login group subscription,
     newEvents w (provision E w).2
     = (checked <$> eligible (canProvision E) (componentList w))
       ++ provisionGate login (Some group) (Some subscription)
       ++ flat_map
            (confirmedAndActed Provision "Provision process"
               (name <$> eligible (canProvision E) (componentList w)))
            (eligible (canProvision E) (componentList w))
     ∧ eligible (canProvision E) (componentList w) ≠ []
     ∧ group ≠ EmptyString ∧ subscription ≠ EmptyString)
  ∧ ((deploy E w).1 = Returned true →
     ∃ login,
       newEvents w (deploy E w).2
       = (checked <$> eligible (canDeploy E) (componentList w))
         ++ EvCheckAzureLogin (Returned login)
            :: flat_map
                 (confirmedAndActed Deploy "Deploy process"
                    (name <$> eligible (canDeploy E) (componentList w)))
                 (eligible (canDeploy E) (componentList w))
         ++ [EvShowInformationMessage "Azure deploy succeeded."]
       ∧ eligible (canDeploy E) (componentList w) ≠ []).
Proof.
  destruct (provision_run E w) as (evs & Hlog & _ & Hrun).
  destruct (deploy_run E w) as (evs' & Hlog' & _ & Hrun').
  rewrite (newEvents_app _ _ _ Hlog), (newEvents_app _ _ _ Hlog').
  split; intros Hres.
  - rewrite Hres in Hrun. by apply ProvisionRun_returned_true.
  - rewrite Hres in Hrun'. by apply DeployRun_returned_true.
Qed.

Lemma provision_deploy_success_witness :
  ∃ login,
    newEvents (Sample.loaded [Sample.board; Sample.hub; Sample.functions])
      (deploy
         (Sample.env Sample.allFine (Sample.config "raspberrypi" None) None
            (Returned false) None None true)
         (Sample.loaded [Sample.board; Sample.hub; Sample.functions])).2
    = [EvInvoke Sample.functions CheckPrerequisites (Returned true);
       EvCheckAzureLogin (Returned login);
       EvShowQuickPick ">> 1. Azure Functions" "Deploy process" true;
       EvInvoke Sample.functions Deploy (Returned true);
       EvShowInformationMessage "Azure deploy succeeded."].
Proof.
  destruct (proj2 (provision_deploy_success
                     (Sample.env Sample.allFine (Sample.config "raspberrypi" None)
                        None (Returned false) None None true)
                     (Sample.loaded [Sample.board; Sample.hub; Sample.functions])))
    as (login & Hevs & _).
  - vm_compute. reflexivity.
  - exists login. exact Hevs.
Defined.

(** X9.  An error thrown by a component, from its prerequisites check or
    from its phase method, is not swallowed by [compile()], [upload()],
    [provision()] or [deploy()]: the method throws the same error, and the
    call that threw is the last thing the run did. *)
Theorem component_errors_propagate (E : Env) (w : World) :
  (∀ i c a e,
     newEvents w (compile E w).2 !! i = Some (EvInvoke c a (Thrown e)) →
     (compile E w).1 = Thrown e ∧ length (newEvents w (compile E w).2) = S i)
  ∧ (∀ i c a e,
       newEvents w (upload E w).2 !! i = Some (EvInvoke c a (Thrown e)) →
       (upload E w).1 = Thrown e ∧ length (newEvents w (upload E w).2) = S i)
  ∧ (∀ i c a e,
       newEvents w (provision E w).2 !! i = Some (EvInvoke c a (Thrown e)) →
       (provision E w).1 = Thrown e
       ∧ length (newEvents w (provision E w).2) = S i)
  ∧ (∀ i c a e,
       newEvents w (deploy E w).2 !! i = Some (EvInvoke c a (Thrown e)) →
       (deploy E w).1 = Thrown e ∧ length (newEvents w (deploy E w).2) = S i).
Proof.
  destruct (compile_trace E w) as (evs1 & r1 & Hlog1 & _ & Htr1 & Hres1).
  destruct (upload_trace E w) as (evs2 & r2 & Hlog2 & _ & Htr2 & Hres2).
  destruct (provision_run E w) as (evs3 & Hlog3 & _ & Hrun3).
  destruct (deploy_run E w) as (evs4 & Hlog4 & _ & Hrun4).
  rewrite (newEvents_app _ _ _ Hlog1), (newEvents_app _ _ _ Hlog2),
    (newEvents_app _ _ _ Hlog3), (newEvents_app _ _ _ Hlog4).
  split; [|split; [|split]].
  - intros i c a e Hi.
    destruct (PhaseTrace_thrown _ _ _ _ _ _ Htr1 _ _ _ _ Hi) as [-> Hlen].
    by rewrite Hres1.
  - intros i c a e Hi.
    destruct (PhaseTrace_thrown _ _ _ _ _ _ Htr2 _ _ _ _ Hi) as [-> Hlen].
    by rewrite Hres2.
  - by eapply ProvisionRun_thrown.
  - by eapply DeployRun_thrown.
Qed.

Lemma component_errors_propagate_witness :
  (provision
     (Sample.env nothingInstalled (Sample.config "raspberrypi" None) None
        (Returned true) (Some "group") (Some "subscription") true)
     (Sample.loaded [Sample.board; Sample.hub; Sample.db])).1
  = Thrown "Azure account extension is not found.".
Proof.
  refine (proj1 (proj1 (proj2 (proj2 (component_errors_propagate _ _)))
                   0 Sample.hub CheckPrerequisites _ _)).
  vm_compute. reflexivity.
Defined.


(** ** Following a run to each of its ends *)

Section Outcome.
Variable E : Env.

Lemma outcome_bind {A B} (m : M A) (k : A → M B) w (Q : Result B → World → Prop) :
  outcome m w (λ r w1,
                 match r with
                 | Returned a => outcome (k a) w1 Q
                 | Thrown e => Q (Thrown e) w1
                 end) →
  outcome (bind m k) w Q.
Proof. unfold outcome. rewrite bind_run. by destruct (m w) as [[a|e] w1]. Qed.

Lemma outcome_catch {A} (m : M A) (h : Error → M A) w
    (Q : Result A → World → Prop) :
  outcome m w (λ r w1,
                 match r with
                 | Returned a => Q (Returned a) w1
                 | Thrown e => outcome (h e) w1 Q
                 end) →
  outcome (catch m h) w Q.
Proof. unfold outcome, catch. by destruct (m w) as [[a|e] w1]. Qed.

Lemma outcome_ret {A} (a : A) w (Q : Result A → World → Prop) :
  Q (Returned a) w → outcome (ret a) w Q.
Proof. done. Qed.

Lemma outcome_throw {A} e w (Q : Result A → World → Prop) :
  Q (Thrown e) w → outcome (throw e) w Q.
Proof. done. Qed.

Lemma outcome_lift {A} (r : Result A) w (Q : Result A → World → Prop) :
  Q r w → outcome (lift r) w Q.
Proof. done. Qed.

Lemma outcome_ask {A} (f : list Event → A) w (Q : Result A → World → Prop) :
  Q (Returned (f (log w))) w → outcome (ask f) w Q.
Proof. done. Qed.

Lemma outcome_push c w (Q : Result unit → World → Prop) :
  Q (Returned tt) (pushed c w) → outcome (push c) w Q.
Proof. done. Qed.

Lemma outcome_emit e w (Q : Result unit → World → Prop) :
  Q (Returned tt) (noted e w) → outcome (emit e) w Q.
Proof. done. Qed.

Lemma outcome_getComponentList w (Q : Result (list Component) → World → Prop) :
  Q (Returned (componentList w)) w → outcome getComponentList w Q.
Proof. done. Qed.

Lemma outcome_call c a w (Q : Result bool → World → Prop) :
  (∀ r, Q r (logged E (EvInvoke c a r) w)) → outcome (call E c a) w Q.
Proof. intros H. unfold outcome. rewrite call_run. apply H. Qed.

Lemma outcome_new cls deps w (Q : Result Component → World → Prop) :
  (∀ c, componentClass c = cls → dependencies c = deps →
        Q (Returned c) (logged E (EvNew c) w)) →
  outcome (new E cls deps) w Q.
Proof. intros H. unfold outcome. rewrite new_run. by apply H. Qed.

Lemma outcome_createStore s w (Q : Result unit → World → Prop) :
  (∀ r, Q r (logged E (EvCreateIfNotExists s r) w)) →
  outcome (createStore E s) w Q.
Proof. intros H. unfold outcome. rewrite createStore_run. apply H. Qed.

Lemma outcome_updateSettings c s w (Q : Result unit → World → Prop) :
  (∀ r, Q r (logged E (EvUpdateConfigSettings c s r) w)) →
  outcome (updateSettings E c s) w Q.
Proof. intros H. unfold outcome. rewrite updateSettings_run. apply H. Qed.

Lemma outcome_trySendEvent n w (Q : Result unit → World → Prop) :
  (∀ r, Q (Returned tt) (logged E (EvSendEvent n r) w)) →
  outcome (trySendEvent E n) w Q.
Proof.
  intros H. unfold outcome, trySendEvent, catch.
  rewrite bind_run, ask_run. cbn beta iota. rewrite bind_run, record_run.
  cbn beta iota. unfold lift.
  destruct (sendEvent E (log w) n) as [[]|e]; apply H.
Qed.

Lemma outcome_remoteExtensionAvailable w (Q : Result bool → World → Prop) :
  (∀ r, Q r (logged E (EvCheckRemoteExtension r) w)) →
  outcome (remoteExtensionAvailable E) w Q.
Proof. intros H. apply H. Qed.

Lemma outcome_rootExists w (Q : Result bool → World → Prop) :
  (hasRoot w → Q (Returned true) w) →
  (fs w = None → Q (Returned false) w) →
  outcome rootExists w Q.
Proof.
  intros Hyes Hno. unfold outcome, rootExists, hasRoot in *. simpl.
  destruct (fs w) as [files|] eqn:Hfs.
  - rewrite bool_decide_eq_true_2 by done. by apply Hyes.
  - rewrite bool_decide_eq_false_2 by (by intros [? ?]). by apply Hno.
Qed.

Lemma outcome_existsSync p w (Q : Result bool → World → Prop) :
  (∀ b, Q (Returned b) w) → outcome (existsSync p) w Q.
Proof. intros H. apply H. Qed.

Lemma outcome_mkdirSync p w (Q : Result unit → World → Prop) :
  (hasRoot w → Q (Returned tt) (noted (EvMkdir p) (putFile p Directory w))) →
  (fs w = None → Q (Thrown enoent) w) →
  outcome (mkdirSync p) w Q.
Proof.
  intros Hyes Hno. unfold outcome, mkdirSync, hasRoot in *.
  destruct (fs w) as [files|] eqn:Hfs; simpl; [by apply Hyes|by apply Hno].
Qed.

Lemma outcome_writeFileSync p f w (Q : Result unit → World → Prop) :
  (hasRoot w → Q (Returned tt) (noted (EvWriteFile p f) (putFile p f w))) →
  (fs w = None → Q (Thrown enoent) w) →
  outcome (writeFileSync p f) w Q.
Proof.
  intros Hyes Hno. unfold outcome, writeFileSync, hasRoot in *.
  destruct (fs w) as [files|] eqn:Hfs; simpl; [by apply Hyes|by apply Hno].
Qed.

Lemma outcome_setProjectRootPath p w (Q : Result unit → World → Prop) :
  Q (Returned tt)
    {| componentList := componentList w; projectRootPath := p;
       fs := fs w; log := log w |} →
  outcome (setProjectRootPath p) w Q.
Proof. done. Qed.

Lemma outcome_directoryExists p w (Q : Result bool → World → Prop) :
  (∀ b, Q (Returned b) w) → outcome (directoryExists p) w Q.
Proof. intros H. apply H. Qed.

Lemma outcome_fileExists p w (Q : Result bool → World → Prop) :
  (∀ b, Q (Returned b) w) → outcome (fileExists p) w Q.
Proof. intros H. apply H. Qed.

Lemma outcome_mkdirRecursively p w (Q : Result unit → World → Prop) :
  Q (Returned tt) (noted (EvMkdir p) (putFile p Directory w)) →
  outcome (mkdirRecursively p) w Q.
Proof. done. Qed.

Lemma outcome_writeFile p f w (Q : Result unit → World → Prop) :
  Q (Returned tt) (logged E (EvWriteFile p f) w) →
  outcome (writeFile E p f) w Q.
Proof. done. Qed.

Lemma outcome_requireJson p w
    (Q : Result (gmap ConfigKey.t ConfigValue) → World → Prop) :
  (∀ c, Q (Returned c) w) → Q (Thrown cannotRequire) w →
  outcome (requireJson p) w Q.
Proof.
  intros Hyes Hno. unfold outcome, requireJson.
  destruct (fs w) as [files|]; [|done].
  destruct (files !! p) as [[]|]; simpl; auto.
Qed.

Lemma outcome_checkAll items w (Q : Result unit → World → Prop) :
  (∀ w', componentList w' = componentList w →
         (∃ evs, log w' = log w ++ evs
                 ∧ Forall2 (λ c e, ∃ r, e = EvInvoke c CheckPrerequisites r)
                     items evs) →
         Q (Returned tt) w') →
  outcome (checkAll E items) w Q.
Proof.
  intros H. destruct (runsTo_checkAll E items w (λ r w', Q (Returned r) w'))
    as (a & w' & Hrun & HQ).
  - intros w' Hcl Hlog. by apply H.
  - unfold outcome. rewrite Hrun. by destruct a.
Qed.

Lemma outcome_weaken {A} (m : M A) w (Q Q' : Result A → World → Prop) :
  outcome m w Q → (∀ r w1, Q r w1 → Q' r w1) → outcome m w Q'.
Proof. unfold outcome. auto. Qed.
End Outcome.

(** Follow a method to every end it has. *)
Ltac outcomes :=
  repeat (cbn beta iota; cbn [negb];
          lazymatch goal with
          | |- outcome (bind _ _) _ _ => apply outcome_bind
          | |- outcome (catch _ _) _ _ => apply outcome_catch
          | |- outcome (ret _) _ _ => apply outcome_ret
          | |- outcome (throw _) _ _ => apply outcome_throw
          | |- outcome (lift _) _ _ => apply outcome_lift
          | |- outcome (ask _) _ _ => apply outcome_ask
          | |- outcome (push _) _ _ => apply outcome_push
          | |- outcome (emit _) _ _ => apply outcome_emit
          | |- outcome getComponentList _ _ => apply outcome_getComponentList
          | |- outcome (call _ _ _) _ _ => apply outcome_call; intros [[|]|?]
          | |- outcome (new _ _ _) _ _ => apply outcome_new; intros ? ? ?
          | |- outcome (createStore _ _) _ _ =>
              apply outcome_createStore; intros [[]|?]
          | |- outcome (updateSettings _ _ _) _ _ =>
              apply outcome_updateSettings; intros [[]|?]
          | |- outcome (trySendEvent _ _) _ _ =>
              apply outcome_trySendEvent; intros ?
          | |- outcome (remoteExtensionAvailable _) _ _ =>
              apply outcome_remoteExtensionAvailable; intros [[|]|?]
          | |- outcome (existsSync _) _ _ => apply outcome_existsSync; intros [|]
          | |- outcome (directoryExists _) _ _ =>
              apply outcome_directoryExists; intros [|]
          | |- outcome (fileExists _) _ _ =>
              apply outcome_fileExists; intros [|]
          | |- outcome (mkdirRecursively _) _ _ => apply outcome_mkdirRecursively
          | |- outcome (writeFile _ _ _) _ _ => apply outcome_writeFile
          | |- outcome (requireJson _) _ _ =>
              apply outcome_requireJson; [intros ?|]
          | |- outcome (loadComponent _ _ _) _ _ => unfold loadComponent
          | |- outcome (checkAll _ _) _ _ =>
              apply outcome_checkAll; intros ? ? (? & ? & ?)
          | |- outcome (mkdirSync _) _ _ => apply outcome_mkdirSync; intros ?
          | |- outcome (writeFileSync _ _) _ _ =>
              apply outcome_writeFileSync; intros ?
          | |- outcome rootExists _ _ => apply outcome_rootExists; intros ?
          | |- outcome (setProjectRootPath _) _ _ =>
              apply outcome_setProjectRootPath
          | |- outcome (if ?b then _ else _) _ _ => destruct b eqn:?
          | |- outcome (match ?x with _ => _ end) _ _ => destruct x eqn:?
          | |- match ?x with Returned _ => _ | Thrown _ => _ end =>
              destruct x eqn:?
          end).

(** The log and the registry of a world that was reached step by step. *)
Ltac worlds :=
  cbn beta iota;
  repeat (autorewrite with world; cbn [log componentList fs projectRootPath]);
  rewrite <- ?app_assoc; cbn [app].

Ltac elem_of_written :=
  repeat first [apply list_elem_of_here | apply list_elem_of_further].

(** ** create: before the components are created *)

Lemma scaffold_outcome E rootFolderPath projectType boardId w :
  outcome (scaffold E rootFolderPath projectType boardId) w
    (λ r w1,
       ∃ evs R,
         log w1 = log w ++ evs
         ∧ componentList w1 = componentList w ++ R
         ∧ (∀ i c a res,
              evs !! i = Some (EvInvoke c a res) → res ≠ Returned true →
              r = match res with
                  | Returned _ => Returned None
                  | Thrown e => Thrown e
                  end
              ∧ length evs = S i)
         ∧ (r = Returned None →
            ∃ c, last evs = Some (EvInvoke c CheckPrerequisites (Returned false)))
         ∧ (∀ c, c ∈ R → checked c ∈ evs ∧ EvNew c ∈ evs)
         ∧ (R = []
            ∨ ∃ device rest,
                R = device :: device :: rest
                ∧ componentClass device = RaspberryPiDevice
                ∧ (rest = [] ∨ componentClass <$> rest = templateClasses projectType))
         ∧ (∀ workspace projectConfig,
              r = Returned (Some (workspace, projectConfig)) →
              (∃ device rest,
                 R = device :: device :: rest
                 ∧ componentClass <$> rest = templateClasses projectType)
              ∧ folders workspace
                = deviceDefaultFolderName :: templateFolders projectType
              ∧ projectConfig !! ConfigKey.boardId = Some (CfgString boardId)
              ∧ projectConfig !! ConfigKey.projectType
                = Some (CfgProjectType projectType))).
Proof.
  unfold scaffold, expandTemplate. outcomes.
  all: worlds.
  all: eexists _, _.
  all: split; [first [reflexivity|symmetry; apply app_nil_r]|].
  all: split; [first [reflexivity|symmetry; apply app_nil_r]|].
  all: split; [intros i c' a' res' Hi Hres; lookup_cases Hi; done|].
  all: split; [intros Hr; simplify_eq; eexists; reflexivity|].
  all: split;
    [intros c' Hc; repeat (apply elem_of_cons in Hc as [->|Hc]);
     try (by apply elem_of_nil in Hc); split; unfold checked; elem_of_written|].
  all: split;
    [first [by left
           |right; eexists _, _; split; [reflexivity|]; split; [done|];
            first [by left|right; simpl; congruence]]|].
  all: intros ws pc Hr; simplify_eq.
  all: split; [eexists _, _; split; [reflexivity|simpl; congruence]
              |repeat split; done].
Qed.

(** ** create: from the scaffold to the descriptor *)

Lemma create_unfold E rootFolderPath projectType boardId openInNewWindow w :
  create E rootFolderPath projectType boardId openInNewWindow w =
    match scaffold E rootFolderPath projectType boardId w with
    | (Returned None, w1) => (Returned false, w1)
    | (Returned (Some (workspace, projectConfig)), w1) =>
        match createComponents E w1 with
        | (Returned true, w2) =>
            persist E rootFolderPath workspace projectConfig openInNewWindow w2
        | (Returned false, w2) => (Returned false, w2)
        | (Thrown e, w2) => (Thrown e, w2)
        end
    | (Thrown e, w1) => (Thrown e, w1)
    end.
Proof.
  unfold create. rewrite bind_run.
  destruct (scaffold _ _ _ _ w) as [[[p|]|e] w1]; try done.
  destruct p as [workspace projectConfig]. rewrite bind_run. by destruct (createComponents E w1) as [[[|]|?] ?].
Qed.

Lemma CreateTrace_not_check items evs r :
  CreateTrace items evs r →
  Forall (λ e, notInvoke CheckPrerequisites e = true) evs.
Proof. induction 1; repeat constructor; done. Qed.

Lemma persist_not_check E rootFolderPath workspace projectConfig openInNewWindow :
  steps (adding (notInvoke CheckPrerequisites))
    (persist E rootFolderPath workspace projectConfig openInNewWindow).
Proof. unfold persist. steps_tac; adding_tac. Qed.

(** What [create] does once the scaffold is there: no prerequisites check,
    and nothing at all when the scaffold did not come about. *)
Lemma create_after_scaffold E rootFolderPath projectType boardId openInNewWindow w :
  ∃ evs,
    log (create E rootFolderPath projectType boardId openInNewWindow w).2
    = log (scaffold E rootFolderPath projectType boardId w).2 ++ evs
    ∧ Forall (λ e, notInvoke CheckPrerequisites e = true) evs
    ∧ match (scaffold E rootFolderPath projectType boardId w).1 with
      | Returned None =>
          evs = []
          ∧ (create E rootFolderPath projectType boardId openInNewWindow w).1
            = Returned false
      | Returned (Some _) => True
      | Thrown e =>
          evs = []
          ∧ (create E rootFolderPath projectType boardId openInNewWindow w).1
            = Thrown e
      end.
Proof.
  rewrite create_unfold.
  destruct (scaffold _ _ _ _ w) as [[[[workspace projectConfig] | ] | e] w1]; simpl.
  2-3: exists []; by rewrite app_nil_r.
  destruct (createComponents_trace E w1) as (evs1 & r1 & Hlog1 & _ & Htr & Hres & _).
  apply CreateTrace_not_check in Htr.
  destruct (createComponents E w1) as [res w2]. simpl in *.
  destruct res as [[|]|e]; try (by exists evs1).
  destruct (persist _ _ _ _ _ w2) as [r3 w3] eqn:Hrun.
  apply persist_not_check in Hrun as (evs3 & Hlog3 & Hq3). simpl.
  exists (evs1 ++ evs3). rewrite Hlog3, Hlog1, app_assoc. split; [done|].
  split; [by apply Forall_app|done].
Qed.

(** X10.  When a prerequisites check made by [create] answers [false],
    [create] returns [false] and that check is the last thing the run did:
    nothing is created, written or removed after it. *)
Theorem create_failed_prerequisites (E : Env) (rootFolderPath : string)
    (projectType : ProjectTemplateType.t) (boardId : string)
    (openInNewWindow : bool) (w : World) :
  ∀ i c,
    newEvents w (create E rootFolderPath projectType boardId openInNewWindow w).2 !! i
    = Some (EvInvoke c CheckPrerequisites (Returned false)) →
    (create E rootFolderPath projectType boardId openInNewWindow w).1
    = Returned false
    ∧ length
        (newEvents w
           (create E rootFolderPath projectType boardId openInNewWindow w).2)
      = S i.
Proof.
  intros i c Hi.
  destruct (create_after_scaffold E rootFolderPath projectType boardId
              openInNewWindow w) as (evs' & Hlog' & Hquiet & Hres).
  destruct (scaffold_outcome E rootFolderPath projectType boardId w)
    as (evs & R & Hlog & _ & Hfinal & _).
  rewrite Hlog, <- app_assoc in Hlog'.
  rewrite (newEvents_app _ _ _ Hlog') in *.
  apply lookup_app_Some in Hi as [Hi|[_ Hi]].
  - destruct (Hfinal _ _ _ _ Hi ltac:(done)) as [Hnone Hlen].
    rewrite Hnone in Hres. destruct Hres as [-> ->].
    by rewrite app_nil_r.
  - rewrite Forall_lookup in Hquiet. apply Hquiet in Hi.
    by vm_compute in Hi.
Qed.

Lemma create_failed_prerequisites_witness :
  (create
     (Sample.env nothingInstalled Sample.noConfig None (Returned true) None None true)
     "/home/project" ProjectTemplateType.StreamAnalytics "raspberrypi" false
     Sample.emptyFolder).1
  = Returned false
  ∧ length
      (newEvents Sample.emptyFolder
         (create
            (Sample.env nothingInstalled Sample.noConfig None (Returned true)
               None None true)
            "/home/project" ProjectTemplateType.StreamAnalytics "raspberrypi"
            false Sample.emptyFolder).2)
    = 4.
Proof.
  refine (create_failed_prerequisites _ _ _ _ _ _ 3
            (mkComponent RaspberryPiDevice "new RaspberryPi Device"
               "RaspberryPi Device" []) _).
  vm_compute. reflexivity.
Defined.

(** X11.  Every component [create] pushes onto the registry was
    constructed in this run and passed its prerequisites check, with the
    answer [true], in this run. *)
Theorem create_pushes_checked (E : Env) (rootFolderPath : string)
    (projectType : ProjectTemplateType.t) (boardId : string)
    (openInNewWindow : bool) (w : World) :
  ∃ R,
    componentList
      (create E rootFolderPath projectType boardId openInNewWindow w).2
    = componentList w ++ R
    ∧ ∀ c, c ∈ R →
        checked c
          ∈ newEvents w
              (create E rootFolderPath projectType boardId openInNewWindow w).2
        ∧ EvNew c
            ∈ newEvents w
                (create E rootFolderPath projectType boardId openInNewWindow w).2.
Proof.
  destruct (create_after_scaffold E rootFolderPath projectType boardId
              openInNewWindow w) as (evs' & Hlog' & _ & _).
  destruct (scaffold_outcome E rootFolderPath projectType boardId w)
    as (evs & R & Hlog & Hcl & _ & _ & Hchecked & _).
  rewrite Hlog, <- app_assoc in Hlog'.
  rewrite (newEvents_app _ _ _ Hlog'), create_registry, Hcl.
  exists R. split; [done|]. intros c Hc.
  destruct (Hchecked _ Hc). rewrite !elem_of_app. tauto.
Qed.


Ltac suffix_written := repeat first [reflexivity | apply suffix_cons_r].

(** Facts about a list that is written out. *)
Ltac listed :=
  lazymatch goal with
  | |- _ `suffix_of` _ => suffix_written
  | |- _ ∈ _ => elem_of_written
  | |- _ => reflexivity
  end.

Lemma persist_outcome E rootFolderPath workspace projectConfig openInNewWindow w :
  outcome (persist E rootFolderPath workspace projectConfig openInNewWindow) w
    (λ r w1,
       ∃ evs,
         log w1 = log w ++ evs
         ∧ (r = Returned false →
            [EvCheckRemoteExtension (Returned false); EvChannelShow;
             EvChannelAppendLine (remoteMissing E)] `suffix_of` evs
            ∧ EvWriteFile [basename E rootFolderPath +:+ workspaceConfigExtension]
                (WorkspaceFile workspace) ∈ evs)
         ∧ (r = Returned true →
            last evs = Some (EvSetTimeout openInContainer 500)
            ∧ EvWriteFile [basename E rootFolderPath +:+ workspaceConfigExtension]
                (WorkspaceFile workspace) ∈ evs)
         ∧ (∀ e, r = Thrown e →
              (evs = [] ∧ e = enoent)
              ∨ last evs = Some (EvCheckRemoteExtension (Thrown e)))).
Proof.
  unfold persist, remoteMissing. outcomes.
  all: worlds.
  all: eexists.
  all: split; [first [reflexivity|symmetry; apply app_nil_r]|].
  all: split; [intros Hr; simplify_eq; split; listed|].
  all: split; [intros Hr; simplify_eq; split; listed|].
  all: intros e' Hr; simplify_eq; first [by left|by right].
Qed.

Lemma besidesCreation_not_create evs :
  Forall (λ e, besidesCreation e = true) evs → invoked Create evs = [].
Proof.
  intros H. apply invoked_nil_Forall. eapply Forall_impl; [exact H|].
  intros [] He; try done. by destruct a.
Qed.

Lemma besidesCreation_not_removed evs :
  Forall (λ e, besidesCreation e = true) evs → EvRemoveSync ∉ evs.
Proof. rewrite Forall_forall. intros H Hin. by apply H in Hin. Qed.

Lemma created_invoked items :
  invoked Create (created items (length items)) = items.
Proof.
  unfold created. rewrite firstn_all.
  induction items as [|item rest IH]; [done|].
  rewrite fmap_cons.
  change (invoked Create
            ([EvInvoke item Create (Returned true)]
               ++ ((λ c, EvInvoke c Create (Returned true)) <$> rest))
          = item :: rest).
  by rewrite invoked_app, IH.
Qed.

Lemma created_not_removed items k : EvRemoveSync ∉ created items k.
Proof.
  intros Hin. pose proof (created_all_true items k) as H.
  rewrite Forall_forall in H. by destruct (H _ Hin).
Qed.

(** A run of [create], cut where the scaffold, the creation of the
    components and the writing of the descriptor meet. *)
Lemma create_parts E rootFolderPath projectType boardId openInNewWindow w :
  ∃ evsS evsC evsP R,
    log (create E rootFolderPath projectType boardId openInNewWindow w).2
    = log w ++ evsS ++ evsC ++ evsP
    ∧ componentList (create E rootFolderPath projectType boardId openInNewWindow w).2
      = componentList w ++ R
    ∧ Forall (λ e, besidesCreation e = true) evsS
    ∧ Forall (λ e, besidesCreation e = true) evsP
    ∧ ((create E rootFolderPath projectType boardId openInNewWindow w).1
       = Returned false →
       (evsC = [] ∧ evsP = []
        ∧ ∃ c, last evsS = Some (EvInvoke c CheckPrerequisites (Returned false)))
       ∨ (evsP = []
          ∧ fs (create E rootFolderPath projectType boardId openInNewWindow w).2
            = None
          ∧ ∃ k c,
              evsC = created (componentList w ++ R) k
                       ++ [EvInvoke c Create (Returned false); EvRemoveSync;
                           EvShowWarningMessage "Project initialize canceled."])
       ∨ (evsC = created (componentList w ++ R) (length (componentList w ++ R))
          ∧ [EvCheckRemoteExtension (Returned false); EvChannelShow;
             EvChannelAppendLine (remoteMissing E)] `suffix_of` evsP))
    ∧ ((create E rootFolderPath projectType boardId openInNewWindow w).1
       = Returned true →
       evsC = created (componentList w ++ R) (length (componentList w ++ R))
       ∧ last evsP = Some (EvSetTimeout openInContainer 500)
       ∧ (∃ device rest,
            R = device :: device :: rest
            ∧ componentClass device = RaspberryPiDevice
            ∧ componentClass <$> rest = templateClasses projectType)
       ∧ ∃ workspace,
           EvWriteFile [basename E rootFolderPath +:+ workspaceConfigExtension]
             (WorkspaceFile workspace) ∈ evsP
           ∧ folders workspace
             = deviceDefaultFolderName :: templateFolders projectType).
Proof.
  rewrite create_unfold.
  pose proof (scaffold_outcome E rootFolderPath projectType boardId w) as Hs.
  pose proof (scaffold_adding E rootFolderPath projectType boardId w) as Ha.
  unfold outcome in Hs.
  destruct (scaffold _ _ _ _ w) as [r1 w1] eqn:H1. simpl in Hs.
  destruct Hs as (evsS & R & HlogS & HclS & _ & Hnone & _ & Hshape & Hsome).
  destruct (Ha _ _ eq_refl) as (evsS' & HlogS' & HquietS).
  rewrite HlogS in HlogS'. apply app_inv_head in HlogS'. subst evsS'.
  destruct r1 as [[[workspace projectConfig]|]|e].
  2:{ exists evsS, [], [], R. rewrite !app_nil_r. simpl.
      repeat split; try done. intros _. left. repeat split. by apply Hnone. }
  2:{ exists evsS, [], [], R. rewrite !app_nil_r. simpl. repeat split; done. }
  destruct (Hsome _ _ eq_refl) as ((device & rest & HR & Hrest) & Hfolders & _).
  assert (componentClass device = RaspberryPiDevice) as Hdevice.
  { destruct Hshape as [->|(d & rest' & HR' & Hd & _)]; [done|].
    rewrite HR in HR'. by simplify_eq. }
  destruct (createComponents_trace E w1)
    as (evsC & r2 & HlogC & HclC & Htr & Hres & Hfs).
  destruct (createComponents E w1) as [res w2]. simpl in *.
  destruct (CreateTrace_shape _ _ _ Htr) as (k & Hshape2).
  rewrite HclS in Hshape2.
  destruct r2 as [[b|]|e]; simplify_eq.
  - destruct Hshape2 as (-> & c & Hk & ->). simpl.
    exists evsS, (created (componentList w ++ device :: device :: rest) k
                    ++ [EvInvoke c Create (Returned false); EvRemoveSync;
                        EvShowWarningMessage "Project initialize canceled."]),
      [], (device :: device :: rest).
    rewrite HlogC, HlogS, HclC, HclS, !app_nil_r, <- !app_assoc. simpl.
    repeat split; try done. intros _. right. left.
    repeat split; [by apply Hfs|by exists k, c].
  - destruct Hshape2 as [-> ->].
    pose proof (persist_outcome E rootFolderPath workspace projectConfig
                  openInNewWindow w2) as Hp.
    pose proof (persist_adding E rootFolderPath workspace projectConfig
                  openInNewWindow w2) as Hq.
    pose proof (persist_sameRegistry E rootFolderPath workspace projectConfig
                  openInNewWindow w2) as Hr.
    unfold outcome in Hp.
    destruct (persist _ _ _ _ _ w2) as [r3 w3]. simpl in *.
    destruct Hp as (evsP & HlogP & Hfalse & Htrue & _).
    destruct (Hq _ _ eq_refl) as (evsP' & HlogP' & HquietP).
    rewrite HlogP in HlogP'. apply app_inv_head in HlogP'. subst evsP'.
    specialize (Hr _ _ eq_refl). unfold sameRegistry in Hr.
    exists evsS,
      (created (componentList w ++ device :: device :: rest)
         (length (componentList w ++ device :: device :: rest))),
      evsP, (device :: device :: rest).
    rewrite HlogP, HlogC, HlogS, Hr, HclC, HclS, <- !app_assoc.
    repeat split; try done.
    + intros Hres. right. right. split; [done|]. by apply Hfalse.
    + by apply Htrue.
    + by exists device, rest.
    + exists workspace. split; [by apply Htrue|done].
  - destruct Hshape2 as (c & Hk & ->). simpl.
    exists evsS, (created (componentList w ++ device :: device :: rest) k
                    ++ [EvInvoke c Create (Thrown e)]),
      [], (device :: device :: rest).
    rewrite HlogC, HlogS, HclC, HclS, !app_nil_r, <- !app_assoc.
    repeat split; done.
Qed.


(** X12.  The components [create] leaves in the registry, by template:
    nothing; or the RaspberryPi device, the same component twice (it is
    pushed at lines 536 and 543), followed by nothing or by the components
    of the template (none for Basic; an IoTHub; an IoTHub and an
    AzureFunctions; an IoTHub, a CosmosDB and a StreamAnalyticsJob).  When
    [create] returns [true] the registry gained the device twice and all the
    components of the template. *)
Theorem create_registry_by_template (E : Env) (rootFolderPath : string)
    (projectType : ProjectTemplateType.t) (boardId : string)
    (openInNewWindow : bool) (w : World) :
  ∃ R,
    componentList
      (create E rootFolderPath projectType boardId openInNewWindow w).2
    = componentList w ++ R
    ∧ (R = []
       ∨ ∃ device rest,
           R = device :: device :: rest
           ∧ componentClass device = RaspberryPiDevice
           ∧ (rest = [] ∨ componentClass <$> rest = templateClasses projectType))
    ∧ ((create E rootFolderPath projectType boardId openInNewWindow w).1
       = Returned true →
       ∃ device rest,
         R = device :: device :: rest
         ∧ componentClass device = RaspberryPiDevice
         ∧ componentClass <$> rest = templateClasses projectType).
Proof.
  destruct (scaffold_outcome E rootFolderPath projectType boardId w)
    as (evs & R & _ & Hcl & _ & _ & _ & Hshape & _).
  destruct (create_parts E rootFolderPath projectType boardId openInNewWindow w)
    as (evsS & evsC & evsP & R' & _ & Hcl' & _ & _ & _ & Htrue).
  rewrite <- create_registry with (openInNewWindow := openInNewWindow) in Hcl.
  rewrite Hcl in Hcl'. apply app_inv_head in Hcl'. subst R'.
  exists R. repeat split; [done|done|].
  intros Hres. by destruct (Htrue Hres) as (_ & _ & ? & _).
Qed.

Lemma create_registry_by_template_witness :
  ∃ R device rest,
    componentList
      (create
         (Sample.env Sample.allFine Sample.noConfig None (Returned true)
            None None true)
         "/home/project" ProjectTemplateType.AzureFunctions "raspberrypi"
         false Sample.emptyFolder).2
    = R
    ∧ R = device :: device :: rest
    ∧ componentClass device = RaspberryPiDevice
    ∧ componentClass <$> rest = [IoTHub; AzureFunctions].
Proof.
  destruct (create_registry_by_template
              (Sample.env Sample.allFine Sample.noConfig None (Returned true)
                 None None true)
              "/home/project" ProjectTemplateType.AzureFunctions "raspberrypi"
              false Sample.emptyFolder) as (R & Hcl & _ & Htrue).
  destruct Htrue as (device & rest & HR & Hdevice & Hrest).
  - vm_compute. reflexivity.
  - exists R, device, rest. repeat split; assumption.
Defined.

(** X13.  [create] returns [false] in three ways only.  A prerequisites
    check answered [false] and was the last thing done.  Or a component's
    [create()] answered [false]: the run ends with that answer, the removal
    of the project root and the warning, and the root is gone.  Or the
    remote extension is missing: the run ends with the check that answered
    [false] and the message on the output channel; nothing is removed,
    although by then every component was created and the descriptor
    written. *)
Theorem create_returns_false (E : Env) (rootFolderPath : string)
    (projectType : ProjectTemplateType.t) (boardId : string)
    (openInNewWindow : bool) (w : World) :
  (create E rootFolderPath projectType boardId openInNewWindow w).1
  = Returned false →
  (∃ c,
     last (newEvents w
             (create E rootFolderPath projectType boardId openInNewWindow w).2)
     = Some (EvInvoke c CheckPrerequisites (Returned false)))
  ∨ (∃ c,
       [EvInvoke c Create (Returned false); EvRemoveSync;
        EvShowWarningMessage "Project initialize canceled."]
         `suffix_of`
         newEvents w
           (create E rootFolderPath projectType boardId openInNewWindow w).2
       ∧ fs (create E rootFolderPath projectType boardId openInNewWindow w).2
         = None)
  ∨ ([EvCheckRemoteExtension (Returned false); EvChannelShow;
      EvChannelAppendLine (remoteMissing E)]
       `suffix_of`
       newEvents w
         (create E rootFolderPath projectType boardId openInNewWindow w).2
     ∧ invoked Create
         (newEvents w
            (create E rootFolderPath projectType boardId openInNewWindow w).2)
       = componentList
           (create E rootFolderPath projectType boardId openInNewWindow w).2
     ∧ (EvRemoveSync
          ∉ newEvents w
              (create E rootFolderPath projectType boardId openInNewWindow w).2)).
Proof.
  intros Hres.
  destruct (create_parts E rootFolderPath projectType boardId openInNewWindow w)
    as (evsS & evsC & evsP & R & Hlog & Hcl & HquietS & HquietP & Hfalse & _).
  rewrite (newEvents_app _ _ _ Hlog), Hcl.
  destruct (Hfalse Hres)
    as [(-> & -> & c & Hlast)|[(-> & Hfs & k & c & ->)|[-> Hsuffix]]].
  - left. exists c. by rewrite !app_nil_r.
  - right. left. exists c. split; [|done]. rewrite app_nil_r.
    apply suffix_app_r, suffix_app_r. done.
  - right. right. split; [by do 2 apply suffix_app_r|]. split.
    + rewrite !invoked_app, created_invoked.
      rewrite (besidesCreation_not_create _ HquietS).
      rewrite (besidesCreation_not_create _ HquietP).
      by rewrite app_nil_r.
    + rewrite !elem_of_app. intros [Hin|[Hin|Hin]].
      * by apply besidesCreation_not_removed in HquietS.
      * by apply created_not_removed in Hin.
      * by apply besidesCreation_not_removed in HquietP.
Qed.

Lemma create_returns_false_witness :
  (∃ c,
     last (newEvents Sample.emptyFolder
             (create (withoutRemoteExtension fine) "/home/project"
                ProjectTemplateType.Basic "raspberrypi" false
                Sample.emptyFolder).2)
     = Some (EvInvoke c CheckPrerequisites (Returned false)))
  ∨ (∃ c,
       [EvInvoke c Create (Returned false); EvRemoveSync;
        EvShowWarningMessage "Project initialize canceled."]
         `suffix_of`
         newEvents Sample.emptyFolder
           (create (withoutRemoteExtension fine) "/home/project"
              ProjectTemplateType.Basic "raspberrypi" false
              Sample.emptyFolder).2
       ∧ fs (create (withoutRemoteExtension fine) "/home/project"
               ProjectTemplateType.Basic "raspberrypi" false
               Sample.emptyFolder).2
         = None)
  ∨ ([EvCheckRemoteExtension (Returned false); EvChannelShow;
      EvChannelAppendLine (remoteMissing (withoutRemoteExtension fine))]
       `suffix_of`
       newEvents Sample.emptyFolder
         (create (withoutRemoteExtension fine) "/home/project"
            ProjectTemplateType.Basic "raspberrypi" false
            Sample.emptyFolder).2
     ∧ invoked Create
         (newEvents Sample.emptyFolder
            (create (withoutRemoteExtension fine) "/home/project"
               ProjectTemplateType.Basic "raspberrypi" false
               Sample.emptyFolder).2)
       = componentList
           (create (withoutRemoteExtension fine) "/home/project"
              ProjectTemplateType.Basic "raspberrypi" false
              Sample.emptyFolder).2
     ∧ (EvRemoveSync
          ∉ newEvents Sample.emptyFolder
              (create (withoutRemoteExtension fine) "/home/project"
                 ProjectTemplateType.Basic "raspberrypi" false
                 Sample.emptyFolder).2)).
Proof.
  apply create_returns_false. vm_compute. reflexivity.
Defined.

(** X14.  [create] returns [true] only after the [create()] of every
    component of the registry was called, in registry order, each answering
    [true] (the device, pushed twice, is created twice); the workspace file
    was written, listing the Device folder and the folder of the template;
    nothing was removed; and the last thing done was to set the timer
    (500 ms) for the command that opens the project in its container: that
    command has not run when [create] returns. *)
Theorem create_returns_true (E : Env) (rootFolderPath : string)
    (projectType : ProjectTemplateType.t) (boardId : string)
    (openInNewWindow : bool) (w : World) :
  (create E rootFolderPath projectType boardId openInNewWindow w).1
  = Returned true →
  invoked Create
    (newEvents w
       (create E rootFolderPath projectType boardId openInNewWindow w).2)
  = componentList
      (create E rootFolderPath projectType boardId openInNewWindow w).2
  ∧ Forall (λ e, ∀ c res, e = EvInvoke c Create res → res = Returned true)
      (newEvents w
         (create E rootFolderPath projectType boardId openInNewWindow w).2)
  ∧ (∃ workspace,
       EvWriteFile [basename E rootFolderPath +:+ workspaceConfigExtension]
         (WorkspaceFile workspace)
         ∈ newEvents w
             (create E rootFolderPath projectType boardId openInNewWindow w).2
       ∧ folders workspace = deviceDefaultFolderName :: templateFolders projectType)
  ∧ (EvRemoveSync
       ∉ newEvents w
           (create E rootFolderPath projectType boardId openInNewWindow w).2)
  ∧ last (newEvents w
            (create E rootFolderPath projectType boardId openInNewWindow w).2)
    = Some (EvSetTimeout openInContainer 500).
Proof.
  intros Hres.
  destruct (create_parts E rootFolderPath projectType boardId openInNewWindow w)
    as (evsS & evsC & evsP & R & Hlog & Hcl & HquietS & HquietP & _ & Htrue).
  rewrite (newEvents_app _ _ _ Hlog), Hcl.
  destruct (Htrue Hres) as (-> & Hlast & _ & workspace & Hwritten & Hfolders).
  split; [|split; [|split; [|split]]].
  - rewrite !invoked_app, created_invoked.
    rewrite (besidesCreation_not_create _ HquietS).
    rewrite (besidesCreation_not_create _ HquietP).
    by rewrite app_nil_r.
  - rewrite !Forall_app. split; [|split].
    + eapply Forall_impl; [exact HquietS|]. intros e He c res ->.
      by destruct res.
    + eapply Forall_impl; [apply created_all_true|].
      intros e [c' ->] c res Heq. by simplify_eq.
    + eapply Forall_impl; [exact HquietP|]. intros e He c res ->.
      by destruct res.
  - exists workspace. split; [|done]. rewrite !elem_of_app. tauto.
  - rewrite !elem_of_app. intros [Hin|[Hin|Hin]].
    + by apply besidesCreation_not_removed in HquietS.
    + by apply created_not_removed in Hin.
    + by apply besidesCreation_not_removed in HquietP.
  - by rewrite !last_app, Hlast.
Qed.

Lemma create_returns_true_witness :
  componentClass
  <$> invoked Create
        (newEvents Sample.emptyFolder
           (create
              (Sample.env Sample.allFine Sample.noConfig None (Returned true)
                 None None true)
              "/home/project" ProjectTemplateType.IotHub "raspberrypi" true
              Sample.emptyFolder).2)
  = [RaspberryPiDevice; RaspberryPiDevice; IoTHub].
Proof.
  rewrite (proj1 (create_returns_true
                    (Sample.env Sample.allFine Sample.noConfig None
                       (Returned true) None None true)
                    "/home/project" ProjectTemplateType.IotHub "raspberrypi"
                    true Sample.emptyFolder ltac:(vm_compute; reflexivity))).
  vm_compute. reflexivity.
Defined.


Lemma scaffold_unsupported E rootFolderPath projectType boardId w :
  String.eqb boardId (RaspberryPiDevice_boardId E) = false →
  outcome (scaffold E rootFolderPath projectType boardId) w
    (λ r w1,
       (∃ e, r = Thrown e)
       ∧ componentList w1 = componentList w
       ∧ ∃ evs, log w1 = log w ++ evs ∧ Forall (λ ev, ∀ c, ev ≠ EvNew c) evs).
Proof.
  intros Hboard. unfold scaffold. rewrite Hboard. outcomes.
  all: worlds.
  all: split; [by eexists|split; [done|]].
  all: eexists; split; [first [reflexivity|symmetry; apply app_nil_r]|].
  all: repeat constructor; done.
Qed.

(** X15.  [create] refuses to start in two cases.  When the root folder
    does not exist it throws before doing anything: the world is as it was.
    When the board is any other than the RaspberryPi (the boards [load]
    accepts included) it throws too, with an empty-handed registry: no
    component was constructed or pushed; but by then the component config
    store was asked for and the Device folder made, and they stay. *)
Theorem create_refuses (E : Env) (rootFolderPath : string)
    (projectType : ProjectTemplateType.t) (boardId : string)
    (openInNewWindow : bool) (w : World) :
  (fs w = None →
   create E rootFolderPath projectType boardId openInNewWindow w
   = (Thrown rootNotFound, w))
  ∧ (boardId ≠ RaspberryPiDevice_boardId E →
     (∃ e, (create E rootFolderPath projectType boardId openInNewWindow w).1
           = Thrown e)
     ∧ componentList
         (create E rootFolderPath projectType boardId openInNewWindow w).2
       = componentList w
     ∧ Forall (λ ev, ∀ c, ev ≠ EvNew c)
         (newEvents w
            (create E rootFolderPath projectType boardId openInNewWindow w).2))
  ∧ (boardId ≠ RaspberryPiDevice_boardId E →
     hasRoot w → keepsRoot E →
     createIfNotExists E (log w) ScaffoldType.Local = Returned tt →
     (create E rootFolderPath projectType boardId openInNewWindow w).1
     = Thrown boardNotSupported
     ∧ (existsSync [deviceDefaultFolderName]
          (create E rootFolderPath projectType boardId openInNewWindow w).2).1
       = Returned true
     ∧ EvCreateIfNotExists ScaffoldType.Local (Returned tt)
         ∈ newEvents w
             (create E rootFolderPath projectType boardId openInNewWindow w).2).
Proof.
  split; [|split].
  - intros Hfs. rewrite create_unfold. unfold scaffold, rootExists.
    rewrite bind_run, Hfs. by rewrite bool_decide_eq_false_2 by (by intros [? ?]).
  - intros Hboard. apply String.eqb_neq in Hboard.
    pose proof (scaffold_unsupported E rootFolderPath projectType boardId w Hboard)
      as Hs.
    unfold outcome in Hs. rewrite create_unfold.
    destruct (scaffold _ _ _ _ w) as [r1 w1]. simpl in Hs.
    destruct Hs as ((e & ->) & Hcl & evs & Hlog & Hnew). simpl.
    rewrite (newEvents_app _ _ _ Hlog). eauto.
  - intros Hboard Hroot Hkeeps Hstore. apply String.eqb_neq in Hboard.
    destruct (create E rootFolderPath projectType boardId openInNewWindow w)
      as [r' w'] eqn:Hrun.
    cbn [fst snd].
    rewrite create_unfold in Hrun. unfold scaffold in Hrun.
    rewrite Hboard in Hrun.
    rewrite bind_run, (rootExists_run w Hroot) in Hrun.
    cbn beta iota in Hrun. cbn [negb] in Hrun.
    rewrite bind_run in Hrun. unfold setProjectRootPath at 1 in Hrun.
    cbn beta iota in Hrun.
    rewrite bind_run, createStore_run in Hrun. cbn [log] in Hrun.
    rewrite Hstore in Hrun. cbn beta iota in Hrun. rewrite bind_run in Hrun.
    match type of Hrun with
    | context [existsSync ?p ?w0] =>
        assert (hasRoot w0) as Hroot0
          by (apply hasRoot_logged; [done|exact Hroot]);
        destruct (existsSync p w0) as [r2 w2] eqn:Hexists;
        assert (w2 = w0 ∧ ∃ b, r2 = Returned b) as [-> [b ->]]
          by (unfold existsSync in Hexists; simplify_eq; eauto)
    end.
    cbn beta iota in Hrun. destruct b; cbn [negb] in Hrun.
    + rewrite bind_run in Hrun. unfold ret at 1 in Hrun.
      cbn beta iota in Hrun. unfold throw in Hrun. simplify_eq.
      split; [done|]. split; [by rewrite Hexists|].
      rewrite (newEvents_app _ _ [EvCreateIfNotExists ScaffoldType.Local (Returned ())])
        by (worlds; reflexivity).
      apply list_elem_of_here.
    + rewrite bind_run, mkdirSync_run in Hrun by done. cbn beta iota in Hrun.
      unfold throw in Hrun. simplify_eq.
      split; [done|]. split.
      2:{ rewrite (newEvents_app _ _
                     [EvCreateIfNotExists ScaffoldType.Local (Returned ());
                      EvMkdir [deviceDefaultFolderName]])
            by (worlds; reflexivity).
          apply list_elem_of_here. }
      unfold existsSync. autorewrite with world.
      unfold putFile. cbn [fs]. destruct Hroot0 as [files ->].
      by rewrite lookup_insert_eq, bool_decide_eq_true_2.
Qed.

Lemma create_refuses_witness :
  (create fine "/home/project" ProjectTemplateType.Basic "devkit" false
     Sample.emptyFolder).1
  = Thrown boardNotSupported
  ∧ (existsSync [deviceDefaultFolderName]
       (create fine "/home/project" ProjectTemplateType.Basic "devkit" false
          Sample.emptyFolder).2).1
    = Returned true.
Proof.
  destruct (proj2 (proj2 (create_refuses fine "/home/project"
                            ProjectTemplateType.Basic "devkit" false
                            Sample.emptyFolder)))
    as (Hthrown & Hdevice & _).
  - vm_compute. discriminate.
  - by eexists.
  - intros l e files Hfiles. exact Hfiles.
  - reflexivity.
  - split; [exact Hthrown|exact Hdevice].
Defined.


(** ** create: writing the descriptor *)

Lemma sameDisk_refl w : sameDisk w w.
Proof. done. Qed.

Lemma sameDisk_trans w1 w2 w3 : sameDisk w1 w2 → sameDisk w2 w3 → sameDisk w1 w3.
Proof. unfold sameDisk. congruence. Qed.

Lemma sameDisk_logged E e w : leavesDisk E → sameDisk w (logged E e w).
Proof. intros Hquiet. apply Hquiet. Qed.

Lemma fs_putFile p f w files :
  fs w = Some files → fs (putFile p f w) = Some (<[p := f]> files).
Proof. intros Hfs. unfold putFile. cbn [fs]. by rewrite Hfs. Qed.

Lemma mkdirIfMissing_run p w files :
  fs w = Some files →
  files !! p = None ∨ files !! p = Some Directory →
  ∃ w' made,
    (if negb match files !! p with Some Directory => true | _ => false end
     then mkdirRecursively p else ret tt) w
    = (Returned tt, w')
    ∧ log w' = log w ++ made
    ∧ (made = [EvMkdir p] ∧ files !! p = None
       ∨ made = [] ∧ files !! p = Some Directory)
    ∧ fs w' = Some (<[p := Directory]> files).
Proof.
  intros Hfs [Hnone|Hdir].
  - rewrite Hnone. cbn [negb]. eexists _, _. split; [reflexivity|].
    autorewrite with world. split; [reflexivity|]. split; [by left|].
    by apply fs_putFile.
  - rewrite Hdir. cbn [negb]. exists w, []. split; [done|].
    rewrite app_nil_r. split; [done|]. split; [by right|].
    by rewrite insert_id.
Qed.

Lemma writeIfMissing_run E p f w files :
  fs w = Some files →
  ∃ w' asked,
    (if negb match files !! p with
             | Some Directory | None => false
             | Some _ => true
             end
     then writeFile E p f else ret tt) w
    = (Returned tt, w')
    ∧ log w' = log w ++ asked
    ∧ (asked = [EvWriteFile p f]
       ∧ (files !! p = None ∨ files !! p = Some Directory)
       ∨ asked = [] ∧ ∃ existing, files !! p = Some existing ∧ existing ≠ Directory).
Proof.
  intros Hfs. destruct (files !! p) as [[]|] eqn:Hcfg; cbn [negb].
  2-4: exists w, []; split; [done|]; rewrite app_nil_r; split; [done|];
    right; split; [done|]; by eexists.
  all: eexists _, _; split; [reflexivity|]; autorewrite with world;
    split; [reflexivity|]; left; split; [done|]; auto.
Qed.

Lemma besidesFiles_written evs :
  Forall (λ e, besidesFiles e = true) evs →
  (∀ p f, EvWriteFile p f ∉ evs) ∧ (∀ p, EvMkdir p ∉ evs).
Proof.
  intros Hall. rewrite Forall_forall in Hall.
  split; [intros p f Hin|intros p Hin]; by apply Hall in Hin.
Qed.

(** What follows the two writes of the descriptor writes no file. *)
Lemma persist_rest_besidesFiles E (openInNewWindow : bool) :
  steps (adding besidesFiles)
    ((if negb openInNewWindow
      then trySendEvent E EventNames.createNewProjectEvent
      else ret tt) ;;;
     catch
       (remote <- ask (isRemote E) ;;
        available <- (if negb remote then remoteExtensionAvailable E
                      else ret true) ;;
        if negb available then
          emit EvChannelShow ;;;
          emit (EvChannelAppendLine
                  ("Remote extension is not available. Please install "
                     +:+ DependentExtensions_remote E +:+ " first.")) ;;;
          ret false
        else
          emit (EvSetTimeout openInContainer 500) ;;;
          ret true)
       (fun error => throw error)).
Proof.
  pose proof (adding_refl besidesFiles) as Hrefl.
  pose proof (adding_trans besidesFiles) as Htrans.
  steps_tac; adding_tac.
Qed.

(** X16.  The part of [create] that writes the descriptor (lines 683-748),
    on a root that exists, has no directory where the workspace file goes
    and no plain file where the settings folder goes.  The first thing
    done is to write the workspace file, with the workspace just built,
    whatever was there before.  The settings folder is made exactly when
    it is missing.  And [projectConfig.json]: when no entry of that name
    exists the write of the new project config is asked for; when a file of
    that name exists no write to it is asked for, so the existing one is
    never overwritten.  No other file is written, however the run ends. *)
Theorem persist_descriptor (E : Env) (rootFolderPath : string)
    (workspace : Workspace) (projectConfig : gmap ConfigKey.t ConfigValue)
    (openInNewWindow : bool) (w : World) (files : gmap Path File) :
  fs w = Some files →
  files !! [basename E rootFolderPath +:+ workspaceConfigExtension]
  ≠ Some Directory →
  files !! [vscodeSettingsFolderName E] = None
  ∨ files !! [vscodeSettingsFolderName E] = Some Directory →
  vscodeSettingsFolderName E
  ≠ basename E rootFolderPath +:+ workspaceConfigExtension →
  ∃ evs,
    newEvents w
      (persist E rootFolderPath workspace projectConfig openInNewWindow w).2
    = EvWriteFile [basename E rootFolderPath +:+ workspaceConfigExtension]
        (WorkspaceFile workspace) :: evs
    ∧ (EvMkdir [vscodeSettingsFolderName E] ∈ evs
       ↔ files !! [vscodeSettingsFolderName E] = None)
    ∧ (files !! [vscodeSettingsFolderName E; projectConfigFileName] = None →
       EvWriteFile [vscodeSettingsFolderName E; projectConfigFileName]
         (ProjectConfigFile projectConfig) ∈ evs)
    ∧ (∀ existing,
         files !! [vscodeSettingsFolderName E; projectConfigFileName]
         = Some existing →
         existing ≠ Directory →
         ∀ p f, EvWriteFile p f ∉ evs)
    ∧ (∀ p f,
         EvWriteFile p f ∈ evs →
         p = [vscodeSettingsFolderName E; projectConfigFileName]
         ∧ f = ProjectConfigFile projectConfig).
Proof.
  intros Hfs _ Hfolder Hne.
  assert (Hne' : [vscodeSettingsFolderName E]
                 ≠ [basename E rootFolderPath +:+ workspaceConfigExtension])
    by congruence.
  destruct (persist E rootFolderPath workspace projectConfig openInNewWindow w)
    as [r' w'] eqn:Hrun.
  cbn [snd]. unfold persist in Hrun.
  rewrite bind_run, writeFileSync_run in Hrun by (by eexists).
  cbn beta iota in Hrun. rewrite bind_run in Hrun.
  match type of Hrun with
  | context [directoryExists _ ?w0] =>
      assert (fs w0
              = Some (<[[basename E rootFolderPath +:+ workspaceConfigExtension]
                        := WorkspaceFile workspace]> files)) as Hfs1
        by (autorewrite with world; by apply fs_putFile);
      assert (log w0
              = log w
                ++ [EvWriteFile
                      [basename E rootFolderPath +:+ workspaceConfigExtension]
                      (WorkspaceFile workspace)]) as Hlog1
        by (by autorewrite with world);
      generalize dependent w0; intros w1 Hrun Hfs1 Hlog1
  end.
  unfold directoryExists at 1 in Hrun.
  rewrite Hfs1 in Hrun. cbn beta iota in Hrun. rewrite bind_run in Hrun.
  destruct (mkdirIfMissing_run [vscodeSettingsFolderName E] w1 _ Hfs1)
    as (w2 & made & Hrun2 & Hlog2 & Hmade & Hfs2).
  { by rewrite lookup_insert_ne by done. }
  rewrite lookup_insert_ne in Hmade by done.
  rewrite Hrun2 in Hrun. cbn beta iota in Hrun.
  rewrite bind_run in Hrun. unfold fileExists at 1 in Hrun.
  rewrite Hfs2 in Hrun. cbn beta iota in Hrun. rewrite bind_run in Hrun.
  destruct (writeIfMissing_run E
              [vscodeSettingsFolderName E; projectConfigFileName]
              (ProjectConfigFile projectConfig) w2 _ Hfs2)
    as (w3 & asked & Hrun3 & Hlog3 & Hasked).
  rewrite !lookup_insert_ne in Hasked by done.
  rewrite Hrun3 in Hrun. cbn beta iota in Hrun.
  apply persist_rest_besidesFiles in Hrun as (rest & Hlog & Hrest).
  apply besidesFiles_written in Hrest as [Hwritten Hmkdir].
  exists (made ++ asked ++ rest).
  split.
  { apply newEvents_app. rewrite Hlog, Hlog3, Hlog2, Hlog1.
    by rewrite <- !app_assoc. }
  rewrite !elem_of_app.
  split; [|split; [|split]].
  - split.
    + intros [Hin|[Hin|Hin]].
      * destruct Hmade as [[-> ?]|[-> ?]]; [done|by apply elem_of_nil in Hin].
      * destruct Hasked as [[-> _]|[-> _]].
        -- apply list_elem_of_singleton in Hin. discriminate.
        -- by apply elem_of_nil in Hin.
      * by apply Hmkdir in Hin.
    + intros Hnone. left.
      destruct Hmade as [[-> _]|[_ Hdir]]; [apply list_elem_of_here|].
      discriminate (eq_trans (eq_sym Hnone) Hdir).
  - intros Hnone. right; left.
    destruct Hasked as [[-> _]|[_ (existing & Hex & _)]];
      [apply list_elem_of_here|].
    discriminate (eq_trans (eq_sym Hnone) Hex).
  - intros existing Hex Hfile p f Hin.
    rewrite !elem_of_app in Hin. destruct Hin as [Hin|[Hin|Hin]].
    + destruct Hmade as [[-> _]|[-> _]].
      * apply list_elem_of_singleton in Hin. discriminate.
      * by apply elem_of_nil in Hin.
    + destruct Hasked as [[_ [Hnone|Hdir]]|[-> _]].
      * discriminate (eq_trans (eq_sym Hnone) Hex).
      * destruct Hfile. by injection (eq_trans (eq_sym Hex) Hdir).
      * by apply elem_of_nil in Hin.
    + by apply Hwritten in Hin.
  - intros p f Hin.
    rewrite !elem_of_app in Hin. destruct Hin as [Hin|[Hin|Hin]].
    + destruct Hmade as [[-> _]|[-> _]].
      * apply list_elem_of_singleton in Hin. discriminate.
      * by apply elem_of_nil in Hin.
    + destruct Hasked as [[-> _]|[-> _]].
      * apply list_elem_of_singleton in Hin. by simplify_eq.
      * by apply elem_of_nil in Hin.
    + by apply Hwritten in Hin.
Qed.

(** The project on disk has its [projectConfig.json] and no settings
    folder of its own listed: the folder is made, the workspace file
    written, and the project config left alone. *)
Lemma persist_descriptor_witness :
  ∃ evs,
    newEvents Sample.onDisk
      (persist fine "/home/project"
         {| folders := [deviceDefaultFolderName]; settings := ∅ |} ∅ false
         Sample.onDisk).2
    = EvWriteFile ["/home/project.code-workspace"]
        (WorkspaceFile {| folders := [deviceDefaultFolderName]; settings := ∅ |})
        :: evs
    ∧ EvMkdir [".vscode"] ∈ evs
    ∧ ∀ p f, EvWriteFile p f ∉ evs.
Proof.
  destruct (persist_descriptor fine "/home/project"
              {| folders := [deviceDefaultFolderName]; settings := ∅ |} ∅ false
              Sample.onDisk
              {[ ["Device"; ".iotworkbenchproject"] := TextFile EmptyString;
                 [".vscode"; "projectConfig.json"] :=
                   ProjectConfigFile
                     {[ ConfigKey.projectType :=
                          CfgProjectType ProjectTemplateType.IotHub ]} ]})
    as (evs & Hevs & Hmkdir & _ & Hkept & _).
  - reflexivity.
  - vm_compute. discriminate.
  - left. vm_compute. reflexivity.
  - vm_compute. discriminate.
  - exists evs. split; [exact Hevs|]. split.
    + apply Hmkdir. vm_compute. reflexivity.
    + eapply Hkept; [vm_compute; reflexivity|discriminate].
Defined.

(** ** load: the opened folder and the device *)

(** X17.  [load()] gives up, returning [false], before it calls anything
    or touches the registry: when no folder is open; and, inside a project
    (the [devicePath] setting present), when the project file under the
    device folder or [projectConfig.json] under the settings folder does
    not exist.  In the second case the project root has been set by then,
    to the parent of the first workspace folder. *)
Theorem load_outside_project (E : Env) (initLoad : bool) (w : World) :
  (workspaceFolders E (log w) = None →
   load E initLoad w = (Returned false, w))
  ∧ (∀ folder rest devicePath,
       workspaceFolders E (log w) = Some (folder :: rest) →
       configGet E (log w) ConfigKey.devicePath = Some devicePath →
       devicePath ≠ EmptyString →
       (existsSync [devicePath; iotworkbenchprojectFileName E] w).1
       = Returned false
       ∨ (existsSync [vscodeSettingsFolderName E; projectConfigFileName] w).1
         = Returned false →
       load E initLoad w
       = (Returned false,
          {| componentList := componentList w;
             projectRootPath := parentOf E folder;
             fs := fs w;
             log := log w |})).
Proof.
  split.
  - intros Hfolders. unfold load, loadDevice.
    by rewrite !bind_run, ask_run, Hfolders.
  - intros folder rest devicePath Hfolders Hpath Hne Hmissing.
    apply String.eqb_neq in Hne.
    unfold load, loadDevice.
    rewrite !bind_run, ask_run, Hfolders. cbn beta iota.
    rewrite bind_run, ask_run, Hpath. cbn beta iota. rewrite Hne.
    rewrite bind_run. unfold setProjectRootPath at 1. cbn beta iota.
    rewrite bind_run. unfold existsSync at 1. cbn beta iota. cbn [fs].
    unfold existsSync in Hmissing. cbn [fst] in Hmissing.
    destruct (fs w) as [files|] eqn:Hfs; [|done].
    destruct Hmissing as [Hmissing|Hmissing]; simplify_eq.
    + by rewrite Hmissing.
    + destruct (negb _); [done|].
      rewrite bind_run. unfold existsSync at 1. cbn beta iota. cbn [fs].
      by rewrite Hmissing.
Qed.

Lemma load_outside_project_witness :
  load
    (Sample.env Sample.allFine (Sample.config "raspberrypi" None) None
       (Returned true) None None true)
    true Sample.emptyFolder
  = (Returned false,
     {| componentList := []; projectRootPath := "/home/project/Device";
        fs := Some ∅; log := [] |}).
Proof.
  refine (proj2 (load_outside_project _ _ _)
            "/home/project/Device" [] "Device" _ _ _ _).
  - reflexivity.
  - reflexivity.
  - discriminate.
  - left. vm_compute. reflexivity.
Defined.

Lemma loadDevice_outcome E initLoad w :
  outcome (loadDevice E initLoad) w
    (λ r w1,
       ∃ evs R,
         log w1 = log w ++ evs
         ∧ componentList w1 = componentList w ++ R
         ∧ (R = [] ∧ Forall (λ e, besidesComponents e = true) evs
            ∨ ∃ device boardId res before,
                R = [device]
                ∧ deviceOfBoard E boardId = Some (componentClass device)
                ∧ evs = before ++ [EvNew device; EvInvoke device Load res]
                ∧ Forall (λ e, besidesComponents e = true) before
                ∧ r = match res with
                      | Returned _ => Returned (Some tt)
                      | Thrown e => Thrown e
                      end)
         ∧ (r = Returned None → R = [])).
Proof.
  unfold loadDevice. outcomes.
  all: worlds.
  all: eexists _, _.
  all: split; [first [reflexivity|symmetry; apply app_nil_r]|].
  all: split; [first [reflexivity|symmetry; apply app_nil_r]|].
  all: split; [|try done].
  all: first
         [ left; split; [reflexivity|repeat constructor; done]
         | right; eexists _, _, _, [_; _];
           split; [reflexivity|]; split; [subst; eassumption|];
           split; [reflexivity|]; split; [repeat constructor; done|reflexivity]
         | right; eexists _, _, _, [_];
           split; [reflexivity|]; split; [subst; eassumption|];
           split; [reflexivity|]; split; [repeat constructor; done|reflexivity] ].
Qed.


Lemma load_unfold E initLoad w :
  load E initLoad w =
    match loadDevice E initLoad w with
    | (Returned None, w1) => (Returned false, w1)
    | (Returned (Some _), w1) =>
        match getSortedComponents E (log w1) with
        | Returned (None | Some []) => loadLegacy E w1
        | Returned (Some componentConfigs) =>
            match loadComponentConfigs E componentConfigs ∅ w1 with
            | (Returned (Some _), w2) =>
                (Returned true, (checkAll E (componentList w2) w2).2)
            | (Returned None, w2) => (Returned false, w2)
            | (Thrown e, w2) => (Thrown e, w2)
            end
        | Thrown e => (Thrown e, w1)
        end
    | (Thrown e, w1) => (Thrown e, w1)
    end.
Proof.
  destruct (loadDevice E initLoad w) as [[[[]|]|e] w1] eqn:Hdevice.
  - destruct (getSortedComponents E (log w1)) as [sorted|e] eqn:Hsorted.
    + by apply load_after_device.
    + unfold load. rewrite bind_run, Hdevice. cbn beta iota.
      rewrite bind_run, ask_run, Hsorted. by rewrite bind_run.
  - unfold load. by rewrite bind_run, Hdevice.
  - unfold load. by rewrite bind_run, Hdevice.
Qed.

(** X18.  The first part of [load()] (lines 78-160) adds at most one
    component to the registry: a device of the class the board id selects.
    The device is pushed before its [load()] is awaited: when that
    [load()] throws, [load()] of the project throws the same error and the
    device stays in the registry.  When the first part makes [load()]
    return [false], the registry is as it was and no component was
    constructed or called. *)
Theorem load_device_pushed_first (E : Env) (initLoad : bool) (w : World) :
  ∃ R,
    componentList (loadDevice E initLoad w).2 = componentList w ++ R
    ∧ (R = []
       ∨ ∃ device boardId,
           R = [device] ∧ deviceOfBoard E boardId = Some (componentClass device))
    ∧ ((loadDevice E initLoad w).1 = Returned None →
       load E initLoad w = (Returned false, (loadDevice E initLoad w).2)
       ∧ R = []
       ∧ Forall (λ e, besidesComponents e = true)
           (newEvents w (loadDevice E initLoad w).2))
    ∧ (∀ device e,
         EvInvoke device Load (Thrown e)
           ∈ newEvents w (loadDevice E initLoad w).2 →
         load E initLoad w = (Thrown e, (loadDevice E initLoad w).2)
         ∧ R = [device]).
Proof.
  pose proof (loadDevice_outcome E initLoad w) as Hd. unfold outcome in Hd.
  rewrite load_unfold.
  destruct (loadDevice E initLoad w) as [r1 w1]. simpl in *.
  destruct Hd as (evs & R & Hlog & Hcl & Hshape & Hnone).
  rewrite (newEvents_app _ _ _ Hlog).
  exists R. split; [done|].
  destruct Hshape
    as [[-> Hquiet]|(device & boardId & res & before & -> & Hclass & -> & Hquiet & ->)].
  - split; [by left|]. split.
    + by intros ->.
    + intros device e Hin. rewrite Forall_forall in Hquiet.
      by apply Hquiet in Hin.
  - split; [right; by exists device, boardId|]. split.
    + intros Hres. by destruct res.
    + intros device' e Hin. apply elem_of_app in Hin as [Hin|Hin].
      * rewrite Forall_forall in Hquiet. by apply Hquiet in Hin.
      * apply elem_of_cons in Hin as [?|Hin]; [done|].
        apply elem_of_cons in Hin as [?|Hin]; [|by apply elem_of_nil in Hin].
        by simplify_eq.
Qed.

Lemma load_device_pushed_first_witness :
  load
    (Sample.env
       notConnected
       (Sample.config "esp32" None) None (Returned true) None None true)
    false Sample.onDisk
  = (Thrown "The device is not connected.",
     (loadDevice
        (Sample.env
           notConnected
           (Sample.config "esp32" None) None (Returned true) None None true)
        false Sample.onDisk).2)
  ∧ componentClass
    <$> componentList
          (loadDevice
             (Sample.env
                notConnected
                (Sample.config "esp32" None) None (Returned true) None None true)
             false Sample.onDisk).2
    = [Esp32Device].
Proof.
  destruct (load_device_pushed_first
              (Sample.env
                 notConnected
                 (Sample.config "esp32" None) None (Returned true) None None true)
              false Sample.onDisk) as (R & Hcl & _ & _ & Hthrown).
  destruct (Hthrown (mkComponent Esp32Device "new Esp32 Device" "Esp32 Device" [])
              "The device is not connected.") as [Hload ->].
  - vm_compute. elem_of_written.
  - split; [exact Hload|]. rewrite Hcl. reflexivity.
Defined.

(** ** load: records that stop the resolver *)

Lemma unsupported_type componentConfig :
  cfg_type componentConfig ∉ supportedTypes →
  String.eqb (cfg_type componentConfig) "IoTHub" = false
  ∧ String.eqb (cfg_type componentConfig) "AzureFunctions" = false
  ∧ String.eqb (cfg_type componentConfig) "StreamAnalyticsJob" = false
  ∧ String.eqb (cfg_type componentConfig) "CosmosDB" = false.
Proof.
  unfold supportedTypes. rewrite !not_elem_of_cons, !String.eqb_neq. tauto.
Qed.

(** A record whose turn in the loop ends the loop, without doing anything,
    whatever was loaded before it. *)
Lemma loadComponentConfigs_stops E componentConfig post
    (r : Result (option (gmap string Component))) (r' : Result (option unit)) :
  (∀ components w, loadComponentConfig E componentConfig components w = (r, w)) →
  match r with
  | Returned None => r' = Returned None
  | Returned (Some _) => False
  | Thrown e => r' = Thrown e
  end →
  ∀ pre components w,
    (loadComponentConfigs E pre components w).1 = Returned (Some tt) →
    loadComponentConfigs E (pre ++ componentConfig :: post) components w
    = (r', (loadComponentConfigs E pre components w).2).
Proof.
  intros Hstep Hr.
  induction pre as [|record pre IH]; intros components w Hpre.
  - simpl. rewrite bind_run, Hstep. by destruct r as [[]|]; subst.
  - simpl in *. rewrite !bind_run in *.
    destruct (loadComponentConfig E record components w)
      as [[[components'|]|e] w1]; try done.
    by apply IH.
Qed.

(** X19.  When the loop over the records reaches a record of a type other
    than the four supported ones, [load()] throws "Component not supported
    with type of ...", whatever follows.  When it reaches an AzureFunctions
    record and the [functionPath] setting is missing, [load()] returns
    [false].  In both cases nothing more is done: the components of the
    records before it stay in the registry, and the prerequisites checks
    that end a successful load are not made. *)
Theorem record_stops_load (E : Env) (initLoad : bool) (w w1 : World)
    (pre post : list ComponentConfig) (componentConfig : ComponentConfig) :
  loadDevice E initLoad w = (Returned (Some tt), w1) →
  getSortedComponents E (log w1)
  = Returned (Some (pre ++ componentConfig :: post)) →
  (loadComponentConfigs E pre ∅ w1).1 = Returned (Some tt) →
  (cfg_type componentConfig ∉ supportedTypes →
   load E initLoad w
   = (Thrown (notSupported (cfg_type componentConfig)),
      (loadComponentConfigs E pre ∅ w1).2))
  ∧ (cfg_type componentConfig = "AzureFunctions" →
     (∀ l, truthy (configGet E l ConfigKey.functionPath) = false) →
     load E initLoad w
     = (Returned false, (loadComponentConfigs E pre ∅ w1).2)).
Proof.
  intros Hdevice Hsorted Hpre.
  rewrite load_unfold, Hdevice, Hsorted.
  assert (∃ first others, pre ++ componentConfig :: post = first :: others)
    as (first & others & Heq) by (destruct pre; simpl; eauto).
  rewrite Heq, <- Heq. clear first others Heq.
  split.
  - intros Htype. apply unsupported_type in Htype as (H1 & H2 & H3 & H4).
    rewrite (loadComponentConfigs_stops E componentConfig post
               (Thrown (notSupported (cfg_type componentConfig)))
               (Thrown (notSupported (cfg_type componentConfig)))); try done.
    intros components w0. unfold loadComponentConfig.
    by rewrite H1, H2, H3, H4.
  - intros Htype Hpath.
    rewrite (loadComponentConfigs_stops E componentConfig post
               (Returned None) (Returned None)); try done.
    intros components w0. unfold loadComponentConfig.
    rewrite Htype. cbn. rewrite bind_run, ask_run. cbn beta iota.
    by rewrite Hpath.
Qed.

Lemma record_stops_load_witness :
  load
    (Sample.env Sample.allFine (Sample.config "raspberrypi" None)
       (Some [hubRecord;
              eventHubRecord;
              storeRecord])
       (Returned true) None None true)
    false Sample.onDisk
  = (Thrown "Component not supported with type of EventHub.",
     (loadComponentConfigs
        (Sample.env Sample.allFine (Sample.config "raspberrypi" None)
           (Some [hubRecord;
                  eventHubRecord;
                  storeRecord])
           (Returned true) None None true)
        [hubRecord] ∅
        (loadDevice
           (Sample.env Sample.allFine (Sample.config "raspberrypi" None)
              (Some [hubRecord;
                     eventHubRecord;
                     storeRecord])
              (Returned true) None None true)
           false Sample.onDisk).2).2).
Proof.
  refine (proj1 (record_stops_load _ false Sample.onDisk _ [hubRecord] [storeRecord]
                   eventHubRecord _ _ _) _).
  - vm_compute. reflexivity.
  - reflexivity.
  - vm_compute. reflexivity.
  - vm_compute. intros Hin.
    repeat (apply elem_of_cons in Hin as [Hin|Hin]; [discriminate Hin|]).
    by apply elem_of_nil in Hin.
Defined.


(** ** load: a project without records, and without functions *)

Lemma loadLegacy_without_functions E w :
  loadsQuietly E →
  (∀ l, truthy (configGet E l ConfigKey.functionPath) = false) →
  (∀ l c s, updateConfigSettings E l c s = Returned tt) →
  runsTo (loadLegacy E) w
    (λ r w',
       r = true
       ∧ ∃ iotHub device evs checks,
           componentList w' = componentList w ++ [iotHub; device]
           ∧ componentClass iotHub = IoTHub
           ∧ componentClass device = IoTHubDevice
           ∧ log w' = log w ++ evs ++ checks
           ∧ Forall2 (λ c e, ∃ res, e = EvInvoke c CheckPrerequisites res)
               (componentList w') checks).
Proof.
  intros Hloads Hpath Hupdate. unfold loadLegacy. runs.
  eapply runsTo_updateSettings; [apply Hupdate|]. runs.
  loads Hloads. runs. rewrite Hpath. runs.
  apply runsTo_checkAll. intros w' Hcl (checks & Hlog & Hchecks). runs.
  split; [done|].
  match type of Hlog with _ = log ?w0 ++ _ =>
    assert (∃ evs, log w0 = log w ++ evs) as [evs Hevs]
      by (autorewrite with world; rewrite <- !app_assoc; eexists; reflexivity)
  end.
  rewrite Hevs in Hlog.
  revert Hchecks. rewrite Hcl, Hlog. autorewrite with world.
  rewrite <- !app_assoc. simpl. intros Hchecks.
  eexists _, _, evs, checks.
  split; [reflexivity|]. repeat split; try done; congruence.
Qed.

(** X20.  A project that passes the checks of [load()] on the opened
    folder and the device, whose component config store hands out no
    records and whose [functionPath] setting is missing
    ([updateConfigSettings] and the components' [load()] not throwing):
    [load()] appends an IoTHub and an IoTHubDevice, and no functions app,
    then calls [checkPrerequisites()] on every component of the registry
    and returns [true]. *)
Theorem load_legacy_without_functions (E : Env) (initLoad : bool) (w w1 : World) :
  loadDevice E initLoad w = (Returned (Some tt), w1) →
  (getSortedComponents E (log w1) = Returned None
   ∨ getSortedComponents E (log w1) = Returned (Some [])) →
  (∀ l, truthy (configGet E l ConfigKey.functionPath) = false) →
  (∀ l c s, updateConfigSettings E l c s = Returned tt) →
  loadsQuietly E →
  ∃ iotHub device evs checks w',
    load E initLoad w = (Returned true, w')
    ∧ componentList w' = componentList w1 ++ [iotHub; device]
    ∧ componentClass iotHub = IoTHub
    ∧ componentClass device = IoTHubDevice
    ∧ log w' = log w1 ++ evs ++ checks
    ∧ Forall2 (λ c e, ∃ res, e = EvInvoke c CheckPrerequisites res)
        (componentList w') checks.
Proof.
  intros Hdev Hsorted Hpath Hupdate Hloads.
  destruct (loadLegacy_without_functions E w1 Hloads Hpath Hupdate)
    as (r & w' & Hrun & -> & iotHub & device & evs & checks & H).
  exists iotHub, device, evs, checks, w'.
  split; [|exact H].
  destruct Hsorted as [Hsorted|Hsorted];
    by rewrite (load_after_device _ _ _ _ _ Hdev Hsorted).
Qed.

Lemma load_legacy_without_functions_witness :
  (load
     (Sample.env nothingInstalled (Sample.config "devkit" None) (Some [])
        (Returned true) None None true)
     false Sample.onDisk).1
  = Returned true
  ∧ componentClass
    <$> componentList
          (load
             (Sample.env nothingInstalled (Sample.config "devkit" None) (Some [])
                (Returned true) None None true)
             false Sample.onDisk).2
    = [AZ3166Device; IoTHub; IoTHubDevice].
Proof.
  destruct (load_legacy_without_functions
              (Sample.env nothingInstalled (Sample.config "devkit" None) (Some [])
                 (Returned true) None None true)
              false Sample.onDisk
              (loadDevice
                 (Sample.env nothingInstalled (Sample.config "devkit" None)
                    (Some []) (Returned true) None None true)
                 false Sample.onDisk).2)
    as (iotHub & device & evs & checks & w' & Hrun & Hcl & Hhub & Hdevice & _).
  - vm_compute. reflexivity.
  - right. reflexivity.
  - reflexivity.
  - reflexivity.
  - intros l c. eexists. reflexivity.
  - rewrite Hrun. split; [reflexivity|].
    cbn [snd]. rewrite Hcl, fmap_app. cbn [fmap list_fmap].
    rewrite Hhub, Hdevice. vm_compute. reflexivity.
Defined.

(** ** load: the dependencies of a record *)

Lemma resolveDependencies_acc components deps :
  ∀ acc dependencies,
    resolveDependencies components deps acc = Returned dependencies
    ↔ ∃ resolved,
        dependencies = acc ++ resolved
        ∧ Forall2 (resolves components) deps resolved.
Proof.
  induction deps as [|dependent rest IH]; intros acc dependencies; simpl.
  - split.
    + intros Heq. simplify_eq. exists []. by rewrite app_nil_r.
    + intros (resolved & -> & Hall). apply Forall2_nil_inv_l in Hall as ->.
      by rewrite app_nil_r.
  - destruct (lookupMember components (dep_id dependent)) as [found|] eqn:Hc.
    + rewrite IH. split.
      * intros (resolved & -> & Hall).
        exists (mkDependency found (dep_type dependent) :: resolved).
        rewrite <- app_assoc. split; [done|].
        by constructor.
      * intros (resolved & -> & Hall).
        apply Forall2_cons_inv_l in Hall
            as ([found' t'] & resolved' & [Hc' Ht'] & Hall & ->).
        simpl in *. simplify_eq. exists resolved'.
        by rewrite <- app_assoc.
    + split; [done|]. intros (resolved & -> & Hall).
      apply Forall2_cons_inv_l in Hall as (dep & ? & [Hc' _] & _).
      by rewrite Hc in Hc'.
Qed.

Lemma resolveDependencies_throws components deps :
  ∀ acc e,
    resolveDependencies components deps acc = Thrown e
    ↔ e = cannotFindComponent
      ∧ ∃ dependent,
          dependent ∈ deps ∧ lookupMember components (dep_id dependent) = None.
Proof.
  induction deps as [|dependent rest IH]; intros acc e; simpl.
  - split; [done|]. intros (_ & dependent & Hin & _).
    by apply elem_of_nil in Hin.
  - destruct (lookupMember components (dep_id dependent)) as [found|] eqn:Hc.
    + rewrite IH. split.
      * intros (-> & d & Hin & Hd). split; [done|]. exists d.
        split; [by apply list_elem_of_further|done].
      * intros (-> & d & Hin & Hd). split; [done|]. exists d.
        apply elem_of_cons in Hin as [->|Hin]; [congruence|done].
    + split.
      * intros Heq. simplify_eq. split; [done|]. exists dependent.
        split; [apply list_elem_of_here|done].
      * by intros (-> & _).
Qed.

(** X21.  The dependencies of a StreamAnalyticsJob or CosmosDB record are
    resolved all or nothing, against an object that holds no component
    under [__proto__].  The lookup succeeds exactly with the list that
    holds, for each dependency of the record and in the record's order,
    what the object answers under its id, together with the type the
    record gives it: the component stored under that id or, when there is
    none and the id is a name of [Object.prototype], the inherited member.
    It throws, "Cannot find component with id ...", exactly when some id of
    the record is neither a key of the object built so far nor such a
    name. *)
Theorem resolveDependencies_spec (components : gmap string Component)
    (deps : list DependencyConfig) :
  components !! "__proto__" = None →
  (∀ dependencies,
     resolveDependencies components deps [] = Returned dependencies
     ↔ Forall2
         (λ dependent dependency,
            type dependency = dep_type dependent
            ∧ match component dependency with
              | Stored c => components !! dep_id dependent = Some c
              | Inherited k =>
                  k = dep_id dependent
                  ∧ components !! dep_id dependent = None
                  ∧ dep_id dependent ∈ objectPrototypeNames
              end)
         deps dependencies)
  ∧ (∀ e,
       resolveDependencies components deps [] = Thrown e
       ↔ e = cannotFindComponent
         ∧ ∃ dependent,
             dependent ∈ deps
             ∧ components !! dep_id dependent = None
             ∧ dep_id dependent ∉ objectPrototypeNames).
Proof.
  intros _. split.
  - intros dependencies. rewrite resolveDependencies_acc.
    assert (Hsame : ∀ dependent dependency,
               resolves components dependent dependency
               ↔ type dependency = dep_type dependent
                 ∧ match component dependency with
                   | Stored c => components !! dep_id dependent = Some c
                   | Inherited k =>
                       k = dep_id dependent
                       ∧ components !! dep_id dependent = None
                       ∧ dep_id dependent ∈ objectPrototypeNames
                   end).
    { intros dependent [found t]. unfold resolves, lookupMember. simpl.
      destruct (components !! dep_id dependent) as [c|] eqn:Hc;
        [|case_bool_decide as Hname];
        destruct found as [c'|k]; split; intros ?; destruct_and?;
        simplify_eq; done. }
    split.
    + intros (resolved & -> & Hall). simpl.
      eapply Forall2_impl; [exact Hall|]. intros ? ?. apply Hsame.
    + intros Hall. exists dependencies. split; [done|].
      eapply Forall2_impl; [exact Hall|]. intros ? ?. apply Hsame.
  - intros e. rewrite resolveDependencies_throws.
    split; intros (-> & dependent & Hin & Hnone); (split; [done|]);
      exists dependent; (split; [done|]).
    + by apply lookupMember_None.
    + by apply lookupMember_None.
Qed.

(** The hub is on the object, [toString] is not: the job depends on the
    hub and on what every object answers under that name. *)
Lemma resolveDependencies_spec_witness :
  resolveDependencies {[ "hub" := Sample.hub ]}
    [{| dep_id := "hub"; dep_type := DependencyType.Input |};
     {| dep_id := "toString"; dep_type := DependencyType.Other |}] []
  = Returned [mkDependency Sample.hub DependencyType.Input;
              mkDependency (Inherited "toString") DependencyType.Other].
Proof.
  refine (proj2 (proj1 (resolveDependencies_spec
                          ({[ "hub" := Sample.hub ]} : gmap string Component)
                          [{| dep_id := "hub"; dep_type := DependencyType.Input |};
                           {| dep_id := "toString";
                              dep_type := DependencyType.Other |}] _) _) _).
  - vm_compute. reflexivity.
  - repeat constructor.
Defined.


(** ** What leaves the disk alone *)

Section SameDisk.
Variable E : Env.
Hypothesis E_leavesDisk : leavesDisk E.

Lemma steps_requireJson p : steps sameDisk (requireJson p).
Proof.
  apply steps_read; [apply sameDisk_refl|]. intros w. unfold requireJson.
  destruct (fs w) as [files|]; [|done]. by destruct (files !! p) as [[]|].
Qed.

Lemma steps_forOf {A} (items : list Component) (body : Component → M (option A)) :
  (∀ item, steps sameDisk (body item)) → steps sameDisk (forOf items body).
Proof.
  intros Hbody. induction items as [|item rest IH]; simpl.
  - apply steps_ret, sameDisk_refl.
  - apply steps_bind; [apply sameDisk_refl|apply sameDisk_trans|apply Hbody|].
    intros [a|]; [apply steps_ret, sameDisk_refl|apply IH].
Qed.

(** The side conditions of [steps_tac] for [sameDisk]. *)
Ltac disk_tac :=
  intros;
  first [ by apply sameDisk_logged
        | apply sameDisk_refl
        | reflexivity ].

Lemma phaseItem_sameDisk can act err item :
  steps sameDisk (phaseItem E can act err item).
Proof using E_leavesDisk.
  pose proof sameDisk_refl. pose proof sameDisk_trans.
  unfold phaseItem. steps_tac; disk_tac.
Qed.

Lemma confirmItem_sameDisk can act placeHolder itemList onFalse item :
  (∀ item, steps sameDisk (onFalse item)) →
  steps sameDisk (confirmItem E can act placeHolder itemList onFalse item).
Proof using E_leavesDisk.
  pose proof sameDisk_refl. pose proof sameDisk_trans.
  intros HonFalse. unfold confirmItem, quickPick. steps_tac; try disk_tac.
  apply HonFalse.
Qed.

Lemma collectEligible_sameDisk can items :
  ∀ itemList, steps sameDisk (collectEligible E can items itemList).
Proof using E_leavesDisk.
  pose proof sameDisk_refl. pose proof sameDisk_trans.
  induction items as [|item rest IH]; intros itemList; simpl.
  - by apply steps_ret.
  - destruct (can item); [|apply IH].
    apply steps_bind; [done|eauto|apply steps_call; [done|eauto|disk_tac]|].
    intros []; [apply IH|by apply steps_ret].
Qed.

Lemma compile_sameDisk : steps sameDisk (compile E).
Proof using E_leavesDisk.
  pose proof sameDisk_refl. pose proof sameDisk_trans.
  unfold compile. rewrite compileItem_phase.
  apply steps_bind; [done|eauto|by apply steps_read|]. intros items.
  apply steps_bind; [done|eauto| |intros [b|]; by apply steps_ret].
  apply steps_forOf. intros item. apply phaseItem_sameDisk.
Qed.

Lemma upload_sameDisk : steps sameDisk (upload E).
Proof using E_leavesDisk.
  pose proof sameDisk_refl. pose proof sameDisk_trans.
  unfold upload. rewrite uploadItem_phase.
  apply steps_bind; [done|eauto|by apply steps_read|]. intros items.
  apply steps_bind; [done|eauto| |intros [b|]; by apply steps_ret].
  apply steps_forOf. intros item. apply phaseItem_sameDisk.
Qed.

Lemma provision_sameDisk : steps sameDisk (provision E).
Proof using E_leavesDisk.
  pose proof sameDisk_refl as Hrefl. pose proof sameDisk_trans as Htrans.
  unfold provision, awaitCheckAzureLogin, awaitGetResourceGroup,
    readSubscriptionId.
  steps_tac; try disk_tac.
  - apply collectEligible_sameDisk.
  - rewrite provisionItem_confirm. apply steps_forOf. intros item.
    apply confirmItem_sameDisk. intros _. steps_tac; disk_tac.
Qed.

Lemma deploy_sameDisk : steps sameDisk (deploy E).
Proof using E_leavesDisk.
  pose proof sameDisk_refl as Hrefl. pose proof sameDisk_trans as Htrans.
  unfold deploy, awaitCheckAzureLogin.
  steps_tac; try disk_tac.
  - apply collectEligible_sameDisk.
  - rewrite deployItem_confirm. apply steps_forOf. intros item.
    apply confirmItem_sameDisk. intros item'. by apply steps_throw.
Qed.

Lemma loadComponentConfig_sameDisk componentConfig components :
  steps sameDisk (loadComponentConfig E componentConfig components).
Proof using E_leavesDisk.
  pose proof sameDisk_refl as Hrefl. pose proof sameDisk_trans as Htrans.
  unfold loadComponentConfig, loadComponent. steps_tac; disk_tac.
Qed.

Lemma loadComponentConfigs_sameDisk componentConfigs :
  ∀ components,
    steps sameDisk (loadComponentConfigs E componentConfigs components).
Proof using E_leavesDisk.
  pose proof sameDisk_refl as Hrefl. pose proof sameDisk_trans as Htrans.
  induction componentConfigs as [|componentConfig rest IH]; intros components;
    simpl.
  - by apply steps_ret.
  - apply steps_bind; [done|eauto|apply loadComponentConfig_sameDisk|].
    intros [components'|]; [apply IH|by apply steps_ret].
Qed.

Lemma load_sameDisk initLoad : steps sameDisk (load E initLoad).
Proof using E_leavesDisk.
  pose proof sameDisk_refl as Hrefl. pose proof sameDisk_trans as Htrans.
  unfold load, loadDevice, loadLegacy, loadComponent.
  steps_tac; try disk_tac.
  all: first [apply steps_requireJson | apply loadComponentConfigs_sameDisk
             | apply loadComponentConfig_sameDisk].
Qed.
End SameDisk.

(** X22.  Only [create] writes below the project root.  With
    collaborators that leave the root alone, the root on disk is after
    [load()], [compile()], [upload()], [provision()] and [deploy()] what it
    was before, however the run ends. *)
Theorem lifecycle_leaves_disk (E : Env) (initLoad : bool) (w : World) :
  leavesDisk E →
  fs (load E initLoad w).2 = fs w
  ∧ fs (compile E w).2 = fs w
  ∧ fs (upload E w).2 = fs w
  ∧ fs (provision E w).2 = fs w
  ∧ fs (deploy E w).2 = fs w.
Proof.
  intros Hquiet. repeat split.
  - by eapply (load_sameDisk E Hquiet initLoad w), surjective_pairing.
  - by eapply (compile_sameDisk E Hquiet w), surjective_pairing.
  - by eapply (upload_sameDisk E Hquiet w), surjective_pairing.
  - by eapply (provision_sameDisk E Hquiet w), surjective_pairing.
  - by eapply (deploy_sameDisk E Hquiet w), surjective_pairing.
Qed.

Lemma lifecycle_leaves_disk_witness :
  fs (load
        (Sample.env Sample.allFine (Sample.config "raspberrypi" None)
           (Some [hubRecord]) (Returned true) None None true)
        true Sample.onDisk).2
  = fs Sample.onDisk.
Proof.
  refine (proj1 (lifecycle_leaves_disk _ _ _ _)).
  intros l e files. reflexivity.
Defined.

(** ** load: the registry grows with every load *)

(** X23.  [load()] appends: it does not look at what the registry holds.
    Loaded a second time on the same object, from the same descriptor (the
    collaborators answering as before, and leaving the project root on
    disk alone), it ends as the first time and appends the same components
    once more, so that the registry holds them twice. *)
Theorem load_twice_doubles (E : Env) (initLoad1 initLoad2 : bool) (w : World) :
  sameDescriptor E E →
  leavesDisk E →
  ∃ R,
    componentList (load E initLoad1 w).2 = componentList w ++ R
    ∧ componentList (load E initLoad2 (load E initLoad1 w).2).2
      = componentList w ++ R ++ R
    ∧ (load E initLoad2 (load E initLoad1 w).2).1 = (load E initLoad1 w).1.
Proof.
  intros Hsame Hquiet.
  assert (fs (load E initLoad1 w).2 = fs w) as Hfs
    by (by eapply (load_sameDisk E Hquiet initLoad1 w), surjective_pairing).
  destruct (sim_load E E Hsame (componentList w)
              (componentList (load E initLoad1 w).2) initLoad1 initLoad2
              w (load E initLoad1 w).2) as [Hres [(R & HR1 & HR2) _]].
  { split; [|done]. exists []. by rewrite !app_nil_r. }
  exists R. split; [done|]. split; [|done].
  by rewrite HR2, HR1, <- app_assoc.
Qed.

Lemma load_twice_doubles_witness :
  componentClass
  <$> componentList
        (load
           (Sample.env Sample.allFine (Sample.config "raspberrypi" None)
              (Some [hubRecord]) (Returned true) None None true)
           false
           (load
              (Sample.env Sample.allFine (Sample.config "raspberrypi" None)
                 (Some [hubRecord]) (Returned true) None None true)
              true Sample.onDisk).2).2
  = [RaspberryPiDevice; IoTHub; IoTHubDevice;
     RaspberryPiDevice; IoTHub; IoTHubDevice].
Proof.
  destruct (load_twice_doubles
              (Sample.env Sample.allFine (Sample.config "raspberrypi" None)
                 (Some [hubRecord]) (Returned true) None None true)
              true false Sample.onDisk) as (R & HR1 & HR2 & _).
  - by split.
  - intros l e files. reflexivity.
  - rewrite HR2. vm_compute in HR1. rewrite <- HR1. reflexivity.
Defined.

(** ** load: the checks that end a successful load *)

Lemma loadLegacy_outcome E w :
  outcome (loadLegacy E) w
    (λ r w',
       ∃ evs,
         log w' = log w ++ evs
         ∧ ∀ b, r = Returned b →
             b = true
             ∧ ∃ checks,
                 checks `suffix_of` evs
                 ∧ Forall2 (λ c e, ∃ res, e = EvInvoke c CheckPrerequisites res)
                     (componentList w') checks).
Proof.
  unfold loadLegacy. outcomes.
  all: cbn beta iota.
  all: repeat match goal with
         | H : componentList ?w' = _ |- context [componentList ?w'] =>
             rewrite H; clear H
         | H : log ?w' = _ |- context [log ?w'] => rewrite H; clear H
         end.
  all: repeat match goal with H : Forall2 _ _ _ |- _ => revert H end.
  all: worlds.
  all: intros.
  all: eexists; split; [reflexivity|].
  all: intros b Hb; simplify_eq.
  all: split; [done|].
  all: match goal with
       | H : Forall2 _ _ ?checks |- _ =>
           exists checks; split; [suffix_written|exact H]
       end.
Qed.

Lemma loadComponentConfig_grows E componentConfig components :
  steps (adding (λ _, true)) (loadComponentConfig E componentConfig components).
Proof. unfold loadComponentConfig, loadComponent. steps_tac; adding_tac. Qed.

Lemma loadComponentConfigs_grows E componentConfigs :
  ∀ components,
    steps (adding (λ _, true)) (loadComponentConfigs E componentConfigs components).
Proof.
  induction componentConfigs as [|componentConfig rest IH]; intros components;
    simpl.
  - by apply steps_ret.
  - apply steps_bind; [done|eauto|apply loadComponentConfig_grows|].
    intros [components'|]; [apply IH|by apply steps_ret].
Qed.

(** X24.  [load()] returns [true] only at the end of a run whose last
    calls are the [checkPrerequisites()] of every component of the
    registry, those it held before the load included, in registry order;
    what these calls answer, or throw, does not matter. *)
Theorem load_ends_with_checks (E : Env) (initLoad : bool) (w : World) :
  (load E initLoad w).1 = Returned true →
  ∃ evs checks,
    newEvents w (load E initLoad w).2 = evs ++ checks
    ∧ Forall2 (λ c e, ∃ res, e = EvInvoke c CheckPrerequisites res)
        (componentList (load E initLoad w).2) checks.
Proof.
  rewrite load_unfold.
  pose proof (loadDevice_outcome E initLoad w) as Hd. unfold outcome in Hd.
  destruct (loadDevice E initLoad w) as [[[[]|]|e] w1]; simpl in Hd; try done.
  destruct Hd as (evsD & _ & HlogD & _).
  assert (∀ w', (∃ evs checks,
                   log w' = log w1 ++ evs ++ checks
                   ∧ Forall2 (λ c e, ∃ res, e = EvInvoke c CheckPrerequisites res)
                       (componentList w') checks) →
                ∃ evs checks,
                  newEvents w w' = evs ++ checks
                  ∧ Forall2 (λ c e, ∃ res, e = EvInvoke c CheckPrerequisites res)
                      (componentList w') checks) as Hfrom.
  { intros w' (evs & checks & Hlog & Hchecks).
    exists (evsD ++ evs), checks. split; [|done].
    apply newEvents_app. by rewrite Hlog, HlogD, <- !app_assoc. }
  assert (∀ w0, (loadLegacy E w0).1 = Returned true →
                ∃ evs checks,
                  log (loadLegacy E w0).2 = log w0 ++ evs ++ checks
                  ∧ Forall2 (λ c e, ∃ res, e = EvInvoke c CheckPrerequisites res)
                      (componentList (loadLegacy E w0).2) checks) as Hlegacy.
  { intros w0 Hres. destruct (loadLegacy_outcome E w0) as (evs & Hlog & Hb).
    destruct (Hb _ Hres) as (_ & checks & [before ->] & Hchecks).
    by exists before, checks. }
  destruct (getSortedComponents E (log w1)) as [[[|componentConfig rest]|]|e];
    try done.
  1,3: intros Hres; by apply Hfrom, Hlegacy.
  pose proof (loadComponentConfigs_grows E (componentConfig :: rest) ∅ w1) as Hr.
  destruct (loadComponentConfigs E (componentConfig :: rest) ∅ w1)
    as [[[[]|]|e] w2]; try done.
  destruct (Hr _ _ eq_refl) as (evsR & HlogR & _).
  intros _. cbn [snd]. apply Hfrom.
  destruct (runsTo_checkAll E (componentList w2) w2
              (λ _ w', componentList w' = componentList w2
                       ∧ ∃ checks,
                           log w' = log w2 ++ checks
                           ∧ Forall2 (λ c e, ∃ res, e = EvInvoke c CheckPrerequisites res)
                               (componentList w2) checks))
    as (? & w3 & Hrun & Hcl & checks & Hlog & Hchecks); [done|].
  rewrite Hrun. cbn [snd]. exists evsR, checks.
  by rewrite Hcl, Hlog, HlogR, <- app_assoc.
Qed.

Lemma load_ends_with_checks_witness :
  ∃ evs checks,
    newEvents Sample.onDisk
      (load
         (Sample.env nothingInstalled (Sample.config "raspberrypi" None)
            (Some [hubRecord]) (Returned true) None None true)
         false Sample.onDisk).2
    = evs ++ checks
    ∧ Forall2 (λ c e, ∃ res, e = EvInvoke c CheckPrerequisites res)
        (componentList
           (load
              (Sample.env nothingInstalled (Sample.config "raspberrypi" None)
                 (Some [hubRecord]) (Returned true) None None true)
              false Sample.onDisk).2)
        checks.
Proof.
  apply load_ends_with_checks. vm_compute. reflexivity.
Defined.

(** ** create: a component that throws *)

Lemma CreateTrace_thrown items evs r :
  CreateTrace items evs r →
  ∀ i c a thrown, evs !! i = Some (EvInvoke c a (Thrown thrown)) →
                  r = Thrown thrown ∧ length evs = S i.
Proof.
  induction 1 as [|? ? ? ? ? IH| |]; intros i c a thrown Hi;
    try (destruct i as [|[|[|i]]]; simplify_eq/=; done).
  destruct i as [|i]; simplify_eq/=.
  destruct (IH _ _ _ _ Hi) as [-> ->]. done.
Qed.

Lemma persist_besidesComponents E rootFolderPath workspace projectConfig
    openInNewWindow :
  steps (adding besidesComponents)
    (persist E rootFolderPath workspace projectConfig openInNewWindow).
Proof. unfold persist. steps_tac; adding_tac. Qed.

(** X25.  An error thrown by a component while [create()] runs, from its
    prerequisites check or from its own [create()], is not swallowed: the
    method throws the same error, and the call that threw is the last thing
    the run did, so nothing is written afterwards. *)
Theorem create_errors_propagate (E : Env) (rootFolderPath : string)
    (projectType : ProjectTemplateType.t) (boardId : string)
    (openInNewWindow : bool) (w : World) (i : nat) (c : Component)
    (a : Action) (e : string) :
  newEvents w (create E rootFolderPath projectType boardId openInNewWindow w).2
    !! i = Some (EvInvoke c a (Thrown e)) →
  (create E rootFolderPath projectType boardId openInNewWindow w).1 = Thrown e
  ∧ length
      (newEvents w
         (create E rootFolderPath projectType boardId openInNewWindow w).2)
    = S i.
Proof.
  destruct (scaffold_outcome E rootFolderPath projectType boardId w)
    as (evs & R & Hlog & _ & Hfinal & _).
  rewrite create_unfold.
  destruct (scaffold E rootFolderPath projectType boardId w) as [r1 w1].
  cbn [fst snd] in Hlog, Hfinal.
  assert (Hscaffold : ∀ j c' a', evs !! j = Some (EvInvoke c' a' (Thrown e)) →
                                 r1 = Thrown e ∧ length evs = S j).
  { intros j c' a' Hj. by destruct (Hfinal _ _ _ _ Hj ltac:(done)). }
  clear Hfinal.
  destruct r1 as [[[workspace projectConfig]|]|e1]; cbn [fst snd].
  2,3: rewrite (newEvents_app _ _ _ Hlog); intros Hi;
       by destruct (Hscaffold _ _ _ Hi); simplify_eq.
  destruct (createComponents_trace E w1)
    as (evs1 & r & Hlog1 & _ & Htr & Hres & _).
  pose proof (CreateTrace_thrown _ _ _ Htr) as Hcreate.
  destruct (createComponents E w1) as [res w2]. cbn [fst snd] in Hlog1, Hres.
  rewrite Hlog, <- app_assoc in Hlog1.
  destruct r as [[[|]|]|e0]; subst res.
  1,3: destruct (persist E rootFolderPath workspace projectConfig
                   openInNewWindow w2) as [r3 w3] eqn:Hrun;
       apply persist_besidesComponents in Hrun as (evs3 & Hlog3 & Hq3);
       rewrite Hlog1, <- !app_assoc in Hlog3; cbn [fst snd];
       rewrite (newEvents_app _ _ _ Hlog3); intros Hi;
       apply lookup_app_Some in Hi as [Hi|[_ Hi]];
       [by destruct (Hscaffold _ _ _ Hi)|];
       apply lookup_app_Some in Hi as [Hi|[_ Hi]];
       [by destruct (Hcreate _ _ _ _ Hi)|];
       rewrite Forall_lookup in Hq3; by apply Hq3 in Hi.
  all: cbn [fst snd]; rewrite (newEvents_app _ _ _ Hlog1); intros Hi;
       apply lookup_app_Some in Hi as [Hi|[Hle Hi]];
       [by destruct (Hscaffold _ _ _ Hi)|];
       destruct (Hcreate _ _ _ _ Hi) as [Heq Hlen]; simplify_eq.
  split; [done|]. rewrite length_app, Hlen. lia.
Qed.

Lemma create_errors_propagate_witness :
  (create
     (Sample.env (λ c a, match a with
                         | Create => Thrown "No device is connected."
                         | _ => Returned true
                         end)
        Sample.noConfig None (Returned true) None None true)
     "/home/project" ProjectTemplateType.Basic "raspberrypi" false
     Sample.emptyFolder).1
  = Thrown "No device is connected.".
Proof.
  refine (proj1 (create_errors_propagate _ _ _ _ _ _ 4
                   (mkComponent RaspberryPiDevice "new RaspberryPi Device"
                      "RaspberryPi Device" []) Create _ _)).
  vm_compute. reflexivity.
Defined.

(** ** configDeviceSettings *)

Lemma configDevices_spec D items :
  ∀ asked,
    ∃ more,
      (configDevices D items asked).2 = asked ++ more
      ∧ more `prefix_of` eligible (isDeviceType D) items
      ∧ match (configDevices D items asked).1 with
        | Returned b =>
            b = true
            ∧ more = eligible (isDeviceType D) items
            ∧ ∀ before device after,
                more = before ++ device :: after →
                ∃ answer,
                  configured D (asked ++ before) device = Returned answer
        | Thrown error =>
            ∃ before device,
              more = before ++ [device]
              ∧ configured D (asked ++ before) device = Thrown error
        end.
Proof.
  induction items as [|component rest IH]; intros asked; simpl.
  - exists []. rewrite app_nil_r. repeat split; try done.
    intros before device after Heq. by destruct before.
  - destruct (isDeviceType D component) eqn:Hdevice.
    2:{ rewrite eligible_cons_false by done. apply IH. }
    rewrite eligible_cons_true by done.
    destruct (configured D asked component) as [answer|error] eqn:Hanswer.
    + destruct (IH (asked ++ [component])) as (more & Hasked & Hprefix & Hres).
      exists (component :: more). rewrite Hasked, <- app_assoc.
      split; [done|]. split; [by apply prefix_cons|].
      destruct (configDevices D rest (asked ++ [component])).1 as [b|error].
      * destruct Hres as (-> & -> & Hanswers). repeat split.
        intros before device after Heq.
        destruct before as [|first before]; simplify_eq/=.
        -- exists answer. by rewrite app_nil_r.
        -- destruct (Hanswers before device after ltac:(done)) as [answer' Ha].
           exists answer'. by rewrite <- app_assoc in Ha.
      * destruct Hres as (before & device & -> & Hthrown).
        exists (component :: before), device. split; [done|].
        by rewrite <- app_assoc in Hthrown.
    + exists [component]. simpl. split; [done|].
      split; [apply prefix_cons, prefix_nil|].
      exists [], component. by rewrite app_nil_r.
Qed.

(** X26.  [configDeviceSettings()] asks the components of type Device, and
    no others, in registry order.  It returns [true] when every device was
    asked and none threw, whatever they answered: it never returns [false].
    When the [configDeviceSettings()] of a device throws, the error reaches
    the caller as it is, and no device after that one is asked. *)
Theorem configDeviceSettings_spec (D : DeviceSettings) (w : World) :
  (configDeviceSettings D w).2
    `prefix_of` eligible (isDeviceType D) (componentList w)
  ∧ (configDeviceSettings D w).1 ≠ Returned false
  ∧ ((configDeviceSettings D w).1 = Returned true →
     (configDeviceSettings D w).2 = eligible (isDeviceType D) (componentList w)
     ∧ ∀ before device after,
         (configDeviceSettings D w).2 = before ++ device :: after →
         ∃ answer, configured D before device = Returned answer)
  ∧ (∀ error,
       (configDeviceSettings D w).1 = Thrown error →
       ∃ before device,
         (configDeviceSettings D w).2 = before ++ [device]
         ∧ configured D before device = Thrown error).
Proof.
  unfold configDeviceSettings.
  destruct (configDevices_spec D (componentList w) [])
    as (more & Hasked & Hprefix & Hres).
  simpl in Hasked. rewrite Hasked.
  split; [done|].
  destruct (configDevices D (componentList w) []).1 as [b|error'].
  - destruct Hres as (-> & -> & Hanswers). repeat split; done.
  - destruct Hres as (before & device & -> & Hthrown). repeat split; try done.
    intros error Heq. simplify_eq. by exists before, device.
Qed.

Lemma configDeviceSettings_spec_witness :
  (configDeviceSettings unconfigurable
     (Sample.loaded [Sample.hub; Sample.board; Sample.db])).2
  = [Sample.board].
Proof.
  refine (proj1 (proj1 (proj2 (proj2 (configDeviceSettings_spec _ _))) _)).
  reflexivity.
Defined.


(** ** handleLoadFailure *)

Lemma filter_first {A} (P : A → bool) (l : list A) x rest :
  List.filter P l = x :: rest
  ↔ ∃ before after,
      l = before ++ x :: after
      ∧ Forall (λ y, P y = false) before
      ∧ P x = true
      ∧ List.filter P after = rest.
Proof.
  induction l as [|y l IH]; simpl.
  - split; [done|]. intros (before & after & Heq & _). by destruct before.
  - destruct (P y) eqn:Hy.
    + split.
      * intros Heq. simplify_eq. exists [], l. repeat split; try done.
      * intros (before & after & Heq & Hbefore & Hx & Hafter).
        destruct before as [|z before]; simplify_eq/=; [done|].
        apply Forall_cons in Hbefore as [Hz _]. congruence.
    + rewrite IH. split.
      * intros (before & after & -> & Hbefore & Hx & Hafter).
        exists (y :: before), after. repeat split; try done.
        by constructor.
      * intros (before & after & Heq & Hbefore & Hx & Hafter).
        destruct before as [|z before]; simplify_eq/=; [congruence|].
        apply Forall_cons in Hbefore as [_ Hbefore].
        by exists before, after.
Qed.

(** X27.  [handleLoadFailure()] offers to open a project exactly when a
    folder is open, the project file exists under its Device folder, and
    the folder lists a file whose extension ends with the workspace
    extension: the file offered is the first such file of the listing.  It
    throws, without any prompt, exactly when a folder is open and listing
    it throws, whether or not the project file is there.  In every other
    case it offers to create a new project. *)
Theorem handleLoadFailure_spec (E : Env) (F : OpenedFolder) (w : World) :
  (∀ rootPath workspaceFile,
     handleLoadFailure E F w = Returned (AskAndOpenProject rootPath workspaceFile)
     ↔ (∃ others, workspaceFolders E (log w) = Some (rootPath :: others))
       ∧ workbenchFileExists F rootPath = true
       ∧ workspaceFile ≠ EmptyString
       ∧ ∃ before after,
           readdirSync F rootPath = Returned (before ++ workspaceFile :: after)
           ∧ Forall (λ file, isWorkspaceFile F file = false) before
           ∧ isWorkspaceFile F workspaceFile = true)
  ∧ (∀ error,
       handleLoadFailure E F w = Thrown error
       ↔ ∃ rootPath others,
           workspaceFolders E (log w) = Some (rootPath :: others)
           ∧ readdirSync F rootPath = Thrown error)
  ∧ (handleLoadFailure E F w = Returned AskAndNewProject
     ∨ (∃ rootPath workspaceFile,
          handleLoadFailure E F w
          = Returned (AskAndOpenProject rootPath workspaceFile))
     ∨ ∃ error, handleLoadFailure E F w = Thrown error).
Proof.
  unfold handleLoadFailure.
  destruct (workspaceFolders E (log w)) as [[|root others]|].
  1,3: split; [|split; [|by left]];
       [intros ? ?; split; [done|by intros [[? ?] _]]
       |intros ?; split; [done|by intros (? & ? & ? & _)]].
  destruct (readdirSync F root) as [files|error'] eqn:Hlisting.
  2:{ split; [|split; [|right; right; by eexists]].
      - intros ? ?. split; [done|].
        intros ([others' Heq] & _ & _ & before & after & Hfiles & _).
        simplify_eq. by rewrite Hlisting in Hfiles.
      - intros error. split.
        + intros Heq. simplify_eq. by exists root, others.
        + intros (? & ? & Heq & Hthrown). simplify_eq.
          rewrite Hlisting in Hthrown. by simplify_eq. }
  assert (∀ workspaceFile,
            (∃ before after,
               Returned files = Returned (before ++ workspaceFile :: after)
               ∧ Forall (λ file, isWorkspaceFile F file = false) before
               ∧ isWorkspaceFile F workspaceFile = true)
            ↔ ∃ rest,
                List.filter (isWorkspaceFile F) files = workspaceFile :: rest)
    as Hfirst.
  { intros workspaceFile. split.
    - intros (before & after & Heq & Hbefore & Hfile). simplify_eq.
      exists (List.filter (isWorkspaceFile F) after).
      apply filter_first. by exists before, after.
    - intros [rest Hfilter].
      apply filter_first in Hfilter as (before & after & -> & ? & ? & _).
      by exists before, after. }
  assert (∀ error,
            (∃ rootPath others',
               Some (root :: others) = Some (rootPath :: others')
               ∧ readdirSync F rootPath = Thrown error)
            → False) as Hthrown.
  { intros error (? & ? & Heq & Hthrown). simplify_eq.
    by rewrite Hlisting in Hthrown. }
  destruct (List.filter (isWorkspaceFile F) files) as [|first rest] eqn:Hfilter.
  { split; [|split; [|by left]].
    - intros rootPath workspaceFile. split; [done|].
      intros ([others' Heq] & _ & _ & Hfiles). simplify_eq.
      rewrite Hlisting in Hfiles. by apply Hfirst in Hfiles as [? ?].
    - intros error. split; [done|]. intros H. by destruct (Hthrown _ H). }
  destruct (workbenchFileExists F root) eqn:Hexists; simpl.
  2:{ split; [|split; [|by left]].
      - intros rootPath workspaceFile. split; [done|].
        intros ([others' Heq] & Hexists' & _). simplify_eq. congruence.
      - intros error. split; [done|]. intros H. by destruct (Hthrown _ H). }
  destruct (String.eqb first EmptyString) eqn:Hempty; simpl.
  { apply String.eqb_eq in Hempty as ->.
    split; [|split; [|by left]].
    - intros rootPath workspaceFile. split; [done|].
      intros ([others' Heq] & _ & Hne & Hfiles). simplify_eq.
      rewrite Hlisting in Hfiles. apply Hfirst in Hfiles as [? ?]. by simplify_eq.
    - intros error. split; [done|]. intros H. by destruct (Hthrown _ H). }
  apply String.eqb_neq in Hempty.
  split; [|split; [|right; left; by eexists _, _]].
  - intros rootPath workspaceFile. split.
    + intros Heq. simplify_eq. split; [by eexists|].
      do 2 (split; [done|]). rewrite Hlisting. apply Hfirst. by eexists.
    + intros ([others' Heq] & _ & Hne & Hfiles). simplify_eq.
      rewrite Hlisting in Hfiles. apply Hfirst in Hfiles as [? ?]. by simplify_eq.
  - intros error. split; [done|]. intros H. by destruct (Hthrown _ H).
Qed.

Lemma handleLoadFailure_spec_witness :
  handleLoadFailure fine projectFolder Sample.emptyFolder
  = Returned (AskAndOpenProject "/home/project/Device" "project.code-workspace").
Proof.
  apply (proj1 (handleLoadFailure_spec fine projectFolder Sample.emptyFolder)).
  split; [by eexists|]. split; [reflexivity|]. split; [discriminate|].
  exists ["README.md"], []. repeat split. by constructor.
Defined.
